(** * chess-coach: centipawn-loss analysis, aggregation and reporting

    A shallow embedding of the two entry scripts of the repository,
    [fetch_games_chess_dot_com.py] and [fetech_games.py].  The functions
    [get_mistake_category], [get_game_phase], [score_to_cp],
    [get_centipawn_loss], [analyze_game], [aggregate_all_games] and
    [generate_report] are textually identical in both scripts (only the
    constant [USERNAME] differs), so one embedding serves both;
    [get_db_connection], [fetch_chessdotcom_games], [save_game_analysis],
    [is_game_analyzed] and [main] exist only in the chess.com script, and
    the lichess script has its entry code at module level.

    Python integers are unbounded, hence [Z].  Python dicts keep insertion
    order and the reporter iterates over them while printing, so a dict is
    an association list in insertion order.  Exceptions are a [result]
    type; code that mutates shared objects or talks to a collaborator runs
    in a state-and-exception monad over the objects it touches.  The
    collaborators themselves (rules library, engine, PGN reader, floats,
    HTTP, hashing) are type classes.

    The first part of the file is the model, the second part the theorems
    about it. *)

From Stdlib Require Import ZArith List String DecimalString Bool Lia Permutation.
Import ListNotations.

Open Scope string_scope.
Open Scope Z_scope.

(** ** Exceptions and results *)

Inductive exn : Type :=
| IndexError
| KeyError (key : string)
| NameError (name : string)
| UnboundLocalError (name : string)
| AttributeError (what : string)
| ZeroDivisionError
| ConnectionError (msg : string)      (* requests.exceptions.ConnectionError *)
| HTTPError (status : Z)              (* requests.exceptions.HTTPError *)
| EngineError (msg : string)          (* chess.engine.EngineError and the like *)
| DatabaseError (msg : string).       (* psycopg2.Error *)

(** [isinstance(e, requests.exceptions.RequestException)]. *)
Definition is_RequestException (e : exn) : bool :=
  match e with
  | ConnectionError _ | HTTPError _ => true
  | _ => false
  end.

Inductive result (A : Type) : Type :=
| Ok (a : A)
| Raise (e : exn).
Arguments Ok {A} a.
Arguments Raise {A} e.

(** ** A state-and-exception monad

    [M S A] is a Python computation over the mutable objects [S] that
    either returns an [A] or raises; the objects keep whatever state they
    had when the exception was raised. *)

Module PyM.

Definition M (S A : Type) : Type := S -> result A * S.

Definition ret {S A} (a : A) : M S A := fun s => (Ok a, s).

Definition raise {S A} (e : exn) : M S A := fun s => (Raise e, s).

Definition bind {S A B} (m : M S A) (k : A -> M S B) : M S B :=
  fun s => match m s with
           | (Ok a, s') => k a s'
           | (Raise e, s') => (Raise e, s')
           end.

Definition get {S} : M S S := fun s => (Ok s, s).

Definition modify {S} (f : S -> S) : M S unit := fun s => (Ok tt, f s).

(** [try: body except <matching> as e: handler e]. *)
Definition try_except {S A} (body : M S A) (matching : exn -> bool)
    (handler : exn -> M S A) : M S A :=
  fun s => match body s with
           | (Ok a, s') => (Ok a, s')
           | (Raise e, s') => if matching e then handler e s' else (Raise e, s')
           end.

(** [try: body finally: cleanup]; an exception of [cleanup] replaces the
    outcome of [body]. *)
Definition try_finally {S A} (body : M S A) (cleanup : M S unit) : M S A :=
  fun s => match body s with
           | (r, s') => match cleanup s' with
                        | (Ok _, s'') => (r, s'')
                        | (Raise e, s'') => (Raise e, s'')
                        end
           end.

End PyM.

Import PyM.

Notation "x <- m ;; k" := (bind m (fun x => k))
  (at level 61, m at next level, right associativity).
Notation "m ;;; k" := (bind m (fun _ => k))
  (at level 61, right associativity).

(** A computation that returns normally from every state. *)
Definition returns {S A} (m : M S A) : Prop :=
  forall s, exists a s', m s = (Ok a, s').

(** A computation whose exceptions all satisfy [P]. *)
Definition raises_only {S A} (P : exn -> bool) (m : M S A) : Prop :=
  forall s e s', m s = (Raise e, s') -> P e = true.

(** A computation that returns normally from every state, with a result
    and a final state that satisfy [Q]. *)
Definition finishes {S A} (Q : A -> S -> Prop) (m : M S A) : Prop :=
  forall s, exists a s', m s = (Ok a, s') /\ Q a s'.

(** A computation that leaves [f] of the state as it was, however it
    ends, and one that keeps an invariant [I]. *)
Definition fixes {S A X} (f : S -> X) (m : M S A) : Prop :=
  forall s r s', m s = (r, s') -> f s' = f s.

Definition keeps {S A} (I : S -> Prop) (m : M S A) : Prop :=
  forall s r s', I s -> m s = (r, s') -> I s'.

(** ** Score normalizer *)

(** [chess.engine.Score]: [Cp(cp)], whose attribute [cp] is the value, or
    [Mate(moves)], of which [is_mate()] holds and whose [mate()] is the
    signed distance. *)
Inductive Score : Type :=
| Cp (cp : Z)
| Mate (moves : Z).

Definition score_to_cp (score : Score) (mate_value : Z) : Z :=
  match score with
  | Mate mate_in =>
      if mate_in >? 0 then mate_value - mate_in
      else - (mate_value + Z.abs mate_in)
  | Cp cp => cp
  end.

(** Both call sites pass [mate_value=10000], which is also the default. *)
Definition MATE_VALUE : Z := 10000.

(** ** Severity and phase classifiers *)

Definition get_mistake_category (cpl : Z) : string :=
  if cpl >? 300 then "Blunder"
  else if cpl >? 100 then "Mistake"
  else if cpl >? 50 then "Inaccuracy"
  else "Good Move".

Definition get_game_phase (move_num : Z) : string :=
  if move_num <=? 10 then "Opening"
  else if move_num <=? 30 then "Middlegame"
  else "Endgame".

(** ** Python dicts

    A dict is its list of items in insertion order; a well-formed dict has
    no key twice.  [dict_set] is [d[k] = v]: it overwrites in place or
    appends.  [defaultdict_getitem] is [d[k]] on a [defaultdict]: a missing
    key is first inserted with the factory's value. *)

Definition dict (V : Type) : Type := list (string * V).

Fixpoint dict_get {V} (k : string) (d : dict V) : option V :=
  match d with
  | [] => None
  | (k', v) :: d' => if String.eqb k k' then Some v else dict_get k d'
  end.

Fixpoint dict_set {V} (k : string) (v : V) (d : dict V) : dict V :=
  match d with
  | [] => [(k, v)]
  | (k', v') :: d' =>
      if String.eqb k k' then (k', v) :: d' else (k', v') :: dict_set k v d'
  end.

Definition defaultdict_getitem {V} (factory : V) (k : string) (d : dict V)
  : V * dict V :=
  match dict_get k d with
  | Some v => (v, d)
  | None => (factory, dict_set k factory d)
  end.

(** [d.get(k, dflt)]: no insertion. *)
Definition dict_get_default {V} (dflt : V) (k : string) (d : dict V) : V :=
  match dict_get k d with Some v => v | None => dflt end.

Definition keys {V} (d : dict V) : list string := map fst d.

Definition values {V} (d : dict V) : list V := map snd d.

Fixpoint mem (k : string) (ks : list string) : bool :=
  match ks with
  | [] => false
  | k' :: ks' => String.eqb k k' || mem k ks'
  end.

Fixpoint nodup_keys (ks : list string) : bool :=
  match ks with
  | [] => true
  | k :: ks' => negb (mem k ks') && nodup_keys ks'
  end.

Definition wf_dict {V} (d : dict V) : bool := nodup_keys (keys d).

(** [sum(xs)] and [len(xs)]. *)
Definition sum (xs : list Z) : Z := fold_left Z.add xs 0.

Definition len {A} (xs : list A) : Z := Z.of_nat (List.length xs).

(** Sum of [f] over the values of a dict, [sum(f(v) for v in d.values())]. *)
Definition dict_sum {V} (f : V -> Z) (d : dict V) : Z := sum (map f (values d)).

(** ** Per-game analysis result and aggregate summary *)

(** The inner dict [{'cpl': ..., 'count': ...}] of [phase_cpl_sum]. *)
Record PhaseStats : Type := {
  cpl : Z;
  count : Z
}.

Definition new_phase_stats : PhaseStats := {| cpl := 0; count := 0 |}.

Record AnalysisData : Type := {
  moves_analyzed : Z;
  mistakes_by_phase : dict Z;
  phase_cpl_sum : dict PhaseStats;
  user_cpl_values : list Z
}.

(** The summary dict; its keys [mistakes_by_phase] and [phase_cpl_sum] are
    prefixed here to keep them apart from those of the per-game result. *)
Record Summary : Type := {
  total_user_cpl_values : list Z;
  total_moves_analyzed : Z;
  total_mistakes_by_phase : dict Z;
  total_phase_cpl_sum : dict PhaseStats
}.

(** [counts[key] += n] on a [defaultdict(int)]. *)
Definition add_count (key : string) (n : Z) (counts : dict Z) : dict Z :=
  let '(old, counts) := defaultdict_getitem 0 key counts in
  dict_set key (old + n) counts.

(** [stats[phase]['cpl'] += n] and [stats[phase]['count'] += n] on the
    [defaultdict] of inner dicts: the inner dict is fetched (and created
    when missing) and one of its two entries is updated in place. *)
Definition add_phase_cpl (phase : string) (n : Z) (stats : dict PhaseStats)
  : dict PhaseStats :=
  let '(inner, stats) := defaultdict_getitem new_phase_stats phase stats in
  dict_set phase {| cpl := cpl inner + n; count := count inner |} stats.

Definition add_phase_count (phase : string) (n : Z) (stats : dict PhaseStats)
  : dict PhaseStats :=
  let '(inner, stats) := defaultdict_getitem new_phase_stats phase stats in
  dict_set phase {| cpl := cpl inner; count := count inner + n |} stats.

(** A per-game result whose two dicts are well-formed Python dicts. *)
Definition wf_analysis (data : AnalysisData) : Prop :=
  wf_dict (mistakes_by_phase data) = true /\
  wf_dict (phase_cpl_sum data) = true.

(** The bookkeeping invariant of a per-game result: the move count is the
    length of the centipawn-loss list and the total of the per-phase move
    counts, and bounds the total of the mistake-label counts. *)
Definition analysis_invariant (data : AnalysisData) : Prop :=
  moves_analyzed data = len (user_cpl_values data) /\
  moves_analyzed data = dict_sum count (phase_cpl_sum data) /\
  dict_sum id (mistakes_by_phase data) <= moves_analyzed data.

(** The same invariant on an aggregate summary. *)
Definition summary_invariant (s : Summary) : Prop :=
  total_moves_analyzed s = len (total_user_cpl_values s) /\
  total_moves_analyzed s = dict_sum count (total_phase_cpl_sum s) /\
  dict_sum id (total_mistakes_by_phase s) <= total_moves_analyzed s.

(** Lookups with the defaults of the two [defaultdict]s. *)
Definition mistake_count (label : string) (counts : dict Z) : Z :=
  dict_get_default 0 label counts.

Definition phase_stats (phase : string) (stats : dict PhaseStats) : PhaseStats :=
  dict_get_default new_phase_stats phase stats.

(** ** The chess library and the engine, as collaborators *)

Inductive Color : Type := WHITE | BLACK.

Definition Color_eqb (a b : Color) : bool :=
  match a, b with
  | WHITE, WHITE | BLACK, BLACK => true
  | _, _ => false
  end.

Definition opposite (c : Color) : Color :=
  match c with WHITE => BLACK | BLACK => WHITE end.

(** The rules library: moves, piece placements (with castling rights and
    the like) and the placement a move leads to. *)
Class ChessRules : Type := {
  Move : Type;
  Position : Type;
  play : Color -> Position -> Move -> Position
}.

Section Board.
Context `{ChessRules}.

Record BoardState : Type := {
  turn : Color;
  placement : Position
}.

(** [chess.Board]: the current state and, for every move pushed, the move
    and the state it was pushed on. *)
Record Board : Type := {
  state : BoardState;
  stack : list (Move * BoardState)
}.

Definition board_push (move : Move) (b : Board) : Board :=
  {| state := {| turn := opposite (turn (state b));
                 placement := play (turn (state b)) (placement (state b)) move |};
     stack := (move, state b) :: stack b |}.

Definition board_pop (b : Board) : result (Move * Board) :=
  match stack b with
  | [] => Raise IndexError
  | (move, s) :: rest => Ok (move, {| state := s; stack := rest |})
  end.

(** [chess.pgn.Game]: headers, the starting state of [game.board()] and the
    main line. *)
Record Game : Type := {
  headers : dict string;
  start : BoardState;
  mainline_moves : list Move
}.

End Board.

(** The engine process: [analyse e b] is
    [engine.analyse(board, chess.engine.Limit(depth=18))['score'].relative],
    which may raise and may change the engine's own state. *)
Class Engine `{ChessRules} : Type := {
  EngineState : Type;
  analyse : EngineState -> Board -> result Score * EngineState
}.

(** [chess.pgn.read_game(io.StringIO(game_pgn))], [None] when the text holds
    no game. *)
Class PgnReader `{ChessRules} : Type := {
  read_game : string -> option Game
}.

Section Analysis.
Context `{ChessRules} `{!Engine} `{!PgnReader}.
Variable USERNAME : string.

(** The objects a game analysis works on: the engine and the board. *)
Record World : Type := {
  engine : EngineState;
  board : Board
}.

Definition engine_analyse : M World Score :=
  fun w => let '(r, e) := analyse (engine w) (board w) in
           (r, {| engine := e; board := board w |}).

Definition push (move : Move) : M World unit :=
  modify (fun w => {| engine := engine w; board := board_push move (board w) |}).

Definition pop : M World Move :=
  fun w => match board_pop (board w) with
           | Ok (move, b) => (Ok move, {| engine := engine w; board := b |})
           | Raise e => (Raise e, w)
           end.

(** ** Move evaluator *)

Definition get_centipawn_loss (move : Move) : M World Z :=
  info_best <- engine_analyse ;;
  let score_best := score_to_cp info_best 10000 in
  push move ;;;
  info_actual <- engine_analyse ;;
  let score_actual := score_to_cp info_actual 10000 in
  pop ;;;
  let cpl := score_best - score_actual in
  ret (Z.max 0 cpl).

(** ** Game analyzer *)

(** [game.headers[name]]. *)
Definition header (game : Game) (name : string) : M World string :=
  match dict_get name (headers game) with
  | Some v => ret v
  | None => raise (KeyError name)
  end.

(** Python's short-circuit [and] and [or] on booleans. *)
Definition py_and (a b : M World bool) : M World bool :=
  x <- a ;; if x then b else ret false.

Definition py_or (a b : M World bool) : M World bool :=
  x <- a ;; if x then ret true else b.

Definition board_turn : M World Color :=
  w <- get ;; ret (turn (state (board w))).

Definition user_turn (game : Game) : M World bool :=
  py_or
    (py_and (t <- board_turn ;; ret (Color_eqb t WHITE))
            (h <- header game "White" ;; ret (String.eqb h USERNAME)))
    (py_and (t <- board_turn ;; ret (Color_eqb t BLACK))
            (h <- header game "Black" ;; ret (String.eqb h USERNAME))).

(** The body of [if user_turn:] after the evaluator returned [cpl]. *)
Definition tag_move (move_count c : Z) (analysis_data : AnalysisData)
  : AnalysisData :=
  let values := (user_cpl_values analysis_data ++ [c])%list in
  let analyzed := moves_analyzed analysis_data + 1 in
  let category := get_mistake_category c in
  let phase := get_game_phase move_count in
  let mistakes :=
    if negb (String.eqb category "Good Move")
    then add_count (phase ++ " - " ++ category)%string 1
           (mistakes_by_phase analysis_data)
    else mistakes_by_phase analysis_data in
  let stats := add_phase_cpl phase c (phase_cpl_sum analysis_data) in
  let stats := add_phase_count phase 1 stats in
  {| moves_analyzed := analyzed;
     mistakes_by_phase := mistakes;
     phase_cpl_sum := stats;
     user_cpl_values := values |}.

(** The loop [for move in game.mainline_moves()]. *)
Fixpoint analyze_moves (game : Game) (moves : list Move) (move_count : Z)
    (analysis_data : AnalysisData) : M World AnalysisData :=
  match moves with
  | [] => ret analysis_data
  | move :: moves' =>
      let move_count := move_count + 1 in
      ut <- user_turn game ;;
      analysis_data <-
        (if ut : bool
         then c <- get_centipawn_loss move ;;
              ret (tag_move move_count c analysis_data)
         else ret analysis_data) ;;
      push move ;;;
      analyze_moves game moves' move_count analysis_data
  end.

Definition new_analysis_data : AnalysisData :=
  {| moves_analyzed := 0;
     mistakes_by_phase := [];
     phase_cpl_sum := [];
     user_cpl_values := [] |}.

Definition analyze_game (game_pgn : string) : M World AnalysisData :=
  match read_game game_pgn with
  | None => raise (AttributeError "'NoneType' object has no attribute 'board'")
  | Some game =>
      modify (fun w => {| engine := engine w;
                          board := {| state := start game; stack := [] |} |}) ;;;
      analyze_moves game (mainline_moves game) 0 new_analysis_data
  end.

End Analysis.

(** ** Aggregator *)

(** [for error_type, count in data['mistakes_by_phase'].items()]. *)
Definition merge_mistakes (items : dict Z) (acc : dict Z) : dict Z :=
  fold_left (fun acc '(error_type, n) => add_count error_type n acc) items acc.

(** [for phase, stats in data['phase_cpl_sum'].items()]. *)
Definition merge_phases (items : dict PhaseStats) (acc : dict PhaseStats)
  : dict PhaseStats :=
  fold_left
    (fun acc '(phase, stats) =>
       add_phase_count phase (count stats) (add_phase_cpl phase (cpl stats) acc))
    items acc.

(** One round of [for data in all_results]. *)
Definition aggregate_step (final_summary : Summary) (data : AnalysisData)
  : Summary :=
  {| total_user_cpl_values :=
       (total_user_cpl_values final_summary ++ user_cpl_values data)%list;
     total_moves_analyzed :=
       total_moves_analyzed final_summary + moves_analyzed data;
     total_mistakes_by_phase :=
       merge_mistakes (mistakes_by_phase data)
         (total_mistakes_by_phase final_summary);
     total_phase_cpl_sum :=
       merge_phases (phase_cpl_sum data) (total_phase_cpl_sum final_summary) |}.

Definition new_summary : Summary :=
  {| total_user_cpl_values := [];
     total_moves_analyzed := 0;
     total_mistakes_by_phase := [];
     total_phase_cpl_sum := [] |}.

(** [None] is the result for an empty list of games. *)
Definition aggregate_all_games (all_results : list AnalysisData)
  : option Summary :=
  match all_results with
  | [] => None
  | _ => Some (fold_left aggregate_step all_results new_summary)
  end.

(** ** Reporter *)

(** Python floats stay abstract: true division of two ints, conversion of
    an int, comparison and the [:.2f] format. *)
Class PyFloat : Type := {
  float : Type;
  truediv : Z -> Z -> float;
  float_of_int : Z -> float;
  float_gt : float -> float -> bool;
  format_2f : float -> string
}.

(** What a run of the reporter does, in order: the lines it prints and the
    arithmetic it performs. *)
Inductive Event : Type :=
| Printed (text : string)
| Summed (xs : list Z)
| Divided (a b : Z)
| Added (a b : Z).

Definition is_arithmetic (e : Event) : bool :=
  match e with Printed _ => false | _ => true end.

Definition nl : string := String (Ascii.ascii_of_nat 10) EmptyString.

(** [str(n)] of an int. *)
Definition str (n : Z) : string := NilZero.string_of_int (Z.to_int n).

Section Reporter.
Context `{PyFloat}.

Definition emit (e : Event) : M (list Event) unit :=
  modify (fun trace => (trace ++ [e])%list).

Definition print (text : string) : M (list Event) unit := emit (Printed text).

Definition py_sum (xs : list Z) : M (list Event) Z :=
  emit (Summed xs) ;;; ret (sum xs).

(** [a / b] on ints raises [ZeroDivisionError] for [b == 0]. *)
Definition py_truediv (a b : Z) : M (list Event) float :=
  emit (Divided a b) ;;;
  if b =? 0 then raise ZeroDivisionError else ret (truediv a b).

Definition py_add (a b : Z) : M (list Event) Z :=
  emit (Added a b) ;;; ret (a + b).

(** [for phase, stats in phase_stats.items()], carrying
    [highest_cpl_phase] and [max_acpl]. *)
Fixpoint report_phases (items : dict PhaseStats)
    (highest_cpl_phase : option string) (max_acpl : float)
  : M (list Event) (option string * float) :=
  match items with
  | [] => ret (highest_cpl_phase, max_acpl)
  | (phase, stats) :: items' =>
      carried <-
        (if count stats >? 0
         then
           phase_acpl <- py_truediv (cpl stats) (count stats) ;;
           print ("- " ++ phase ++ " ACPL: " ++ format_2f phase_acpl
                  ++ " cp (" ++ str (count stats) ++ " moves)") ;;;
           if float_gt phase_acpl max_acpl
           then ret (Some phase, phase_acpl)
           else ret (highest_cpl_phase, max_acpl)
         else ret (highest_cpl_phase, max_acpl)) ;;
      report_phases items' (fst carried) (snd carried)
  end.

(** [max(items, key=lambda item: item[1])]: the first item of greatest
    count. *)
Fixpoint max_by_count (best : string * Z) (items : dict Z) : string * Z :=
  match items with
  | [] => best
  | item :: items' =>
      max_by_count (if snd item >? snd best then item else best) items'
  end.

Definition most_common (mistake_counts : dict Z) : string * Z :=
  match mistake_counts with
  | [] => ("None", 0)
  | item :: items => max_by_count item items
  end.

(** [for error, count in mistake_counts.items()], carrying
    [total_mistakes]. *)
Fixpoint report_mistakes (items : dict Z) (total_mistakes : Z)
  : M (list Event) Z :=
  match items with
  | [] => ret total_mistakes
  | (error, n) :: items' =>
      total_mistakes <- py_add total_mistakes n ;;
      print ("- " ++ error ++ ": " ++ str n ++ " times") ;;;
      report_mistakes items' total_mistakes
  end.

(** The summary dict always has its four keys, so [not aggregated_data]
    holds of [None] only. *)
Definition generate_report (aggregated_data : option Summary)
  : M (list Event) unit :=
  match aggregated_data with
  | None => print "No aggregated data to report."
  | Some aggregated_data =>
      let user_cpl_values := total_user_cpl_values aggregated_data in
      match user_cpl_values with
      | [] => print "No moves were analyzed for the user across all games."
      | _ =>
          total <- py_sum user_cpl_values ;;
          avg_cpl <- py_truediv total (len user_cpl_values) ;;
          print (nl ++ nl ++ "--- ♟️ COACHING REPORT (10 Games) ---") ;;;
          print ("Overall Accuracy Score (ACPL): **" ++ format_2f avg_cpl
                 ++ " cp** (This places you in the Beginner range >100 cp)") ;;;
          print (nl ++ "### Weakness by Game Phase") ;;;
          carried <- report_phases (total_phase_cpl_sum aggregated_data)
                       None (float_of_int (-1)) ;;
          match fst carried with
          | Some (String _ _ as highest_cpl_phase) =>
              print (nl ++ "💡 **Primary Focus:** Your highest error rate "
                     ++ "occurred in the **" ++ highest_cpl_phase ++ "** phase.")
          | _ => ret tt
          end ;;;
          print (nl ++ "### Mistake Breakdown") ;;;
          let mistake_counts := total_mistakes_by_phase aggregated_data in
          match mistake_counts with
          | [] => ret tt
          | _ =>
              let most_common_error := most_common mistake_counts in
              if snd most_common_error >? 0
              then
                print ("**Actionable Insight:** The most frequent error was a **"
                       ++ fst most_common_error ++ "**.") ;;;
                print "---" ;;;
                total_mistakes <- report_mistakes mistake_counts 0 ;;
                print (nl ++ "**Total Blunders/Mistakes/Inaccuracies:** "
                       ++ str total_mistakes)
              else ret tt
          end
      end
  end.

End Reporter.

(** ** Messages of exceptions: [str(e)] *)

Definition exn_message (e : exn) : string :=
  match e with
  | IndexError => "pop from empty list"
  | KeyError key => "'" ++ key ++ "'"
  | NameError name => "name '" ++ name ++ "' is not defined"
  | UnboundLocalError name =>
      "cannot access local variable '" ++ name
      ++ "' where it is not associated with a value"
  | AttributeError what => what
  | ZeroDivisionError => "division by zero"
  | ConnectionError msg => msg
  | HTTPError status => str status ++ " Error"
  | EngineError msg => msg
  | DatabaseError msg => msg
  end.

(** [except Exception]: every exception of the model is one. *)
Definition is_Exception (e : exn) : bool := true.

(** Python truthiness of an optional string: [None] and the empty string
    are false. *)
Definition truthy (s : option string) : bool :=
  match s with
  | Some (String _ _) => true
  | _ => false
  end.

(** ** The chess.com script: configuration and module globals *)

Module ChessDotCom.

Definition DB_NAME : string := "chess_analysis".
Definition DB_USER : string := "kirat".
Definition USERNAME : string := "hunterisbad1".
Definition NUM_GAMES : Z := 1.
Definition STOCKFISH_PATH : string := "/usr/games/stockfish".
Definition ANALYSIS_DEPTH : Z := 18.

(** Values bound to names, as far as the model looks at them. *)
Inductive PyValue : Type :=
| VNone
| VInt (n : Z)
| VStr (s : string)
| VObject (description : string).   (* a module or a function *)

(** Every name bound at module level of the script, in order of binding:
    the imports, the constants and the functions. *)
Definition module_globals : dict PyValue :=
  [("berserk", VObject "module"); ("chess", VObject "module");
   ("io", VObject "module"); ("requests", VObject "module");
   ("defaultdict", VObject "class"); ("psycopg2", VObject "module");
   ("sql", VObject "module"); ("json", VObject "module");
   ("hashlib", VObject "module");
   ("DB_NAME", VStr DB_NAME); ("DB_USER", VStr DB_USER);
   ("DB_PASSWORD", VNone); ("DB_HOST", VNone);
   ("get_db_connection", VObject "function");
   ("USERNAME", VStr USERNAME); ("NUM_GAMES", VInt NUM_GAMES);
   ("STOCKFISH_PATH", VStr STOCKFISH_PATH);
   ("ANALYSIS_DEPTH", VInt ANALYSIS_DEPTH);
   ("fetch_chessdotcom_games", VObject "function");
   ("get_mistake_category", VObject "function");
   ("get_game_phase", VObject "function");
   ("get_centipawn_loss", VObject "function");
   ("score_to_cp", VObject "function");
   ("analyze_game", VObject "function");
   ("aggregate_all_games", VObject "function");
   ("save_game_analysis", VObject "function");
   ("generate_report", VObject "function");
   ("is_game_analyzed", VObject "function");
   ("main", VObject "function")].

(** Reading a name that the function body never assigns: a global lookup,
    [NameError] when the module does not bind it (no builtin is called
    [overall_acpl] or the like). *)
Definition load_global {S} (name : string) : M S PyValue :=
  match dict_get name module_globals with
  | Some v => ret v
  | None => raise (NameError name)
  end.

(** *** Persistence *)

(** A row of [analyzed_games]; [game_url] is the primary key. *)
Record Row : Type := {
  game_url : string;
  username : PyValue;
  date : string;
  pgn : string;
  overall_acpl : PyValue;
  opening_acpl : PyValue;
  middlegame_acpl : PyValue;
  endgame_acpl : PyValue;
  mistake_breakdown : string
}.

(** The connection: the committed table, the table as the open
    transaction sees it, the number of open cursors, and the console. *)
Record Store : Type := {
  committed : dict Row;
  pending : dict Row;
  open_cursors : Z;
  stdout : list string
}.

(** [INSERT ... ON CONFLICT (game_url) DO UPDATE SET] the four averages and
    the breakdown: an existing row keeps its username, date and pgn. *)
Definition upsert (new : Row) (table : dict Row) : dict Row :=
  match dict_get (game_url new) table with
  | Some old =>
      dict_set (game_url new)
        {| game_url := game_url old; username := username old;
           date := date old; pgn := pgn old;
           overall_acpl := overall_acpl new;
           opening_acpl := opening_acpl new;
           middlegame_acpl := middlegame_acpl new;
           endgame_acpl := endgame_acpl new;
           mistake_breakdown := mistake_breakdown new |} table
  | None => dict_set (game_url new) new table
  end.

Definition conn_cursor : M Store unit :=
  modify (fun st => {| committed := committed st; pending := pending st;
                       open_cursors := open_cursors st + 1;
                       stdout := stdout st |}).

Definition cursor_close : M Store unit :=
  modify (fun st => {| committed := committed st; pending := pending st;
                       open_cursors := open_cursors st - 1;
                       stdout := stdout st |}).

Definition cursor_execute_insert (row : Row) : M Store unit :=
  modify (fun st => {| committed := committed st;
                       pending := upsert row (pending st);
                       open_cursors := open_cursors st;
                       stdout := stdout st |}).

Definition conn_commit : M Store unit :=
  modify (fun st => {| committed := pending st; pending := pending st;
                       open_cursors := open_cursors st;
                       stdout := stdout st |}).

Definition conn_rollback : M Store unit :=
  modify (fun st => {| committed := committed st; pending := committed st;
                       open_cursors := open_cursors st;
                       stdout := stdout st |}).

Definition store_print (text : string) : M Store unit :=
  modify (fun st => {| committed := committed st; pending := pending st;
                       open_cursors := open_cursors st;
                       stdout := (stdout st ++ [text])%list |}).

(** [hashlib.sha256(...).hexdigest()] and [json.dumps] of the label
    counts. *)
Class Codecs : Type := {
  sha256_hexdigest : string -> string;
  json_dumps : dict Z -> string
}.

Section Save.
Context `{ChessRules} `{!PgnReader} `{Codecs}.

(** The stable identifier: the URL header, or a hash of the movetext. *)
Definition game_identifier (game : Game) (game_pgn : string) : string :=
  let game_url := dict_get "URL" (headers game) in
  if negb (truthy game_url)
  then "SHA256_" ++ sha256_hexdigest game_pgn
  else match game_url with Some url => url | None => EmptyString end.

(** The argument tuple of [cursor.execute] is built left to right:
    [game_url], [game_date], [game_pgn] and [mistake_json] are locals,
    [USERNAME] and the four averages are names the body never assigns. *)
Definition save_game_analysis (game_pgn : string) (analysis_data : AnalysisData)
  : M Store unit :=
  match read_game game_pgn with
  | None => raise (AttributeError "'NoneType' object has no attribute 'headers'")
  | Some game =>
      let game_url := game_identifier game game_pgn in
      let game_date := dict_get_default "1970.01.01" "Date" (headers game) in
      let mistake_json := json_dumps (mistakes_by_phase analysis_data) in
      conn_cursor ;;;
      try_finally
        (try_except
           (v_username <- load_global "USERNAME" ;;
            v_overall_acpl <- load_global "overall_acpl" ;;
            v_opening_acpl <- load_global "opening_acpl" ;;
            v_middlegame_acpl <- load_global "middlegame_acpl" ;;
            v_endgame_acpl <- load_global "endgame_acpl" ;;
            cursor_execute_insert
              {| game_url := game_url; username := v_username;
                 date := game_date; pgn := game_pgn;
                 overall_acpl := v_overall_acpl;
                 opening_acpl := v_opening_acpl;
                 middlegame_acpl := v_middlegame_acpl;
                 endgame_acpl := v_endgame_acpl;
                 mistake_breakdown := mistake_json |} ;;;
            conn_commit)
           is_Exception
           (fun e =>
              store_print ("Error inserting game " ++ game_url ++ ": "
                           ++ exn_message e) ;;;
              conn_rollback))
        cursor_close
  end.

End Save.

(** *** Game fetcher *)

(** One entry of an archive's [games] list; [pgn_text] is
    [game_data.get('pgn')]. *)
Record GameData : Type := {
  pgn_text : option string
}.

(** An HTTP response whose body is a JSON object; the two fields are
    [response.json().get('archives')] and [response.json().get('games')],
    [None] when the key is missing. *)
Record Response : Type := {
  status_code : Z;
  json_archives : option (list string);
  json_games : option (list GameData)
}.

(** [requests.get] returns a response or raises a [RequestException]
    (a refused or timed-out connection) before any response exists. *)
Inductive HttpReply : Type :=
| GetReturns (response : Response)
| GetRaises (msg : string).

Class Http : Type := {
  Network : Type;
  requests_get : string -> Network -> HttpReply * Network
}.

Section Fetch.
Context `{Http}.

(** The network, the console and the local variable [response] of the
    fetcher, unbound until [requests.get] has returned once. *)
Record FetchState : Type := {
  network : Network;
  console : list string;
  response : option Response
}.

(** The state on entry to the fetcher: no local is bound yet. *)
Definition on_entry (n : Network) (out : list string) : FetchState :=
  {| network := n; console := out; response := None |}.

Definition fetch_print (text : string) : M FetchState unit :=
  modify (fun st => {| network := network st;
                       console := (console st ++ [text])%list;
                       response := response st |}).

Definition http_get (url : string) : M FetchState Response :=
  fun st => match requests_get url (network st) with
            | (GetReturns r, n) =>
                (Ok r, {| network := n; console := console st;
                          response := response st |})
            | (GetRaises msg, n) =>
                (Raise (ConnectionError msg),
                 {| network := n; console := console st;
                    response := response st |})
            end.

(** [response = ...]. *)
Definition store_response (r : Response) : M FetchState unit :=
  modify (fun st => {| network := network st; console := console st;
                       response := Some r |}).

(** Reading the local [response]. *)
Definition load_response : M FetchState Response :=
  st <- get ;;
  match response st with
  | Some r => ret r
  | None => raise (UnboundLocalError "response")
  end.

(** [raise_for_status()] raises for 4xx and 5xx. *)
Definition raise_for_status (r : Response) : M FetchState unit :=
  if (400 <=? status_code r) && (status_code r <? 600)
  then raise (HTTPError (status_code r))
  else ret tt.

(** [for game_data in reversed(games_json)]; the flag tells whether the
    loop left through [return all_pgn_data]. *)
Fixpoint collect_games (games : list GameData) (all_pgn_data : list string)
    (max_games : Z) : list string * bool :=
  match games with
  | [] => (all_pgn_data, false)
  | game_data :: games' =>
      let all_pgn_data :=
        match pgn_text game_data with
        | Some text =>
            if truthy (Some text) && (len all_pgn_data <? max_games)
            then (all_pgn_data ++ [text])%list
            else all_pgn_data
        | None => all_pgn_data
        end in
      if len all_pgn_data >=? max_games
      then (all_pgn_data, true)
      else collect_games games' all_pgn_data max_games
  end.

(** [for url in reversed(archives)]. *)
Fixpoint fetch_archives (urls : list string) (all_pgn_data : list string)
    (max_games : Z) : M FetchState (list string) :=
  match urls with
  | [] => ret all_pgn_data
  | url :: urls' =>
      fetch_print ("Fetching games from " ++ url ++ "...") ;;;
      round <-
        try_except
          (archive_response <- http_get url ;;
           raise_for_status archive_response ;;;
           let games_json :=
             match json_games archive_response with
             | Some games => games
             | None => []
             end in
           ret (collect_games (rev games_json) all_pgn_data max_games))
          is_RequestException
          (fun e =>
             fetch_print ("Error fetching archive " ++ url ++ ": "
                          ++ exn_message e) ;;;
             ret (all_pgn_data, false)) ;;
      if snd round : bool
      then ret (fst round)
      else fetch_archives urls' (fst round) max_games
  end.

Definition fetch_chessdotcom_games (username : string) (max_games : Z)
  : M FetchState (list string) :=
  let all_pgn_data := [] in
  let archive_url :=
    "https://api.chess.com/pub/player/" ++ username ++ "/games/archives" in
  fetch_print ("Checking Chess.com archives for " ++ username ++ "...") ;;;
  listing <-
    try_except
      (r <- http_get archive_url ;;
       store_response r ;;;
       r <- load_response ;;
       raise_for_status r ;;;
       r <- load_response ;;
       ret (Some match json_archives r with
                 | Some archives => archives
                 | None => []
                 end))
      is_RequestException
      (fun e =>
         r <- load_response ;;
         (if status_code r =? 404
          then fetch_print "Error: Username not found (404). Please check spelling."
          else
            r <- load_response ;;
            if status_code r =? 403
            then fetch_print
                   "Error: Access Forbidden (403). Try adding a User-Agent header."
            else fetch_print ("Error fetching archives: " ++ exn_message e)) ;;;
         ret None) ;;
  match listing with
  | None => ret []
  | Some archives => fetch_archives (rev archives) all_pgn_data max_games
  end.

End Fetch.

End ChessDotCom.

(** ** The chess.com script: existence check and entry point *)

Module ChessDotComMain.
Import ChessDotCom.

(** [isinstance(e, psycopg2.Error)]. *)
Definition is_psycopg2_Error (e : exn) : bool :=
  match e with DatabaseError _ => true | _ => false end.

Section Check.
Context `{ChessRules} `{!PgnReader} `{Codecs}.

(** [SELECT EXISTS(SELECT 1 FROM analyzed_games WHERE game_url = %s)]
    followed by [fetchone()[0]], as the open transaction sees the table. *)
Definition cursor_execute_exists (url : string) : M Store bool :=
  st <- get ;;
  ret (match dict_get url (pending st) with Some _ => true | None => false end).

(** The body asks for a cursor twice and closes the second one. *)
Definition is_game_analyzed (game_pgn : string) : M Store bool :=
  match read_game game_pgn with
  | None => raise (AttributeError "'NoneType' object has no attribute 'headers'")
  | Some game =>
      let game_url := game_identifier game game_pgn in
      conn_cursor ;;;
      conn_cursor ;;;
      try_finally
        (try_except
           (already_analyzed <- cursor_execute_exists game_url ;;
            ret already_analyzed)
           is_Exception
           (fun e =>
              store_print ("Database check error: " ++ exn_message e
                           ++ ". Assuming unanalyzed.") ;;;
              ret false))
        cursor_close
  end.

End Check.

(** The machine the script runs on: whether the database server accepts
    the connection ([Some msg] is the [psycopg2.Error] it raises
    otherwise) and what starting the engine program gives. *)
Class Host `{ChessRules} `{!Engine} : Type := {
  connect_error : option string;
  popen_uci : string -> result EngineState
}.

(** What reaches the terminal: [print(text)] and [print(text, end="")]. *)
Inductive Output : Type :=
| Line (text : string)
| Partial (text : string).

(** The lines a run of the reporter prints. *)
Definition printed_lines (trace : list Event) : list Output :=
  flat_map (fun e => match e with Printed text => [Line text] | _ => [] end) trace.

Section Main.
Context `{ChessRules} `{!Engine} `{!PgnReader} `{Codecs} `{Http} `{PyFloat} `{!Host}.

(** The process: the database table (committed and as the transaction
    sees it) with its open cursors, the network, the terminal, whether the
    connection is open and the engine program runs, and the two locals
    [conn] (is it not [None]) and [engine] of [main], which its [finally]
    block reads. *)
Record Process : Type := {
  table_committed : dict Row;
  table_pending : dict Row;
  cursors : Z;
  net : Network;
  terminal : list Output;
  conn_open : bool;
  engine_alive : bool;
  conn : bool;
  engine_handle : option EngineState
}.

Definition write (o : Output) : M Process unit :=
  modify (fun p =>
    {| table_committed := table_committed p; table_pending := table_pending p;
       cursors := cursors p; net := net p;
       terminal := (terminal p ++ [o])%list;
       conn_open := conn_open p; engine_alive := engine_alive p;
       conn := conn p; engine_handle := engine_handle p |}).

(** Running database code of the script on the process's connection. *)
Definition on_store {A} (m : M Store A) : M Process A :=
  fun p =>
    let '(r, st) := m {| committed := table_committed p;
                         pending := table_pending p;
                         open_cursors := cursors p;
                         stdout := [] |} in
    (r, {| table_committed := committed st; table_pending := pending st;
           cursors := open_cursors st; net := net p;
           terminal := (terminal p ++ map Line (stdout st))%list;
           conn_open := conn_open p; engine_alive := engine_alive p;
           conn := conn p; engine_handle := engine_handle p |}).

(** A call of the fetcher: its locals are fresh. *)
Definition on_network {A} (m : M FetchState A) : M Process A :=
  fun p =>
    let '(r, st) := m (on_entry (net p) []) in
    (r, {| table_committed := table_committed p; table_pending := table_pending p;
           cursors := cursors p; net := network st;
           terminal := (terminal p ++ map Line (console st))%list;
           conn_open := conn_open p; engine_alive := engine_alive p;
           conn := conn p; engine_handle := engine_handle p |}).

Definition on_terminal {A} (m : M (list Event) A) : M Process A :=
  fun p =>
    let '(r, trace) := m [] in
    (r, {| table_committed := table_committed p; table_pending := table_pending p;
           cursors := cursors p; net := net p;
           terminal := (terminal p ++ printed_lines trace)%list;
           conn_open := conn_open p; engine_alive := engine_alive p;
           conn := conn p; engine_handle := engine_handle p |}).

(** [analyze_game(game_pgn, engine)] with the local [engine]; the board
    the analyzer creates is the one its world starts on. *)
Definition run_analyze_game (game_pgn : string) : M Process AnalysisData :=
  fun p =>
    match engine_handle p with
    | None => (Raise (AttributeError "'NoneType' object has no attribute 'analyse'"), p)
    | Some e =>
        match read_game game_pgn with
        | None => (Raise (AttributeError "'NoneType' object has no attribute 'board'"), p)
        | Some game =>
            let '(r, w) :=
              analyze_game USERNAME game_pgn
                {| engine := e; board := {| state := start game; stack := [] |} |} in
            (r, {| table_committed := table_committed p;
                   table_pending := table_pending p;
                   cursors := cursors p; net := net p; terminal := terminal p;
                   conn_open := conn_open p; engine_alive := engine_alive p;
                   conn := conn p; engine_handle := Some (engine w) |})
        end
    end.

(** [psycopg2.connect(dbname=DB_NAME, user=DB_USER)]. *)
Definition psycopg2_connect : M Process unit :=
  match connect_error with
  | Some msg => raise (DatabaseError msg)
  | None =>
      modify (fun p =>
        {| table_committed := table_committed p; table_pending := table_pending p;
           cursors := cursors p; net := net p; terminal := terminal p;
           conn_open := true; engine_alive := engine_alive p;
           conn := conn p; engine_handle := engine_handle p |})
  end.

(** Returns whether a connection, rather than [None], is returned. *)
Definition get_db_connection : M Process bool :=
  try_except
    (psycopg2_connect ;;; ret true)
    is_psycopg2_Error
    (fun e =>
       write (Line ("Database connection error: " ++ exn_message e)) ;;;
       ret false).

(** [conn = ...]. *)
Definition assign_conn (c : bool) : M Process unit :=
  modify (fun p =>
    {| table_committed := table_committed p; table_pending := table_pending p;
       cursors := cursors p; net := net p; terminal := terminal p;
       conn_open := conn_open p; engine_alive := engine_alive p;
       conn := c; engine_handle := engine_handle p |}).

(** [engine = chess.engine.SimpleEngine.popen_uci(STOCKFISH_PATH)]. *)
Definition start_engine : M Process unit :=
  match popen_uci STOCKFISH_PATH with
  | Raise e => raise e
  | Ok e =>
      modify (fun p =>
        {| table_committed := table_committed p; table_pending := table_pending p;
           cursors := cursors p; net := net p; terminal := terminal p;
           conn_open := conn_open p; engine_alive := true;
           conn := conn p; engine_handle := Some e |})
  end.

Definition engine_quit : M Process unit :=
  modify (fun p =>
    {| table_committed := table_committed p; table_pending := table_pending p;
       cursors := cursors p; net := net p; terminal := terminal p;
       conn_open := conn_open p; engine_alive := false;
       conn := conn p; engine_handle := engine_handle p |}).

(** [conn.close()] abandons the open transaction. *)
Definition conn_close : M Process unit :=
  modify (fun p =>
    {| table_committed := table_committed p; table_pending := table_committed p;
       cursors := cursors p; net := net p; terminal := terminal p;
       conn_open := false; engine_alive := engine_alive p;
       conn := conn p; engine_handle := engine_handle p |}).

(** [for game_pgn in games_pgn_list], collecting [games_to_analyze]. *)
Fixpoint skip_analyzed (games_pgn_list games_to_analyze : list string)
  : M Process (list string) :=
  match games_pgn_list with
  | [] => ret games_to_analyze
  | game_pgn :: rest =>
      p <- get ;;
      analyzed <- (if conn p then on_store (is_game_analyzed game_pgn)
                   else ret false) ;;
      if analyzed : bool
      then write (Partial ".") ;;; skip_analyzed rest games_to_analyze
      else skip_analyzed rest (games_to_analyze ++ [game_pgn])%list
  end.

(** [for i, game_pgn in enumerate(games_to_analyze)], collecting
    [all_cpl_results]; [total] is [len(games_to_analyze)]. *)
Fixpoint analyze_and_save (games : list string) (i total : Z)
    (all_cpl_results : list AnalysisData) : M Process (list AnalysisData) :=
  match games with
  | [] => ret all_cpl_results
  | game_pgn :: rest =>
      write (Line ("Analyzing new game " ++ str (i + 1) ++ "/" ++ str total
                   ++ "...")) ;;;
      result <- run_analyze_game game_pgn ;;
      let all_cpl_results := (all_cpl_results ++ [result])%list in
      on_store (save_game_analysis game_pgn result) ;;;
      analyze_and_save rest (i + 1) total all_cpl_results
  end.

(** The [try] block of [main] from the engine start on, reached with a
    connection. *)
Definition main_with_connection : M Process unit :=
  write (Line ("Initializing Stockfish at depth " ++ str ANALYSIS_DEPTH
               ++ "...")) ;;;
  start_engine ;;;
  write (Line ("Fetching last " ++ str NUM_GAMES ++ " games for " ++ USERNAME
               ++ " from Chess.com...")) ;;;
  games_pgn_list <- on_network (fetch_chessdotcom_games USERNAME NUM_GAMES) ;;
  match games_pgn_list with
  | [] =>
      write (Line "Could not fetch any games from Chess.com. Aborting analysis.")
  | _ =>
      write (Partial "Checking database for analyzed games...") ;;;
      games_to_analyze <- skip_analyzed games_pgn_list [] ;;
      write (Line (nl ++ "Found " ++ str (len games_to_analyze)
                   ++ " new game(s) needing analysis.")) ;;;
      all_cpl_results <-
        analyze_and_save games_to_analyze 0 (len games_to_analyze) [] ;;
      let final_summary := aggregate_all_games all_cpl_results in
      match final_summary with
      | Some _ => on_terminal (generate_report final_summary)
      | None =>
          write (Line ("No new analysis was performed, and no data was "
                       ++ "available for reporting."))
      end
  end.

(** The [try] block of [main]. *)
Definition main_body : M Process unit :=
  c <- get_db_connection ;;
  assign_conn c ;;;
  if negb c
  then write (Line "Fatal: Could not connect to database. Aborting analysis.")
  else main_with_connection.

(** The [finally] block of [main]. *)
Definition main_cleanup : M Process unit :=
  p <- get ;;
  match engine_handle p with
  | Some _ => try_except engine_quit is_Exception (fun _ => ret tt)
  | None => ret tt
  end ;;;
  p <- get ;;
  if conn p
  then try_except
         (conn_close ;;; write (Line "Database connection closed."))
         is_Exception (fun _ => ret tt)
  else ret tt.

Definition main : M Process unit :=
  modify (fun p =>
    {| table_committed := table_committed p; table_pending := table_pending p;
       cursors := cursors p; net := net p; terminal := terminal p;
       conn_open := conn_open p; engine_alive := engine_alive p;
       conn := false; engine_handle := None |}) ;;;
  try_finally
    (try_except main_body is_Exception
       (fun e => write (Line (nl ++ "AN ERROR OCCURRED: " ++ exn_message e))))
    main_cleanup.

(** The process when the script starts: nothing open, nothing running,
    an idle transaction. *)
Definition boot (table : dict Row) (n : Network) : Process :=
  {| table_committed := table; table_pending := table; cursors := 0;
     net := n; terminal := [];
     conn_open := false; engine_alive := false;
     conn := false; engine_handle := None |}.

End Main.

End ChessDotComMain.

(** ** The lichess script: entry point *)

Module LichessMain.

Definition USERNAME : string := "kirat0070".
Definition NUM_GAMES : Z := 10.
Definition STOCKFISH_PATH : string := "/usr/games/stockfish".
Definition ANALYSIS_DEPTH : Z := 18.

(** The machine and the lichess client: what starting the engine program
    gives, and the generator [export_by_player(USERNAME, max=NUM_GAMES,
    as_pgn=True)] returns, as the games it yields and the exception, if
    any, that ends the iteration. *)
Class Machine `{ChessRules} `{!Engine} : Type := {
  popen_uci : string -> result EngineState;
  export_by_player : string -> Z -> list string * option exn
}.

Section Main.
Context `{ChessRules} `{!Engine} `{!PgnReader} `{PyFloat} `{!Machine}.

(** The process: the printed lines, whether the engine program runs, and
    the module-level name [engine], unbound until the engine has
    started. *)
Record Process : Type := {
  terminal : list string;
  engine_alive : bool;
  engine_handle : option EngineState
}.

Definition boot : Process :=
  {| terminal := []; engine_alive := false; engine_handle := None |}.

Definition print_line (text : string) : M Process unit :=
  modify (fun p => {| terminal := (terminal p ++ [text])%list;
                      engine_alive := engine_alive p;
                      engine_handle := engine_handle p |}).

(** [engine = chess.engine.SimpleEngine.popen_uci(STOCKFISH_PATH)]. *)
Definition start_engine : M Process unit :=
  match popen_uci STOCKFISH_PATH with
  | Raise e => raise e
  | Ok e =>
      modify (fun p => {| terminal := terminal p; engine_alive := true;
                          engine_handle := Some e |})
  end.

Definition engine_quit : M Process unit :=
  modify (fun p => {| terminal := terminal p; engine_alive := false;
                      engine_handle := engine_handle p |}).

(** [analyze_game(game_pgn, engine)]; the board the analyzer creates is
    the one its world starts on. *)
Definition run_analyze_game (game_pgn : string) : M Process AnalysisData :=
  fun p =>
    match engine_handle p with
    | None => (Raise (NameError "engine"), p)
    | Some e =>
        match read_game game_pgn with
        | None => (Raise (AttributeError "'NoneType' object has no attribute 'board'"), p)
        | Some game =>
            let '(r, w) :=
              analyze_game USERNAME game_pgn
                {| engine := e; board := {| state := start game; stack := [] |} |} in
            (r, {| terminal := terminal p; engine_alive := engine_alive p;
                   engine_handle := Some (engine w) |})
        end
    end.

(** The lines a run of the reporter prints go to the terminal. *)
Definition run_generate_report (aggregated_data : option Summary) : M Process unit :=
  fun p =>
    let '(r, trace) := generate_report aggregated_data [] in
    (r, {| terminal :=
             (terminal p
              ++ flat_map (fun e => match e with Printed text => [text] | _ => [] end)
                   trace)%list;
           engine_alive := engine_alive p;
           engine_handle := engine_handle p |}).

(** [for game_pgn in games], collecting [all_cpl_results]; when the
    generator is exhausted its pending exception, if any, is raised. *)
Fixpoint analyze_all (yielded : list string) (failure : option exn)
    (all_cpl_results : list AnalysisData) : M Process (list AnalysisData) :=
  match yielded with
  | [] =>
      match failure with
      | Some e => raise e
      | None => ret all_cpl_results
      end
  | game_pgn :: rest =>
      result <- run_analyze_game game_pgn ;;
      analyze_all rest failure (all_cpl_results ++ [result])%list
  end.

(** The [try] block. *)
Definition main_body : M Process unit :=
  print_line ("Initializing Stockfish at depth " ++ str ANALYSIS_DEPTH ++ "...") ;;;
  start_engine ;;;
  print_line ("Fetching last " ++ str NUM_GAMES ++ " games for " ++ USERNAME
              ++ "..." ++ nl) ;;;
  let games := export_by_player USERNAME NUM_GAMES in
  all_cpl_results <- analyze_all (fst games) (snd games) [] ;;
  let final_summary := aggregate_all_games all_cpl_results in
  run_generate_report final_summary.

(** The [finally] block: [if 'engine' in locals(): engine.quit()]. *)
Definition main_cleanup : M Process unit :=
  p <- get ;;
  match engine_handle p with
  | Some _ => engine_quit
  | None => ret tt
  end.

Definition main : M Process unit :=
  try_finally
    (try_except main_body is_Exception
       (fun e => print_line (nl ++ "AN ERROR OCCURRED: " ++ exn_message e)))
    main_cleanup.

End Main.

End LichessMain.

(** ** Concrete collaborators and sample data

    Small executable collaborators on which the model can be run: a move
    is a number, a placement is the list of moves played, the engine
    scores a board by the last move played and counts its own queries,
    and the failing engines raise on every query or on every board with a
    move pushed. *)

Module Demo.

Definition rules : ChessRules :=
  {| Move := Z; Position := list Z; play := fun _ p m => m :: p |}.

Definition initial : @BoardState rules :=
  @Build_BoardState rules WHITE [].

Definition fresh_board : @Board rules := @Build_Board rules initial [].

Definition evaluate (b : @Board rules) : Score :=
  match placement (state b) with
  | [] => Cp 30
  | m :: _ => if m =? 0 then Mate (-2) else Cp (20 - m)
  end.

Definition engine : @Engine rules :=
  {| EngineState := nat; analyse := fun e b => (Ok (evaluate b), S e) |}.

Definition dead_engine : @Engine rules :=
  {| EngineState := nat;
     analyse := fun e _ => (Raise (EngineError "engine process died"), e) |}.

Definition flaky_engine : @Engine rules :=
  {| EngineState := nat;
     analyse := fun e b =>
       match stack b with
       | [] => (Ok (evaluate b), S e)
       | _ => (Raise (EngineError "engine process died"), e)
       end |}.

Definition world : @World rules engine :=
  @Build_World rules engine 0%nat fresh_board.

Definition game : @Game rules :=
  @Build_Game rules [("White", "hunterisbad1"); ("Black", "opponent")]
    initial [400; 5; 90; 5; 10].

Definition reader : @PgnReader rules :=
  {| read_game := fun pgn => if String.eqb pgn EmptyString then None else Some game |}.

End Demo.

(** Two per-game results as the analyzer produces them. *)
Module Sample.

Definition game_a : AnalysisData :=
  {| moves_analyzed := 2;
     mistakes_by_phase := [("Opening - Blunder", 1)];
     phase_cpl_sum := [("Opening", {| cpl := 410; count := 2 |})];
     user_cpl_values := [410; 0] |}.

Definition game_b : AnalysisData :=
  {| moves_analyzed := 3;
     mistakes_by_phase := [("Middlegame - Blunder", 1); ("Opening - Blunder", 1)];
     phase_cpl_sum := [("Opening", {| cpl := 350; count := 2 |});
                       ("Middlegame", {| cpl := 500; count := 1 |})];
     user_cpl_values := [350; 0; 500] |}.

End Sample.

(** The demo game analysed for its White player. *)
Module DemoRun.

Definition white_result : AnalysisData :=
  {| moves_analyzed := 3;
     mistakes_by_phase := [("Opening - Blunder", 1); ("Opening - Inaccuracy", 1)];
     phase_cpl_sum := [("Opening", {| cpl := 500; count := 3 |})];
     user_cpl_values := [410; 85; 5] |}.

Definition final_world : @World Demo.rules Demo.engine :=
  snd (@analyze_game Demo.rules Demo.engine Demo.reader "hunterisbad1"
         "1. e4 e5" Demo.world).

End DemoRun.

Module DemoFloat.

(** Exact fractions in place of floats: a quotient as its numerator and
    denominator. *)
Definition fractions : PyFloat :=
  {| float := Z * Z;
     truediv := fun a b => (a, b);
     float_of_int := fun n => (n, 1);
     float_gt := fun x y =>
       Z.sgn (snd x) * Z.sgn (snd y) * (fst y * snd x) <?
       Z.sgn (snd x) * Z.sgn (snd y) * (fst x * snd y);
     format_2f := fun x => str (fst x) ++ "/" ++ str (snd x) |}.

Definition no_moves : AnalysisData := new_analysis_data.

End DemoFloat.

Module DemoStore.

Definition codecs : ChessDotCom.Codecs :=
  {| ChessDotCom.sha256_hexdigest := fun text => "digest-of-" ++ text;
     ChessDotCom.json_dumps := fun counts => str (dict_sum id counts) ++ " mistakes" |}.

Definition empty_store : ChessDotCom.Store :=
  {| ChessDotCom.committed := []; ChessDotCom.pending := [];
     ChessDotCom.open_cursors := 0; ChessDotCom.stdout := [] |}.

End DemoStore.

Module DemoNet.

(** A network that refuses every connection, and one that serves a
    listing of two monthly archives, the later of which cannot be
    fetched. *)
Definition unreachable : ChessDotCom.Http :=
  {| ChessDotCom.Network := unit;
     ChessDotCom.requests_get := fun _ n =>
       (ChessDotCom.GetRaises "Connection refused", n) |}.

Definition archive_of (games : list string) : ChessDotCom.Response :=
  {| ChessDotCom.status_code := 200;
     ChessDotCom.json_archives := None;
     ChessDotCom.json_games :=
       Some (map (fun text => {| ChessDotCom.pgn_text := Some text |}) games) |}.

Definition listing : ChessDotCom.Response :=
  {| ChessDotCom.status_code := 200;
     ChessDotCom.json_archives := Some ["archive/2024/01"; "archive/2024/02"];
     ChessDotCom.json_games := None |}.

Definition serving : ChessDotCom.Http :=
  {| ChessDotCom.Network := nat;
     ChessDotCom.requests_get := fun url n =>
       if String.eqb url "archive/2024/01"
       then (ChessDotCom.GetReturns (archive_of ["1. e4 e5"; "1. d4 d5"]), S n)
       else if String.eqb url "archive/2024/02"
       then (ChessDotCom.GetRaises "Connection reset", S n)
       else (ChessDotCom.GetReturns listing, S n) |}.

(** A site that answers every URL: the listing, and two archives of two
    and three games, one of them without text. *)
Definition site (url : string) : ChessDotCom.Response :=
  if String.eqb url "archive/2024/01"
  then archive_of ["1. e4 e5"; "1. d4 d5"]
  else if String.eqb url "archive/2024/02"
  then archive_of ["1. c4 c5"; EmptyString; "1. Nf3 Nf6"]
  else listing.

Definition healthy : ChessDotCom.Http :=
  {| ChessDotCom.Network := nat;
     ChessDotCom.requests_get := fun url n => (ChessDotCom.GetReturns (site url), S n) |}.

(** A server that knows no player. *)
Definition not_found : ChessDotCom.Response :=
  {| ChessDotCom.status_code := 404;
     ChessDotCom.json_archives := None;
     ChessDotCom.json_games := None |}.

Definition no_such_player : ChessDotCom.Http :=
  {| ChessDotCom.Network := nat;
     ChessDotCom.requests_get := fun _ n => (ChessDotCom.GetReturns not_found, S n) |}.

End DemoNet.

(** ** Vocabulary for the properties of the analyzer *)

(** [len([x for x in xs if x > t])]. *)
Definition count_above (t : Z) (xs : list Z) : Z :=
  len (filter (fun x => x >? t) xs).

(** The three phase names and the nine composite labels
    ["<phase> - <severity>"] the analyzer can write. *)
Definition phase_names : list string := ["Opening"; "Middlegame"; "Endgame"].

Definition mistake_labels : list string :=
  ["Opening - Blunder"; "Opening - Mistake"; "Opening - Inaccuracy";
   "Middlegame - Blunder"; "Middlegame - Mistake"; "Middlegame - Inaccuracy";
   "Endgame - Blunder"; "Endgame - Mistake"; "Endgame - Inaccuracy"].

Section Replay.
Context `{ChessRules}.

(** The board after pushing [moves] one after the other. *)
Definition push_all (moves : list Move) (b : Board) : Board :=
  fold_left (fun b move => board_push move b) moves b.

End Replay.

(** Of [n] consecutive plies starting with [to_move], the number at which
    the side to move is the tracked user, given which of the two players
    the user is. *)
Definition tracked_plies (white_is_user black_is_user : bool)
    (to_move : Color) (n : Z) : Z :=
  let first := (n + 1) / 2 in
  let second := n / 2 in
  match to_move with
  | WHITE => (if white_is_user then first else 0)
             + (if black_is_user then second else 0)
  | BLACK => (if black_is_user then first else 0)
             + (if white_is_user then second else 0)
  end.

(** ** Vocabulary for the properties of the fetcher *)

(** The PGN texts an archive's [games] list contributes, in the list's
    order: the entries with a non-empty ['pgn']. *)
Definition pgn_texts (games : list ChessDotCom.GameData) : list string :=
  flat_map (fun game_data =>
              match ChessDotCom.pgn_text game_data with
              | Some (String c rest) => [String c rest]
              | _ => []
              end) games.

(** [archives] and [games] of a response body, [[]] when the key is
    missing. *)
Definition archives_of (r : ChessDotCom.Response) : list string :=
  match ChessDotCom.json_archives r with Some archives => archives | None => [] end.

Definition games_of (r : ChessDotCom.Response) : list ChessDotCom.GameData :=
  match ChessDotCom.json_games r with Some games => games | None => [] end.

Module DemoHost.

(** A machine with a reachable database and an engine that starts, one
    whose database refuses connections, and one without the engine
    program. *)
Definition ready : @ChessDotComMain.Host Demo.rules Demo.engine :=
  @ChessDotComMain.Build_Host Demo.rules Demo.engine None (fun _ => Ok 0%nat).

Definition no_database : @ChessDotComMain.Host Demo.rules Demo.engine :=
  @ChessDotComMain.Build_Host Demo.rules Demo.engine
    (Some "connection refused") (fun _ => Ok 0%nat).

Definition no_engine : @ChessDotComMain.Host Demo.rules Demo.engine :=
  @ChessDotComMain.Build_Host Demo.rules Demo.engine None
    (fun path => Raise (EngineError ("No such file or directory: " ++ path))).

End DemoHost.

Module DemoLichess.

(** A machine whose client yields two games, one whose client yields
    none, and one whose client fails after the first game. *)
Definition two_games : @LichessMain.Machine Demo.rules Demo.engine :=
  @LichessMain.Build_Machine Demo.rules Demo.engine
    (fun _ => Ok 0%nat) (fun _ _ => (["1. e4 e5"; "1. d4 d5"], None)).

Definition no_games : @LichessMain.Machine Demo.rules Demo.engine :=
  @LichessMain.Build_Machine Demo.rules Demo.engine
    (fun _ => Ok 0%nat) (fun _ _ => ([], None)).

Definition broken_stream : @LichessMain.Machine Demo.rules Demo.engine :=
  @LichessMain.Build_Machine Demo.rules Demo.engine
    (fun _ => Ok 0%nat)
    (fun _ _ => (["1. e4 e5"], Some (ConnectionError "Connection reset")) ).

(** The script on the demo collaborators. *)
Definition run (machine : @LichessMain.Machine Demo.rules Demo.engine)
  : result unit * @LichessMain.Process Demo.rules Demo.engine :=
  @LichessMain.main Demo.rules Demo.engine Demo.reader DemoFloat.fractions machine
    (@LichessMain.boot Demo.rules Demo.engine).

End DemoLichess.

(** * Theorems: normalizer and classifiers *)

Lemma score_to_cp_Cp (c : Z) : score_to_cp (Cp c) MATE_VALUE = c.
Proof. reflexivity. Qed.

Lemma score_to_cp_winning (n : Z) :
  0 < n -> score_to_cp (Mate n) MATE_VALUE = 10000 - n.
Proof.
  intros Hn. unfold score_to_cp, MATE_VALUE.
  destruct (Z.gtb_spec n 0); [reflexivity | lia].
Qed.

(** Python takes the [else] branch for every [mate_in <= 0], so the rule
    for lost mates also covers [Mate(0)]. *)
Lemma score_to_cp_losing (n : Z) :
  n <= 0 -> score_to_cp (Mate n) MATE_VALUE = - (10000 + Z.abs n).
Proof.
  intros Hn. unfold score_to_cp, MATE_VALUE.
  destruct (Z.gtb_spec n 0); [lia | reflexivity].
Qed.

(** C2: the score normalizer returns a centipawn value unchanged, maps
    mate-in-N with N > 0 to 10000 - N, and maps mate-in-N with N < 0 to
    -(10000 + |N|). *)
Theorem score_to_cp_rule :
  (forall c : Z, score_to_cp (Cp c) MATE_VALUE = c) /\
  (forall n : Z, 0 < n -> score_to_cp (Mate n) MATE_VALUE = 10000 - n) /\
  (forall n : Z, n < 0 -> score_to_cp (Mate n) MATE_VALUE = - (10000 + Z.abs n)).
Proof.
  split; [exact score_to_cp_Cp | split].
  - exact score_to_cp_winning.
  - intros n Hn. apply score_to_cp_losing. lia.
Qed.

Lemma score_to_cp_rule_witness :
  score_to_cp (Cp 37) MATE_VALUE = 37 /\
  score_to_cp (Mate 3) MATE_VALUE = 10000 - 3 /\
  score_to_cp (Mate (-4)) MATE_VALUE = - (10000 + Z.abs (-4)).
Proof.
  destruct score_to_cp_rule as [Hcp [Hwin Hlose]].
  split; [apply Hcp | split; [apply Hwin; lia | apply Hlose; lia]].
Defined.

(** The boundary values the specification lists, evaluated on the code. *)
Example severity_boundaries :
  map get_mistake_category [50; 51; 100; 101; 300; 301]
  = ["Good Move"; "Inaccuracy"; "Inaccuracy"; "Mistake"; "Mistake"; "Blunder"].
Proof. reflexivity. Qed.

Example phase_boundaries :
  map get_game_phase [10; 11; 30; 31]
  = ["Opening"; "Middlegame"; "Middlegame"; "Endgame"].
Proof. reflexivity. Qed.

Lemma get_mistake_category_cases (cpl : Z) :
  (300 < cpl /\ get_mistake_category cpl = "Blunder") \/
  (100 < cpl <= 300 /\ get_mistake_category cpl = "Mistake") \/
  (50 < cpl <= 100 /\ get_mistake_category cpl = "Inaccuracy") \/
  (cpl <= 50 /\ get_mistake_category cpl = "Good Move").
Proof.
  unfold get_mistake_category.
  destruct (Z.gtb_spec cpl 300); [left; split; [lia | reflexivity] |].
  destruct (Z.gtb_spec cpl 100); [right; left; split; [lia | reflexivity] |].
  destruct (Z.gtb_spec cpl 50); [right; right; left; split; [lia | reflexivity] |].
  right; right; right; split; [lia | reflexivity].
Qed.

Lemma get_game_phase_cases (n : Z) :
  (n <= 10 /\ get_game_phase n = "Opening") \/
  (10 < n <= 30 /\ get_game_phase n = "Middlegame") \/
  (30 < n /\ get_game_phase n = "Endgame").
Proof.
  unfold get_game_phase.
  destruct (Z.leb_spec n 10); [left; split; [lia | reflexivity] |].
  destruct (Z.leb_spec n 30); [right; left; split; [lia | reflexivity] |].
  right; right; split; [lia | reflexivity].
Qed.

(** C3: for a non-negative centipawn loss the severity is Blunder iff
    cpl > 300, Mistake iff 100 < cpl <= 300, Inaccuracy iff 50 < cpl <= 100
    and Good Move iff cpl <= 50; for a half-move count n >= 1 the phase is
    Opening iff n <= 10, Middlegame iff 10 < n <= 30 and Endgame iff n > 30. *)
Theorem classifiers_thresholds (cpl n : Z) (Hcpl : 0 <= cpl) (Hn : 1 <= n) :
  ((get_mistake_category cpl = "Blunder" <-> 300 < cpl) /\
   (get_mistake_category cpl = "Mistake" <-> 100 < cpl <= 300) /\
   (get_mistake_category cpl = "Inaccuracy" <-> 50 < cpl <= 100) /\
   (get_mistake_category cpl = "Good Move" <-> cpl <= 50)) /\
  ((get_game_phase n = "Opening" <-> n <= 10) /\
   (get_game_phase n = "Middlegame" <-> 10 < n <= 30) /\
   (get_game_phase n = "Endgame" <-> 30 < n)).
Proof.
  split.
  - destruct (get_mistake_category_cases cpl)
      as [[Hr E] | [[Hr E] | [[Hr E] | [Hr E]]]];
      rewrite E; repeat split; intros; try discriminate; try lia; reflexivity.
  - destruct (get_game_phase_cases n) as [[Hr E] | [[Hr E] | [Hr E]]];
      rewrite E; repeat split; intros; try discriminate; try lia; reflexivity.
Qed.

Lemma classifiers_thresholds_witness :
  ((get_mistake_category 101 = "Blunder" <-> 300 < 101) /\
   (get_mistake_category 101 = "Mistake" <-> 100 < 101 <= 300) /\
   (get_mistake_category 101 = "Inaccuracy" <-> 50 < 101 <= 100) /\
   (get_mistake_category 101 = "Good Move" <-> 101 <= 50)) /\
  ((get_game_phase 11 = "Opening" <-> 11 <= 10) /\
   (get_game_phase 11 = "Middlegame" <-> 10 < 11 <= 30) /\
   (get_game_phase 11 = "Endgame" <-> 30 < 11)).
Proof. apply (classifiers_thresholds 101 11); lia. Defined.

(** A winning mate of distance 20001 normalizes to the same value as being
    mated in one: the fixed offset 10000 separates the two families only
    while the winning distance stays below 20000 + |losing distance|. *)
Lemma score_to_cp_far_mate :
  score_to_cp (Mate 20001) MATE_VALUE = score_to_cp (Mate (-1)) MATE_VALUE.
Proof. reflexivity. Qed.

(** C8, as stated, fails: not every winning-mate score is strictly greater
    than every losing-mate score. *)
Lemma mate_scale_order_counterexample :
  ~ (forall n1 n2 : Z, 0 < n1 -> n2 < 0 ->
       score_to_cp (Mate n2) MATE_VALUE < score_to_cp (Mate n1) MATE_VALUE).
Proof.
  intros H. specialize (H 20001 (-1)).
  rewrite score_to_cp_far_mate in H. lia.
Qed.

(** C8 (amended): closer winning mates outrank farther ones; a winning mate
    of distance n1 outranks a losing mate of distance n2 whenever
    n1 < 20000 + |n2|; and a winning mate of distance n outranks every
    centipawn score c < 10000 - n. *)
Theorem mate_scale_order :
  (forall n1 n2 : Z, 0 < n1 -> n1 < n2 ->
     score_to_cp (Mate n2) MATE_VALUE < score_to_cp (Mate n1) MATE_VALUE) /\
  (forall n1 n2 : Z, 0 < n1 -> n2 < 0 -> n1 < 20000 + Z.abs n2 ->
     score_to_cp (Mate n2) MATE_VALUE < score_to_cp (Mate n1) MATE_VALUE) /\
  (forall n c : Z, 0 < n -> c < 10000 - n ->
     score_to_cp (Cp c) MATE_VALUE < score_to_cp (Mate n) MATE_VALUE).
Proof.
  repeat split; intros.
  - rewrite (score_to_cp_winning n1), (score_to_cp_winning n2) by lia. lia.
  - rewrite (score_to_cp_winning n1), (score_to_cp_losing n2) by lia. lia.
  - rewrite score_to_cp_Cp, (score_to_cp_winning n) by lia. lia.
Qed.

Lemma mate_scale_order_witness :
  score_to_cp (Mate 5) MATE_VALUE < score_to_cp (Mate 2) MATE_VALUE /\
  score_to_cp (Mate (-3)) MATE_VALUE < score_to_cp (Mate 200) MATE_VALUE /\
  score_to_cp (Cp 900) MATE_VALUE < score_to_cp (Mate 7) MATE_VALUE.
Proof.
  destruct mate_scale_order as [Hclose [Hwin Hcp]].
  split; [apply Hclose; lia | split; [apply Hwin; simpl; lia | apply Hcp; lia]].
Defined.

(** * Theorems: move evaluator *)

Section MoveEvaluator.
Context `{ChessRules} `{!Engine}.

Lemma board_pop_push (move : Move) (b : Board) :
  board_pop (board_push move b) = Ok (move, b).
Proof. destruct b as [s st]. reflexivity. Qed.

(** When both engine queries answer, the evaluator returns and leaves the
    board as it found it; the engine has been queried twice. *)
Lemma get_centipawn_loss_run (move : Move) (w : World)
    (s1 s2 : Score) (e1 e2 : EngineState) :
  analyse (engine w) (board w) = (Ok s1, e1) ->
  analyse e1 (board_push move (board w)) = (Ok s2, e2) ->
  get_centipawn_loss move w
  = (Ok (Z.max 0 (score_to_cp s1 10000 - score_to_cp s2 10000)),
     {| engine := e2; board := board w |}).
Proof.
  intros H1 H2.
  unfold get_centipawn_loss, bind, engine_analyse, push, pop, modify, ret.
  rewrite H1. cbn [engine board]. rewrite H2. cbn [engine board].
  rewrite board_pop_push. reflexivity.
Qed.

(** Every normal return of the evaluator comes from two answered queries. *)
Lemma get_centipawn_loss_inv (move : Move) (w w' : World) (c : Z) :
  get_centipawn_loss move w = (Ok c, w') ->
  exists s1 e1 s2 e2,
    analyse (engine w) (board w) = (Ok s1, e1) /\
    analyse e1 (board_push move (board w)) = (Ok s2, e2) /\
    c = Z.max 0 (score_to_cp s1 10000 - score_to_cp s2 10000) /\
    w' = {| engine := e2; board := board w |}.
Proof.
  intros Hrun.
  destruct (analyse (engine w) (board w)) as [[s1 | x1] e1] eqn:H1.
  - destruct (analyse e1 (board_push move (board w))) as [[s2 | x2] e2] eqn:H2.
    + rewrite (get_centipawn_loss_run move w s1 s2 e1 e2 H1 H2) in Hrun.
      injection Hrun as <- <-. exists s1, e1, s2, e2. auto.
    + unfold get_centipawn_loss, bind, engine_analyse, push, modify in Hrun.
      rewrite H1 in Hrun. cbn in Hrun. rewrite H2 in Hrun. discriminate.
  - unfold get_centipawn_loss, bind, engine_analyse in Hrun.
    rewrite H1 in Hrun. discriminate.
Qed.

(** X2: An engine failure after the push leaves the played move on the board:
    the evaluator has no [finally], the exception ends the whole walk. *)
Lemma get_centipawn_loss_second_query_raises (move : Move) (w : World)
    (s1 : Score) (e1 e2 : EngineState) (x : exn) :
  analyse (engine w) (board w) = (Ok s1, e1) ->
  analyse e1 (board_push move (board w)) = (Raise x, e2) ->
  get_centipawn_loss move w
  = (Raise x, {| engine := e2; board := board_push move (board w) |}).
Proof.
  intros H1 H2.
  unfold get_centipawn_loss, bind, engine_analyse, push, modify.
  rewrite H1. cbn. rewrite H2. reflexivity.
Qed.

(** C1: for every board, played move and pair of engine evaluations, the
    move evaluator returns max(0, best_score - score_after_move) of the two
    normalized evaluations, and that value is non-negative. *)
Theorem get_centipawn_loss_value (move : Move) (w : World)
    (s1 s2 : Score) (e1 e2 : EngineState)
    (Hbest : analyse (engine w) (board w) = (Ok s1, e1))
    (Hafter : analyse e1 (board_push move (board w)) = (Ok s2, e2)) :
  let best_score := score_to_cp s1 MATE_VALUE in
  let score_after_move := score_to_cp s2 MATE_VALUE in
  fst (get_centipawn_loss move w) = Ok (Z.max 0 (best_score - score_after_move))
  /\ 0 <= Z.max 0 (best_score - score_after_move).
Proof.
  cbv zeta. split.
  - rewrite (get_centipawn_loss_run move w s1 s2 e1 e2 Hbest Hafter). reflexivity.
  - apply Z.le_max_l.
Qed.

(** C5: whenever the move evaluator returns, the board is what it was
    before the call: the push of the played move has been undone. *)
Theorem get_centipawn_loss_restores_board (move : Move) (w w' : World) (c : Z)
    (Hret : get_centipawn_loss move w = (Ok c, w')) :
  board w' = board w.
Proof.
  destruct (get_centipawn_loss_inv move w w' c Hret)
    as (s1 & e1 & s2 & e2 & _ & _ & _ & ->).
  reflexivity.
Qed.

End MoveEvaluator.

Lemma get_centipawn_loss_value_witness :
  fst (@get_centipawn_loss Demo.rules Demo.engine 400 Demo.world)
  = Ok (Z.max 0 (score_to_cp (Cp 30) MATE_VALUE - score_to_cp (Cp (-380)) MATE_VALUE))
  /\ 0 <= Z.max 0 (score_to_cp (Cp 30) MATE_VALUE - score_to_cp (Cp (-380)) MATE_VALUE).
Proof.
  apply (@get_centipawn_loss_value Demo.rules Demo.engine 400 Demo.world
           (Cp 30) (Cp (-380)) 1%nat 2%nat); reflexivity.
Defined.

Lemma get_centipawn_loss_restores_board_witness :
  board (snd (@get_centipawn_loss Demo.rules Demo.engine 400 Demo.world))
  = board Demo.world.
Proof.
  apply (@get_centipawn_loss_restores_board Demo.rules Demo.engine 400
           Demo.world _ 410).
  reflexivity.
Defined.

(** With a dead engine the analysis of a game raises at the first tracked
    move: there is no partial result. *)
Example analyze_game_dead_engine :
  fst (@analyze_game Demo.rules Demo.dead_engine Demo.reader "hunterisbad1"
         "1. e4 e5"
         (@Build_World Demo.rules Demo.dead_engine 0%nat Demo.fresh_board))
  = Raise (EngineError "engine process died").
Proof. reflexivity. Qed.

(** On the engine that fails once a move is pushed, the evaluator raises
    and the played move stays on the board. *)
Example get_centipawn_loss_flaky :
  @get_centipawn_loss Demo.rules Demo.flaky_engine 400
    (@Build_World Demo.rules Demo.flaky_engine 0%nat Demo.fresh_board)
  = (Raise (EngineError "engine process died"),
     @Build_World Demo.rules Demo.flaky_engine 1%nat
       (@board_push Demo.rules 400 Demo.fresh_board)).
Proof. reflexivity. Qed.

(** * Lemmas: sums and dicts *)

Lemma fold_left_add_shift (xs : list Z) (a : Z) :
  fold_left Z.add xs a = a + fold_left Z.add xs 0.
Proof.
  revert a. induction xs as [| x xs IH]; intros a; cbn.
  - lia.
  - rewrite (IH (a + x)), (IH x). lia.
Qed.

Lemma sum_nil : sum [] = 0.
Proof. reflexivity. Qed.

Lemma sum_cons (x : Z) (xs : list Z) : sum (x :: xs) = x + sum xs.
Proof. unfold sum. cbn. apply fold_left_add_shift. Qed.

Lemma sum_app (xs ys : list Z) : sum (xs ++ ys) = sum xs + sum ys.
Proof.
  induction xs as [| x xs IH]; cbn [app].
  - rewrite sum_nil. lia.
  - rewrite !sum_cons, IH. lia.
Qed.

Lemma len_nil {A} : len (@nil A) = 0.
Proof. reflexivity. Qed.

Lemma len_app {A} (xs ys : list A) : len (xs ++ ys) = len xs + len ys.
Proof. unfold len. rewrite length_app. lia. Qed.

Section DictFacts.
Context {V : Type}.
Implicit Types (d : dict V) (k : string) (v : V).

Lemma dict_get_set_same k v d : dict_get k (dict_set k v d) = Some v.
Proof.
  induction d as [| [k' v'] d IH]; cbn.
  - rewrite String.eqb_refl. reflexivity.
  - destruct (String.eqb k k') eqn:E; cbn; rewrite E; [reflexivity | exact IH].
Qed.

Lemma dict_get_set_other k k' v d :
  k <> k' -> dict_get k' (dict_set k v d) = dict_get k' d.
Proof.
  intros Hne. induction d as [| [k0 v0] d IH]; cbn.
  - destruct (String.eqb_spec k' k); [congruence | reflexivity].
  - destruct (String.eqb_spec k k0) as [-> | Hk0]; cbn.
    + destruct (String.eqb_spec k' k0); [congruence | reflexivity].
    + rewrite IH. reflexivity.
Qed.

Lemma dict_get_not_mem k d : mem k (keys d) = false -> dict_get k d = None.
Proof.
  induction d as [| [k' v'] d IH]; cbn; [reflexivity |].
  destruct (String.eqb k k'); cbn; [discriminate | exact IH].
Qed.

Lemma dict_sum_set (f : V -> Z) k v d :
  dict_sum f (dict_set k v d)
  = dict_sum f d - match dict_get k d with Some v0 => f v0 | None => 0 end + f v.
Proof.
  unfold dict_sum, values.
  induction d as [| [k' v'] d IH]; cbn [dict_set dict_get map snd].
  - rewrite sum_cons, sum_nil. lia.
  - destruct (String.eqb k k'); cbn [map snd]; rewrite !sum_cons.
    + lia.
    + rewrite IH. lia.
Qed.

End DictFacts.

(** What [add_count] and the two phase updates do to lookups ... *)

Lemma add_count_get (key k : string) (n : Z) (counts : dict Z) :
  dict_get_default 0 k (add_count key n counts)
  = dict_get_default 0 k counts + (if String.eqb key k then n else 0).
Proof.
  unfold add_count, defaultdict_getitem, dict_get_default.
  destruct (String.eqb_spec key k) as [-> | Hne].
  - destruct (dict_get k counts); rewrite dict_get_set_same; lia.
  - destruct (dict_get key counts); rewrite !dict_get_set_other by exact Hne; lia.
Qed.

Lemma add_phase_cpl_get (phase k : string) (n : Z) (stats : dict PhaseStats) :
  let old := dict_get_default new_phase_stats k stats in
  dict_get_default new_phase_stats k (add_phase_cpl phase n stats)
  = if String.eqb phase k then {| cpl := cpl old + n; count := count old |}
    else old.
Proof.
  unfold add_phase_cpl, defaultdict_getitem, dict_get_default. cbv zeta.
  destruct (String.eqb_spec phase k) as [-> | Hne].
  - destruct (dict_get k stats); rewrite dict_get_set_same; reflexivity.
  - destruct (dict_get phase stats); rewrite !dict_get_set_other by exact Hne;
      reflexivity.
Qed.

Lemma add_phase_count_get (phase k : string) (n : Z) (stats : dict PhaseStats) :
  let old := dict_get_default new_phase_stats k stats in
  dict_get_default new_phase_stats k (add_phase_count phase n stats)
  = if String.eqb phase k then {| cpl := cpl old; count := count old + n |}
    else old.
Proof.
  unfold add_phase_count, defaultdict_getitem, dict_get_default. cbv zeta.
  destruct (String.eqb_spec phase k) as [-> | Hne].
  - destruct (dict_get k stats); rewrite dict_get_set_same; reflexivity.
  - destruct (dict_get phase stats); rewrite !dict_get_set_other by exact Hne;
      reflexivity.
Qed.

(** ... and to totals. *)

Lemma add_count_sum (key : string) (n : Z) (counts : dict Z) :
  dict_sum id (add_count key n counts) = dict_sum id counts + n.
Proof.
  unfold add_count, defaultdict_getitem.
  destruct (dict_get key counts) as [v |] eqn:E.
  - rewrite dict_sum_set, E. unfold id. lia.
  - rewrite !dict_sum_set, E, dict_get_set_same. unfold id. lia.
Qed.

Lemma add_phase_cpl_sum (phase : string) (n : Z) (stats : dict PhaseStats) :
  dict_sum cpl (add_phase_cpl phase n stats) = dict_sum cpl stats + n /\
  dict_sum count (add_phase_cpl phase n stats) = dict_sum count stats.
Proof.
  unfold add_phase_cpl, defaultdict_getitem.
  destruct (dict_get phase stats) as [v |] eqn:E.
  - rewrite !dict_sum_set, E. cbn. lia.
  - rewrite !dict_sum_set, E, dict_get_set_same. cbn. lia.
Qed.

Lemma add_phase_count_sum (phase : string) (n : Z) (stats : dict PhaseStats) :
  dict_sum cpl (add_phase_count phase n stats) = dict_sum cpl stats /\
  dict_sum count (add_phase_count phase n stats) = dict_sum count stats + n.
Proof.
  unfold add_phase_count, defaultdict_getitem.
  destruct (dict_get phase stats) as [v |] eqn:E.
  - rewrite !dict_sum_set, E. cbn. lia.
  - rewrite !dict_sum_set, E, dict_get_set_same. cbn. lia.
Qed.

(** * Theorems: aggregator *)

Lemma dict_get_default_nil {V} (dflt : V) (k : string) :
  dict_get_default dflt k [] = dflt.
Proof. reflexivity. Qed.

Lemma dict_get_default_cons {V} (dflt : V) (k k0 : string) (v0 : V) (d : dict V) :
  dict_get_default dflt k ((k0, v0) :: d)
  = if String.eqb k0 k then v0 else dict_get_default dflt k d.
Proof.
  unfold dict_get_default. cbn. rewrite (String.eqb_sym k k0).
  destruct (String.eqb k0 k); reflexivity.
Qed.

Lemma dict_get_default_not_mem {V} (dflt : V) (k : string) (d : dict V) :
  mem k (keys d) = false -> dict_get_default dflt k d = dflt.
Proof.
  intros Hk. unfold dict_get_default. rewrite (dict_get_not_mem _ _ Hk).
  reflexivity.
Qed.

Lemma wf_dict_cons {V} (k : string) (v : V) (d : dict V) :
  wf_dict ((k, v) :: d) = true -> mem k (keys d) = false /\ wf_dict d = true.
Proof.
  unfold wf_dict. cbn. intros Hwf. apply andb_prop in Hwf as [Hfresh Hwf].
  apply negb_true_iff in Hfresh. split; assumption.
Qed.

Lemma merge_mistakes_get (k : string) (items acc : dict Z) :
  wf_dict items = true ->
  mistake_count k (merge_mistakes items acc)
  = mistake_count k acc + mistake_count k items.
Proof.
  unfold merge_mistakes, mistake_count. revert acc.
  induction items as [| [k0 n0] items IH]; intros acc Hwf; cbn [fold_left].
  - rewrite dict_get_default_nil. lia.
  - apply wf_dict_cons in Hwf as [Hfresh Hwf].
    rewrite (IH _ Hwf), add_count_get, dict_get_default_cons.
    destruct (String.eqb_spec k0 k) as [-> | Hne]; [| lia].
    rewrite (dict_get_default_not_mem _ _ _ Hfresh). lia.
Qed.

Lemma merge_phases_get (k : string) (items acc : dict PhaseStats) :
  wf_dict items = true ->
  phase_stats k (merge_phases items acc)
  = {| cpl := cpl (phase_stats k acc) + cpl (phase_stats k items);
       count := count (phase_stats k acc) + count (phase_stats k items) |}.
Proof.
  unfold merge_phases, phase_stats. revert acc.
  induction items as [| [k0 st0] items IH]; intros acc Hwf; cbn [fold_left].
  - rewrite dict_get_default_nil.
    destruct (dict_get_default new_phase_stats k acc) as [c n]. cbn.
    f_equal; lia.
  - apply wf_dict_cons in Hwf as [Hfresh Hwf].
    rewrite (IH _ Hwf), dict_get_default_cons.
    pose proof (add_phase_count_get k0 k (count st0)
                  (add_phase_cpl k0 (cpl st0) acc)) as Hc.
    pose proof (add_phase_cpl_get k0 k (cpl st0) acc) as Hp.
    cbv zeta in Hc, Hp. rewrite Hc, Hp. clear Hc Hp.
    destruct (String.eqb_spec k0 k) as [-> | Hne]; [| reflexivity].
    rewrite (dict_get_default_not_mem _ _ _ Hfresh). cbn. f_equal; lia.
Qed.

Lemma merge_mistakes_sum (items acc : dict Z) :
  dict_sum id (merge_mistakes items acc) = dict_sum id acc + dict_sum id items.
Proof.
  unfold merge_mistakes. revert acc.
  induction items as [| [k0 n0] items IH]; intros acc; cbn [fold_left].
  - unfold dict_sum at 3. cbn. lia.
  - rewrite IH, add_count_sum. unfold dict_sum at 4. cbn [values map snd].
    rewrite sum_cons. unfold dict_sum, values, id. lia.
Qed.

Lemma merge_phases_sum (items acc : dict PhaseStats) :
  dict_sum cpl (merge_phases items acc) = dict_sum cpl acc + dict_sum cpl items /\
  dict_sum count (merge_phases items acc)
  = dict_sum count acc + dict_sum count items.
Proof.
  unfold merge_phases. revert acc.
  induction items as [| [k0 st0] items IH]; intros acc; cbn [fold_left].
  - unfold dict_sum at 3 6. cbn. lia.
  - destruct (IH (add_phase_count k0 (count st0)
                    (add_phase_cpl k0 (cpl st0) acc))) as [IHc IHn].
    destruct (add_phase_count_sum k0 (count st0)
                (add_phase_cpl k0 (cpl st0) acc)) as [Hc1 Hn1].
    destruct (add_phase_cpl_sum k0 (cpl st0) acc) as [Hc2 Hn2].
    rewrite IHc, IHn, Hc1, Hn1, Hc2, Hn2.
    unfold dict_sum at 4 8. cbn [values map snd]. rewrite !sum_cons.
    unfold dict_sum, values. lia.
Qed.

(** The loop of the aggregator from any starting summary. *)
Lemma aggregate_fold (all_results : list AnalysisData) (s0 : Summary) :
  Forall wf_analysis all_results ->
  let s := fold_left aggregate_step all_results s0 in
  total_user_cpl_values s
  = (total_user_cpl_values s0 ++ List.concat (map user_cpl_values all_results))%list /\
  total_moves_analyzed s
  = total_moves_analyzed s0 + sum (map moves_analyzed all_results) /\
  (forall label,
     mistake_count label (total_mistakes_by_phase s)
     = mistake_count label (total_mistakes_by_phase s0)
       + sum (map (fun data => mistake_count label (mistakes_by_phase data))
                all_results)) /\
  (forall phase,
     cpl (phase_stats phase (total_phase_cpl_sum s))
     = cpl (phase_stats phase (total_phase_cpl_sum s0))
       + sum (map (fun data => cpl (phase_stats phase (phase_cpl_sum data)))
                all_results) /\
     count (phase_stats phase (total_phase_cpl_sum s))
     = count (phase_stats phase (total_phase_cpl_sum s0))
       + sum (map (fun data => count (phase_stats phase (phase_cpl_sum data)))
                all_results)).
Proof.
  intros Hwf. revert s0.
  induction Hwf as [| data rest [Hwm Hwp] _ IH]; intros s0; cbn [fold_left map List.concat].
  - cbv zeta. rewrite app_nil_r, !sum_nil. repeat split; intros; lia.
  - specialize (IH (aggregate_step s0 data)). cbv zeta in IH |- *.
    destruct IH as (Hv & Hm & Hl & Hp). repeat split.
    + rewrite Hv. cbn. rewrite app_assoc. reflexivity.
    + rewrite Hm, sum_cons. cbn. lia.
    + intros label. rewrite Hl, sum_cons. cbn [aggregate_step total_mistakes_by_phase].
      rewrite (merge_mistakes_get label _ _ Hwm). lia.
    + destruct (Hp phase) as [-> _]. rewrite sum_cons.
      cbn [aggregate_step total_phase_cpl_sum].
      rewrite (merge_phases_get phase _ _ Hwp). cbn. lia.
    + destruct (Hp phase) as [_ ->]. rewrite sum_cons.
      cbn [aggregate_step total_phase_cpl_sum].
      rewrite (merge_phases_get phase _ _ Hwp). cbn. lia.
Qed.

Lemma len_concat {A} (xss : list (list A)) :
  len (List.concat xss) = sum (map len xss).
Proof.
  induction xss as [| xs xss IH]; cbn [List.concat map].
  - reflexivity.
  - rewrite len_app, sum_cons, IH. reflexivity.
Qed.

(** C4: for a non-empty sequence of per-game results the aggregator returns
    a summary whose centipawn-loss list is the concatenation of the per-game
    lists (so its length is the sum of their lengths), whose move count is
    the sum of the per-game counts, and whose count of every mistake label
    and centipawn-loss sum and move count of every phase are the sums of
    the per-game entries, an absent entry counting as 0. *)
Theorem aggregate_all_games_sums (all_results : list AnalysisData)
    (Hnonempty : all_results <> [])
    (Hwf : Forall wf_analysis all_results) :
  exists s,
    aggregate_all_games all_results = Some s /\
    total_user_cpl_values s = List.concat (map user_cpl_values all_results) /\
    len (total_user_cpl_values s)
    = sum (map (fun data => len (user_cpl_values data)) all_results) /\
    total_moves_analyzed s = sum (map moves_analyzed all_results) /\
    (forall label,
       mistake_count label (total_mistakes_by_phase s)
       = sum (map (fun data => mistake_count label (mistakes_by_phase data))
                all_results)) /\
    (forall phase,
       cpl (phase_stats phase (total_phase_cpl_sum s))
       = sum (map (fun data => cpl (phase_stats phase (phase_cpl_sum data)))
                all_results) /\
       count (phase_stats phase (total_phase_cpl_sum s))
       = sum (map (fun data => count (phase_stats phase (phase_cpl_sum data)))
                all_results)).
Proof.
  exists (fold_left aggregate_step all_results new_summary).
  destruct (aggregate_fold all_results new_summary Hwf) as (Hv & Hm & Hl & Hp).
  cbn in Hv, Hm. repeat split.
  - destruct all_results; [contradiction | reflexivity].
  - exact Hv.
  - rewrite Hv, len_concat, map_map. reflexivity.
  - exact Hm.
  - intros label. rewrite Hl. reflexivity.
  - destruct (Hp phase) as [-> _]. reflexivity.
  - destruct (Hp phase) as [_ ->]. reflexivity.
Qed.

Example aggregate_two_games :
  aggregate_all_games [Sample.game_a; Sample.game_b]
  = Some {| total_user_cpl_values := [410; 0; 350; 0; 500];
            total_moves_analyzed := 5;
            total_mistakes_by_phase :=
              [("Opening - Blunder", 2); ("Middlegame - Blunder", 1)];
            total_phase_cpl_sum :=
              [("Opening", {| cpl := 760; count := 4 |});
               ("Middlegame", {| cpl := 500; count := 1 |})] |}.
Proof. reflexivity. Qed.

Lemma aggregate_all_games_sums_witness :
  exists s,
    aggregate_all_games [Sample.game_a; Sample.game_b] = Some s /\
    len (total_user_cpl_values s) = 2 + 3 /\
    total_moves_analyzed s = 2 + 3 /\
    mistake_count "Opening - Blunder" (total_mistakes_by_phase s) = 1 + 1 /\
    mistake_count "Middlegame - Blunder" (total_mistakes_by_phase s) = 0 + 1 /\
    count (phase_stats "Middlegame" (total_phase_cpl_sum s)) = 0 + 1.
Proof.
  destruct (aggregate_all_games_sums [Sample.game_a; Sample.game_b])
    as (s & Hs & _ & Hlen & Hmoves & Hlabel & Hphase).
  - discriminate.
  - repeat constructor.
  - exists s. split; [exact Hs |].
    rewrite Hlen, Hmoves, !Hlabel. destruct (Hphase "Middlegame") as [_ ->].
    repeat split; reflexivity.
Defined.

(** Without the loop the aggregator has nothing to return. *)
Lemma aggregate_all_games_nil : aggregate_all_games [] = None.
Proof. reflexivity. Qed.

Lemma aggregate_all_games_cons (data : AnalysisData) (rest : list AnalysisData) :
  aggregate_all_games (data :: rest)
  = Some (fold_left aggregate_step (data :: rest) new_summary).
Proof. reflexivity. Qed.

(** * Theorems: the bookkeeping invariant *)

Lemma new_analysis_data_invariant : analysis_invariant new_analysis_data.
Proof. unfold analysis_invariant. cbn. repeat split; reflexivity || lia. Qed.

Lemma tag_move_invariant (move_count c : Z) (data : AnalysisData) :
  analysis_invariant data -> analysis_invariant (tag_move move_count c data).
Proof.
  intros (Hlen & Hphase & Hmist). unfold analysis_invariant, tag_move.
  cbn [moves_analyzed user_cpl_values phase_cpl_sum mistakes_by_phase].
  repeat split.
  - rewrite len_app, Hlen. reflexivity.
  - destruct (add_phase_count_sum (get_game_phase move_count) 1
                (add_phase_cpl (get_game_phase move_count) c (phase_cpl_sum data)))
      as [_ ->].
    destruct (add_phase_cpl_sum (get_game_phase move_count) c (phase_cpl_sum data))
      as [_ ->].
    lia.
  - destruct (negb (get_mistake_category c =? "Good Move")%string).
    + rewrite add_count_sum. lia.
    + lia.
Qed.

Lemma new_summary_invariant : summary_invariant new_summary.
Proof. unfold summary_invariant. cbn. repeat split; reflexivity || lia. Qed.

Lemma aggregate_step_invariant (s : Summary) (data : AnalysisData) :
  summary_invariant s -> analysis_invariant data ->
  summary_invariant (aggregate_step s data).
Proof.
  intros (Hlen & Hphase & Hmist) (Dlen & Dphase & Dmist).
  unfold summary_invariant, aggregate_step.
  cbn [total_moves_analyzed total_user_cpl_values total_phase_cpl_sum
       total_mistakes_by_phase].
  destruct (merge_phases_sum (phase_cpl_sum data) (total_phase_cpl_sum s))
    as [_ ->].
  rewrite len_app, merge_mistakes_sum. lia.
Qed.

Lemma aggregate_fold_invariant (all_results : list AnalysisData) (s0 : Summary) :
  summary_invariant s0 -> Forall analysis_invariant all_results ->
  summary_invariant (fold_left aggregate_step all_results s0).
Proof.
  intros Hs0 Hall. revert s0 Hs0.
  induction Hall as [| data rest Hdata _ IH]; intros s0 Hs0; cbn [fold_left].
  - exact Hs0.
  - apply IH, aggregate_step_invariant; assumption.
Qed.

Lemma bind_Ok {S A B} (m : M S A) (k : A -> M S B) (s s' : S) (b : B) :
  bind m k s = (Ok b, s') ->
  exists a s1, m s = (Ok a, s1) /\ k a s1 = (Ok b, s').
Proof.
  unfold bind. destruct (m s) as [[a | e] s1]; intros Hrun.
  - exists a, s1. split; [reflexivity | exact Hrun].
  - discriminate.
Qed.

Section GameAnalyzer.
Context `{ChessRules} `{!Engine} `{!PgnReader}.
Variable USERNAME : string.

Lemma analyze_moves_invariant (game : Game) (moves : list Move) :
  forall (move_count : Z) (data data' : AnalysisData) (w w' : World),
    analysis_invariant data ->
    analyze_moves USERNAME game moves move_count data w = (Ok data', w') ->
    analysis_invariant data'.
Proof.
  induction moves as [| move moves IH]; intros move_count data data' w w' Hinv Hrun.
  - injection Hrun as <- _. exact Hinv.
  - cbn [analyze_moves] in Hrun.
    apply bind_Ok in Hrun as (ut & w1 & _ & Hrun).
    apply bind_Ok in Hrun as (data1 & w2 & Hstep & Hrun).
    apply bind_Ok in Hrun as (_ & w3 & _ & Hrun).
    apply (IH _ data1 _ _ _) in Hrun; [exact Hrun |].
    destruct ut.
    + apply bind_Ok in Hstep as (c & w4 & _ & Hret).
      injection Hret as <- _. apply tag_move_invariant, Hinv.
    + injection Hstep as <- _. exact Hinv.
Qed.

Lemma analyze_game_invariant (game_pgn : string) (w w' : World)
    (data : AnalysisData) :
  analyze_game USERNAME game_pgn w = (Ok data, w') -> analysis_invariant data.
Proof.
  unfold analyze_game. destruct (read_game game_pgn) as [game |]; [| discriminate].
  intros Hrun. apply bind_Ok in Hrun as (_ & w1 & _ & Hrun).
  exact (analyze_moves_invariant _ _ _ _ _ _ _ new_analysis_data_invariant Hrun).
Qed.

Lemma user_turn_returns (game : Game) (w : World) (white black : string) :
  dict_get "White" (headers game) = Some white ->
  dict_get "Black" (headers game) = Some black ->
  user_turn USERNAME game w
  = (Ok (match turn (state (board w)) with
         | WHITE => String.eqb white USERNAME
         | BLACK => String.eqb black USERNAME
         end), w).
Proof.
  intros Hw Hb.
  unfold user_turn, py_or, py_and, board_turn, header, bind, get, ret.
  rewrite Hw, Hb.
  destruct w as [e [[[|] p] st]]; cbn;
    [destruct (String.eqb white USERNAME) | destruct (String.eqb black USERNAME)];
    reflexivity.
Qed.

(** The analyzer returns a result whenever the game has its two player
    headers and the engine answers every query. *)
Lemma analyze_moves_returns (game : Game) (white black : string) :
  (forall e b, exists s e', analyse e b = (Ok s, e')) ->
  dict_get "White" (headers game) = Some white ->
  dict_get "Black" (headers game) = Some black ->
  forall (moves : list Move) (move_count : Z) (data : AnalysisData) (w : World),
  exists data' w',
    analyze_moves USERNAME game moves move_count data w = (Ok data', w').
Proof.
  intros Hengine Hw Hb.
  induction moves as [| move moves IH]; intros move_count data w.
  - exists data, w. reflexivity.
  - cbn [analyze_moves]. unfold bind at 1.
    rewrite (user_turn_returns game w white black Hw Hb).
    destruct (match turn (state (board w)) with
              | WHITE => String.eqb white USERNAME
              | BLACK => String.eqb black USERNAME
              end).
    + destruct (Hengine (engine w) (board w)) as (s1 & e1 & Hq1).
      destruct (Hengine e1 (board_push move (board w))) as (s2 & e2 & Hq2).
      unfold bind at 1. unfold bind at 1.
      rewrite (get_centipawn_loss_run move w s1 s2 e1 e2 Hq1 Hq2).
      unfold ret at 1. unfold bind at 1. unfold push at 1, modify.
      apply IH.
    + unfold bind at 1. unfold ret at 1. unfold bind at 1.
      unfold push at 1, modify. apply IH.
Qed.

(** X3: The analyzer returns a result for every game that parses and carries
    its two player headers, as long as the engine answers every query. *)
Lemma analyze_game_returns (game_pgn : string) (game : Game)
    (white black : string) (w : World) :
  (forall e b, exists s e', analyse e b = (Ok s, e')) ->
  read_game game_pgn = Some game ->
  dict_get "White" (headers game) = Some white ->
  dict_get "Black" (headers game) = Some black ->
  exists data w', analyze_game USERNAME game_pgn w = (Ok data, w').
Proof.
  intros Hengine Hread Hw Hb. unfold analyze_game. rewrite Hread.
  unfold bind at 1. unfold modify.
  apply (analyze_moves_returns game white black Hengine Hw Hb).
Qed.

(** C10: every per-game result the game analyzer returns has a move count
    equal to the length of its centipawn-loss list and to the total of its
    per-phase move counts, and a total of mistake-label counts of at most
    that move count; the aggregator's summary satisfies the same invariant
    whenever every input does. *)
Theorem analysis_invariant_preserved :
  (forall (game_pgn : string) (w w' : World) (data : AnalysisData),
     analyze_game USERNAME game_pgn w = (Ok data, w') ->
     analysis_invariant data) /\
  (forall (all_results : list AnalysisData) (s : Summary),
     Forall analysis_invariant all_results ->
     aggregate_all_games all_results = Some s ->
     summary_invariant s).
Proof.
  split.
  - exact analyze_game_invariant.
  - intros all_results s Hall Hagg. destruct all_results as [| data rest].
    + discriminate.
    + rewrite aggregate_all_games_cons in Hagg. injection Hagg as <-.
      exact (aggregate_fold_invariant (data :: rest) new_summary
               new_summary_invariant Hall).
Qed.

End GameAnalyzer.

(** The demo game analysed for its White player: three tracked moves, all
    in the opening, two of them tagged. *)
Example analyze_demo_game :
  @analyze_game Demo.rules Demo.engine Demo.reader "hunterisbad1" "1. e4 e5"
    Demo.world
  = (Ok DemoRun.white_result, DemoRun.final_world).
Proof. reflexivity. Qed.

Lemma analysis_invariant_preserved_witness :
  analysis_invariant DemoRun.white_result /\
  summary_invariant
    (fold_left aggregate_step [DemoRun.white_result; Sample.game_b] new_summary).
Proof.
  destruct (@analysis_invariant_preserved Demo.rules Demo.engine Demo.reader
              "hunterisbad1") as [Hgame Hagg].
  assert (Hdemo : analysis_invariant DemoRun.white_result).
  { apply (Hgame "1. e4 e5" Demo.world DemoRun.final_world). reflexivity. }
  split; [exact Hdemo |].
  apply (Hagg [DemoRun.white_result; Sample.game_b]); [| reflexivity].
  constructor; [exact Hdemo |]. constructor; [| constructor].
  unfold analysis_invariant. repeat split; vm_compute; congruence.
Defined.

(** * Theorems: reporter *)

Lemma returns_ret {S A} (a : A) : returns (@ret S A a).
Proof. intros s. exists a, s. reflexivity. Qed.

Lemma returns_modify {S} (f : S -> S) : returns (modify f).
Proof. intros s. exists tt, (f s). reflexivity. Qed.

Lemma returns_bind {S A B} (m : M S A) (k : A -> M S B) :
  returns m -> (forall a, returns (k a)) -> returns (bind m k).
Proof.
  intros Hm Hk s. destruct (Hm s) as (a & s1 & Hrun).
  destruct (Hk a s1) as (b & s2 & Hrun'). exists b, s2.
  unfold bind. rewrite Hrun. exact Hrun'.
Qed.

Create HintDb returns.
#[local] Hint Resolve returns_ret returns_modify : returns.

Section ReporterFacts.
Context `{PyFloat}.

Lemma returns_print (text : string) : returns (print text).
Proof. apply returns_modify. Qed.

Lemma returns_py_sum (xs : list Z) : returns (py_sum xs).
Proof. apply returns_bind; [apply returns_modify | intros; apply returns_ret]. Qed.

Lemma returns_py_add (a b : Z) : returns (py_add a b).
Proof. apply returns_bind; [apply returns_modify | intros; apply returns_ret]. Qed.

(** A division by a non-zero int does not raise. *)
Lemma returns_py_truediv (a b : Z) : b <> 0 -> returns (py_truediv a b).
Proof.
  intros Hb. apply returns_bind; [apply returns_modify | intros _].
  destruct (Z.eqb_spec b 0); [contradiction | apply returns_ret].
Qed.

#[local] Hint Resolve returns_print returns_py_sum returns_py_add : returns.

(** The guard [stats['count'] > 0] keeps every per-phase division away
    from zero. *)
Lemma returns_report_phases (items : dict PhaseStats) :
  forall highest_cpl_phase max_acpl,
    returns (report_phases items highest_cpl_phase max_acpl).
Proof.
  induction items as [| [phase stats] items IH]; intros h m; cbn [report_phases].
  - auto with returns.
  - apply returns_bind; [| intros carried; apply IH].
    destruct (Z.gtb_spec (count stats) 0) as [Hpos | _]; [| auto with returns].
    apply returns_bind; [apply returns_py_truediv; lia | intros phase_acpl].
    apply returns_bind; [auto with returns | intros _].
    destruct (float_gt phase_acpl m); auto with returns.
Qed.



(** C6: aggregating no games yields the no-data result; given it, or given
    a summary whose centipawn-loss list is empty, the reporter returns
    after printing the one matching message, having performed no
    arithmetic: no sum, no addition and no division. *)
Theorem no_data_report :
  aggregate_all_games [] = None /\
  (forall trace,
     generate_report None trace
     = (Ok tt, (trace ++ [Printed "No aggregated data to report."])%list)) /\
  (forall aggregated_data trace,
     total_user_cpl_values aggregated_data = [] ->
     generate_report (Some aggregated_data) trace
     = (Ok tt,
        (trace ++ [Printed "No moves were analyzed for the user across all games."])%list)).
Proof.
  split; [reflexivity | split].
  - reflexivity.
  - intros agg trace Hvalues. cbn [generate_report]. rewrite Hvalues.
    reflexivity.
Qed.

End ReporterFacts.

Lemma no_data_report_witness :
  aggregate_all_games [] = None /\
  @generate_report DemoFloat.fractions None []
  = (Ok tt, [Printed "No aggregated data to report."]) /\
  @generate_report DemoFloat.fractions
    (aggregate_all_games [DemoFloat.no_moves; DemoFloat.no_moves]) []
  = (Ok tt, [Printed "No moves were analyzed for the user across all games."]).
Proof.
  destruct (@no_data_report DemoFloat.fractions) as (Hnil & Hnone & Hempty).
  split; [exact Hnil | split].
  - exact (Hnone []).
  - apply (Hempty _ []). reflexivity.
Defined.

(** A full report on the two sample games. *)
Example report_two_games :
  @generate_report DemoFloat.fractions
    (aggregate_all_games [Sample.game_a; Sample.game_b]) []
  = (Ok tt,
     [Summed [410; 0; 350; 0; 500];
      Divided 1260 5;
      Printed (nl ++ nl ++ "--- ♟️ COACHING REPORT (10 Games) ---");
      Printed ("Overall Accuracy Score (ACPL): **1260/5 cp** "
               ++ "(This places you in the Beginner range >100 cp)");
      Printed (nl ++ "### Weakness by Game Phase");
      Divided 760 4;
      Printed "- Opening ACPL: 760/4 cp (4 moves)";
      Divided 500 1;
      Printed "- Middlegame ACPL: 500/1 cp (1 moves)";
      Printed (nl ++ "💡 **Primary Focus:** Your highest error rate "
               ++ "occurred in the **Middlegame** phase.");
      Printed (nl ++ "### Mistake Breakdown");
      Printed "**Actionable Insight:** The most frequent error was a **Opening - Blunder**.";
      Printed "---";
      Added 0 2;
      Printed "- Opening - Blunder: 2 times";
      Added 2 1;
      Printed "- Middlegame - Blunder: 1 times";
      Printed (nl ++ "**Total Blunders/Mistakes/Inaccuracies:** 3")]).
Proof. vm_compute. reflexivity. Qed.

(** * Theorems: persistence *)

Section SaveFacts.
Import ChessDotCom.
Context `{ChessRules} `{!PgnReader} `{Codecs}.

(** The script binds [USERNAME] and none of the four averages. *)
Lemma load_global_names {S} :
  @load_global S "USERNAME" = ret (VStr USERNAME) /\
  @load_global S "overall_acpl" = raise (NameError "overall_acpl") /\
  @load_global S "opening_acpl" = raise (NameError "opening_acpl") /\
  @load_global S "middlegame_acpl" = raise (NameError "middlegame_acpl") /\
  @load_global S "endgame_acpl" = raise (NameError "endgame_acpl").
Proof. repeat split; reflexivity. Qed.

(** C7 fails on the code: for every game that parses and every analysis
    result, building the arguments of the insert raises [NameError] on
    [overall_acpl]; the handler prints the error and rolls back, the
    cursor is closed, and the table is what it was: nothing is written. *)
Theorem save_game_analysis_writes_nothing (game_pgn : string) (game : Game)
    (analysis_data : AnalysisData) (st : Store)
    (Hparsed : read_game game_pgn = Some game) :
  save_game_analysis game_pgn analysis_data st
  = (Ok tt,
     {| committed := committed st;
        pending := committed st;
        open_cursors := open_cursors st + 1 - 1;
        stdout := (stdout st
                   ++ [("Error inserting game " ++ game_identifier game game_pgn
                        ++ ": name 'overall_acpl' is not defined")%string])%list |}).
Proof.
  unfold save_game_analysis. rewrite Hparsed. reflexivity.
Qed.

End SaveFacts.

Lemma save_game_analysis_writes_nothing_witness :
  @ChessDotCom.save_game_analysis Demo.rules Demo.reader DemoStore.codecs
    "1. e4 e5" DemoRun.white_result DemoStore.empty_store
  = (Ok tt,
     {| ChessDotCom.committed := [];
        ChessDotCom.pending := [];
        ChessDotCom.open_cursors := 0;
        ChessDotCom.stdout :=
          ["Error inserting game SHA256_digest-of-1. e4 e5: name 'overall_acpl' is not defined"] |}).
Proof.
  apply (@save_game_analysis_writes_nothing Demo.rules Demo.reader
           DemoStore.codecs "1. e4 e5" Demo.game DemoRun.white_result
           DemoStore.empty_store).
  reflexivity.
Defined.

(** * Theorems: game fetcher *)


Lemma raises_only_modify {S} (P : exn -> bool) (f : S -> S) :
  raises_only P (modify f).
Proof. intros s e s' Hrun. discriminate. Qed.



Section FetchFacts.
Import ChessDotCom.
Context `{Http}.






(** C9 fails on the code: when the request for the archive listing raises
    before any response exists, the handler reads the local [response],
    which is unbound, and [UnboundLocalError] leaves the fetcher. *)
Theorem fetch_connection_failure_escapes (username : string) (max_games : Z)
    (n n' : Network) (out : list string) (msg : string)
    (Hdown : requests_get ("https://api.chess.com/pub/player/" ++ username
                           ++ "/games/archives") n = (GetRaises msg, n')) :
  fetch_chessdotcom_games username max_games (on_entry n out)
  = (Raise (UnboundLocalError "response"),
     {| network := n';
        console := (out ++ [("Checking Chess.com archives for " ++ username
                             ++ "...")%string])%list;
        response := None |}).
Proof.
  cbv [fetch_chessdotcom_games bind fetch_print modify try_except http_get
       on_entry network console response load_response get ret raise].
  rewrite Hdown. reflexivity.
Qed.

End FetchFacts.

Lemma fetch_connection_failure_escapes_witness :
  @ChessDotCom.fetch_chessdotcom_games DemoNet.unreachable "hunterisbad1" 1
    (@ChessDotCom.on_entry DemoNet.unreachable tt [])
  = (Raise (UnboundLocalError "response"),
     @ChessDotCom.Build_FetchState DemoNet.unreachable tt
       ["Checking Chess.com archives for hunterisbad1..."] None).
Proof.
  apply (@fetch_connection_failure_escapes DemoNet.unreachable
           "hunterisbad1" 1 tt tt [] "Connection refused").
  reflexivity.
Defined.

(** With the listing served, a failing archive is logged and skipped and
    the games of the next one are returned, latest first. *)
Example fetch_skips_failing_archive :
  @ChessDotCom.fetch_chessdotcom_games DemoNet.serving "hunterisbad1" 5
    (@ChessDotCom.on_entry DemoNet.serving 0%nat [])
  = (Ok ["1. d4 d5"; "1. e4 e5"],
     @ChessDotCom.Build_FetchState DemoNet.serving 3%nat
       ["Checking Chess.com archives for hunterisbad1...";
        "Fetching games from archive/2024/02...";
        "Error fetching archive archive/2024/02: Connection reset";
        "Fetching games from archive/2024/01..."]
       (Some DemoNet.listing)).
Proof. reflexivity. Qed.

(** * Further properties: game analyzer *)

Lemma mem_In (k : string) (ks : list string) : mem k ks = true <-> In k ks.
Proof.
  induction ks as [| k' ks IH]; cbn.
  - split; [discriminate | contradiction].
  - rewrite orb_true_iff, IH. destruct (String.eqb_spec k k'); intuition congruence.
Qed.

Lemma keys_dict_set {V} (k : string) (v : V) (d : dict V) :
  keys (dict_set k v d) = if mem k (keys d) then keys d else (keys d ++ [k])%list.
Proof.
  unfold keys. induction d as [| [k' v'] d IH]; cbn; [reflexivity |].
  destruct (String.eqb k k'); cbn; [reflexivity |].
  rewrite IH. destruct (mem k (map fst d)); reflexivity.
Qed.

Lemma mem_app (k : string) (xs ys : list string) :
  mem k (xs ++ ys) = mem k xs || mem k ys.
Proof.
  induction xs as [| x xs IH]; cbn; [reflexivity |].
  rewrite IH, orb_assoc. reflexivity.
Qed.

Lemma nodup_keys_snoc (k : string) (ks : list string) :
  nodup_keys ks = true -> mem k ks = false -> nodup_keys (ks ++ [k]) = true.
Proof.
  induction ks as [| k' ks IH]; cbn; [reflexivity |].
  intros Hnd Hk. apply andb_prop in Hnd as [Hfresh Hnd].
  apply orb_false_elim in Hk as [Hne Hk].
  rewrite (IH Hnd Hk), mem_app. cbn.
  apply negb_true_iff in Hfresh. rewrite Hfresh. cbn.
  rewrite String.eqb_sym, Hne. reflexivity.
Qed.

(** Assignment keeps a dict a dict. *)
Lemma wf_dict_set {V} (k : string) (v : V) (d : dict V) :
  wf_dict d = true -> wf_dict (dict_set k v d) = true.
Proof.
  unfold wf_dict. intros Hwf. rewrite keys_dict_set.
  destruct (mem k (keys d)) eqn:Hk; [exact Hwf |].
  apply nodup_keys_snoc; assumption.
Qed.

Lemma In_keys_dict_set {V} (k k' : string) (v : V) (d : dict V) :
  In k' (keys (dict_set k v d)) -> k' = k \/ In k' (keys d).
Proof.
  rewrite keys_dict_set. destruct (mem k (keys d)); [auto |].
  intros Hin. apply in_app_or in Hin as [Hin | [<- | []]]; auto.
Qed.

Lemma wf_add_count (key : string) (n : Z) (counts : dict Z) :
  wf_dict counts = true -> wf_dict (add_count key n counts) = true.
Proof.
  intros Hwf. unfold add_count, defaultdict_getitem.
  destruct (dict_get key counts); repeat apply wf_dict_set; exact Hwf.
Qed.

Lemma In_keys_add_count (key k : string) (n : Z) (counts : dict Z) :
  In k (keys (add_count key n counts)) -> k = key \/ In k (keys counts).
Proof.
  unfold add_count, defaultdict_getitem.
  destruct (dict_get key counts); intros Hin;
    repeat (apply In_keys_dict_set in Hin as [-> | Hin]; auto).
Qed.

Lemma wf_add_phase_cpl (phase : string) (n : Z) (stats : dict PhaseStats) :
  wf_dict stats = true -> wf_dict (add_phase_cpl phase n stats) = true.
Proof.
  intros Hwf. unfold add_phase_cpl, defaultdict_getitem.
  destruct (dict_get phase stats); repeat apply wf_dict_set; exact Hwf.
Qed.

Lemma wf_add_phase_count (phase : string) (n : Z) (stats : dict PhaseStats) :
  wf_dict stats = true -> wf_dict (add_phase_count phase n stats) = true.
Proof.
  intros Hwf. unfold add_phase_count, defaultdict_getitem.
  destruct (dict_get phase stats); repeat apply wf_dict_set; exact Hwf.
Qed.

Lemma In_keys_add_phase_cpl (phase k : string) (n : Z) (stats : dict PhaseStats) :
  In k (keys (add_phase_cpl phase n stats)) -> k = phase \/ In k (keys stats).
Proof.
  unfold add_phase_cpl, defaultdict_getitem.
  destruct (dict_get phase stats); intros Hin;
    repeat (apply In_keys_dict_set in Hin as [-> | Hin]; auto).
Qed.

Lemma In_keys_add_phase_count (phase k : string) (n : Z) (stats : dict PhaseStats) :
  In k (keys (add_phase_count phase n stats)) -> k = phase \/ In k (keys stats).
Proof.
  unfold add_phase_count, defaultdict_getitem.
  destruct (dict_get phase stats); intros Hin;
    repeat (apply In_keys_dict_set in Hin as [-> | Hin]; auto).
Qed.

Lemma get_game_phase_name (n : Z) : In (get_game_phase n) phase_names.
Proof.
  destruct (get_game_phase_cases n) as [[_ ->] | [[_ ->] | [_ ->]]]; cbn; auto.
Qed.

Lemma composite_label_name (n c : Z) :
  get_mistake_category c <> "Good Move" ->
  In (get_game_phase n ++ " - " ++ get_mistake_category c)%string mistake_labels.
Proof.
  intros Hbad.
  destruct (get_game_phase_cases n) as [[_ ->] | [[_ ->] | [_ ->]]];
    destruct (get_mistake_category_cases c)
      as [[_ E] | [[_ E] | [[_ E] | [_ E]]]];
    rewrite E in *; cbn; try congruence; auto 10.
Qed.

Lemma count_above_app (t : Z) (xs ys : list Z) :
  count_above t (xs ++ ys) = count_above t xs + count_above t ys.
Proof. unfold count_above. rewrite filter_app, len_app. reflexivity. Qed.

Lemma category_good_iff (c : Z) :
  (get_mistake_category c =? "Good Move")%string = (c <=? 50).
Proof.
  destruct (get_mistake_category_cases c) as [[Hr E] | [[Hr E] | [[Hr E] | [Hr E]]]];
    rewrite E; cbn; symmetry;
    [apply Z.leb_gt | apply Z.leb_gt | apply Z.leb_gt | apply Z.leb_le]; lia.
Qed.

Section AnalyzerFacts.
Context `{ChessRules} `{!Engine} `{!PgnReader}.
Variable USERNAME : string.

(** Induction over the loop of the analyzer: a property of the half-move
    counter and the accumulated result that survives an untracked move and
    a tracked move of any non-negative centipawn loss holds at the end. *)
Lemma analyze_moves_preserves (P : Z -> AnalysisData -> Prop) (game : Game) :
  (forall mc d, P mc d -> P (mc + 1) d) ->
  (forall mc c d, 0 <= c -> P mc d -> P (mc + 1) (tag_move (mc + 1) c d)) ->
  forall (moves : list Move) (mc : Z) (d d' : AnalysisData) (w w' : World),
    P mc d ->
    analyze_moves USERNAME game moves mc d w = (Ok d', w') ->
    P (mc + len moves) d'.
Proof.
  intros Hskip Htag.
  induction moves as [| move moves IH]; intros mc d d' w w' HP Hrun.
  - injection Hrun as <- _. rewrite len_nil, Z.add_0_r. exact HP.
  - cbn [analyze_moves] in Hrun.
    apply bind_Ok in Hrun as (ut & w1 & _ & Hrun).
    apply bind_Ok in Hrun as (d1 & w2 & Hstep & Hrun).
    apply bind_Ok in Hrun as (_ & w3 & _ & Hrun).
    replace (mc + len (move :: moves)) with (mc + 1 + len moves)
      by (unfold len; cbn [List.length]; lia).
    apply (IH (mc + 1) d1 d' w3 w'); [| exact Hrun].
    destruct ut.
    + apply bind_Ok in Hstep as (c & w4 & Hcpl & Hret).
      injection Hret as <- _.
      apply get_centipawn_loss_inv in Hcpl as (s1 & e1 & s2 & e2 & _ & _ & -> & _).
      apply Htag; [apply Z.le_max_l | exact HP].
    + injection Hstep as <- _. apply Hskip, HP.
Qed.

Lemma analyze_game_preserves (P : Z -> AnalysisData -> Prop) :
  (forall mc d, P mc d -> P (mc + 1) d) ->
  (forall mc c d, 0 <= c -> P mc d -> P (mc + 1) (tag_move (mc + 1) c d)) ->
  P 0 new_analysis_data ->
  forall (game_pgn : string) (w w' : World) (data : AnalysisData),
    analyze_game USERNAME game_pgn w = (Ok data, w') ->
    exists game,
      read_game game_pgn = Some game /\ P (len (mainline_moves game)) data.
Proof.
  intros Hskip Htag Hinit game_pgn w w' data Hrun. unfold analyze_game in Hrun.
  destruct (read_game game_pgn) as [game |]; [| discriminate].
  exists game. split; [reflexivity |].
  apply bind_Ok in Hrun as (_ & w1 & _ & Hrun).
  exact (analyze_moves_preserves P game Hskip Htag _ 0 _ _ _ _ Hinit Hrun).
Qed.

(** X4: Every centipawn loss the analyzer records is non-negative, the
    per-phase centipawn-loss totals add up to the sum of the recorded
    values, and the mistake labels count exactly the recorded values above
    50. *)
Theorem analyze_game_accounts (game_pgn : string) (w w' : World)
    (data : AnalysisData)
    (Hrun : analyze_game USERNAME game_pgn w = (Ok data, w')) :
  Forall (fun c => 0 <= c) (user_cpl_values data) /\
  dict_sum cpl (phase_cpl_sum data) = sum (user_cpl_values data) /\
  dict_sum id (mistakes_by_phase data) = count_above 50 (user_cpl_values data).
Proof.
  destruct (analyze_game_preserves
              (fun _ d =>
                 Forall (fun c => 0 <= c) (user_cpl_values d) /\
                 dict_sum cpl (phase_cpl_sum d) = sum (user_cpl_values d) /\
                 dict_sum id (mistakes_by_phase d)
                 = count_above 50 (user_cpl_values d)))
    with (game_pgn := game_pgn) (w := w) (w' := w') (data := data)
    as (game & _ & Hdata); auto.
  - intros mc c d Hc (Hpos & Hcpl & Hmist). unfold tag_move.
    cbn [user_cpl_values phase_cpl_sum mistakes_by_phase]. repeat split.
    + apply Forall_app. split; [exact Hpos | constructor; [exact Hc | constructor]].
    + destruct (add_phase_count_sum (get_game_phase (mc + 1)) 1
                  (add_phase_cpl (get_game_phase (mc + 1)) c (phase_cpl_sum d)))
        as [-> _].
      destruct (add_phase_cpl_sum (get_game_phase (mc + 1)) c (phase_cpl_sum d))
        as [-> _].
      rewrite sum_app, sum_cons, sum_nil, Hcpl. lia.
    + rewrite count_above_app, category_good_iff.
      unfold count_above at 2. cbn [filter].
      destruct (Z.leb_spec c 50) as [Hle | Hgt], (Z.gtb_spec c 50);
        try lia; cbn [negb].
      * rewrite len_nil, Hmist. lia.
      * rewrite add_count_sum, Hmist. reflexivity.
Qed.

(** X5: The analyzer writes no key but the three phase names and the nine
    composite labels; "Good Move" never appears in a label. *)
Theorem analyze_game_labels (game_pgn : string) (w w' : World)
    (data : AnalysisData)
    (Hrun : analyze_game USERNAME game_pgn w = (Ok data, w')) :
  (forall k, In k (keys (mistakes_by_phase data)) -> In k mistake_labels) /\
  (forall k, In k (keys (phase_cpl_sum data)) -> In k phase_names).
Proof.
  destruct (analyze_game_preserves
              (fun _ d =>
                 (forall k, In k (keys (mistakes_by_phase d)) -> In k mistake_labels) /\
                 (forall k, In k (keys (phase_cpl_sum d)) -> In k phase_names)))
    with (game_pgn := game_pgn) (w := w) (w' := w') (data := data)
    as (game & _ & Hdata); auto.
  - intros mc c d _ (Hlabels & Hphases). unfold tag_move.
    cbn [phase_cpl_sum mistakes_by_phase]. split; intros k Hin.
    + destruct (String.eqb_spec (get_mistake_category c) "Good Move") as [E | Hbad];
        cbn [negb] in Hin; [exact (Hlabels k Hin) |].
      apply In_keys_add_count in Hin as [-> | Hin]; [| exact (Hlabels k Hin)].
      apply composite_label_name, Hbad.
    + apply In_keys_add_phase_count in Hin as [-> | Hin];
        [apply get_game_phase_name |].
      apply In_keys_add_phase_cpl in Hin as [-> | Hin];
        [apply get_game_phase_name | exact (Hphases k Hin)].
  - split; intros k [].
Qed.

(** The result of the analyzer is made of Python dicts: no key twice. *)
Lemma analyze_game_wf (game_pgn : string) (w w' : World) (data : AnalysisData) :
  analyze_game USERNAME game_pgn w = (Ok data, w') -> wf_analysis data.
Proof.
  intros Hrun.
  destruct (analyze_game_preserves (fun _ d => wf_analysis d))
    with (game_pgn := game_pgn) (w := w) (w' := w') (data := data)
    as (game & _ & Hdata); auto.
  - intros mc c d _ [Hm Hp]. unfold wf_analysis, tag_move.
    cbn [phase_cpl_sum mistakes_by_phase]. split.
    + destruct (negb (get_mistake_category c =? "Good Move")%string);
        [apply wf_add_count |]; exact Hm.
    + apply wf_add_phase_count, wf_add_phase_cpl, Hp.
  - split; reflexivity.
Qed.

End AnalyzerFacts.

Section AnalyzerWalk.
Context `{ChessRules} `{!Engine} `{!PgnReader}.
Variable USERNAME : string.

Lemma push_run (move : Move) (w : World) :
  push move w = (Ok tt, {| engine := engine w; board := board_push move (board w) |}).
Proof. reflexivity. Qed.

(** Deciding whose turn it is touches neither the engine nor the board. *)
Lemma user_turn_state (game : Game) (w w1 : World) (r : result bool) :
  user_turn USERNAME game w = (r, w1) -> w1 = w.
Proof.
  unfold user_turn, py_or, py_and, board_turn, header, bind, get, ret, raise.
  destruct w as [e [[[|] p] st]]; cbn;
    destruct (dict_get "White" (headers game)) as [white |];
    destruct (dict_get "Black" (headers game)) as [black |];
    try destruct (String.eqb white USERNAME);
    try destruct (String.eqb black USERNAME);
    cbn; intros Hrun; congruence.
Qed.

Lemma push_all_cons (move : Move) (moves : list Move) (b : Board) :
  push_all (move :: moves) b = push_all moves (board_push move b).
Proof. reflexivity. Qed.

Lemma analyze_moves_board (game : Game) (moves : list Move) :
  forall (mc : Z) (d d' : AnalysisData) (w w' : World),
    analyze_moves USERNAME game moves mc d w = (Ok d', w') ->
    board w' = push_all moves (board w).
Proof.
  induction moves as [| move moves IH]; intros mc d d' w w' Hrun.
  - injection Hrun as _ <-. reflexivity.
  - cbn [analyze_moves] in Hrun.
    apply bind_Ok in Hrun as (ut & w1 & Hut & Hrun).
    apply user_turn_state in Hut as ->.
    apply bind_Ok in Hrun as (d1 & w2 & Hstep & Hrun).
    apply bind_Ok in Hrun as (u3 & w3 & Hpush & Hrun).
    rewrite push_run in Hpush. injection Hpush as _ <-.
    rewrite (IH _ _ _ _ _ Hrun), push_all_cons. cbn [board].
    destruct ut.
    + apply bind_Ok in Hstep as (c & w4 & Hcpl & Hret). injection Hret as _ <-.
      apply get_centipawn_loss_inv in Hcpl as (s1 & e1 & s2 & e2 & _ & _ & _ & ->).
      reflexivity.
    + injection Hstep as _ <-. reflexivity.
Qed.

Lemma stack_push_all (moves : list Move) (b : Board) :
  len (stack (push_all moves b)) = len (stack b) + len moves.
Proof.
  revert b. induction moves as [| move moves IH]; intros b.
  - unfold len. cbn. lia.
  - rewrite push_all_cons, IH. unfold len. cbn [stack board_push List.length]. lia.
Qed.

(** X6: When the analyzer returns, the board holds the whole main line on top
    of the starting position: every move, tracked or not, has been pushed
    once, and no probe of the evaluator is left on it. *)
Theorem analyze_game_final_board (game_pgn : string) (w w' : World)
    (data : AnalysisData)
    (Hrun : analyze_game USERNAME game_pgn w = (Ok data, w')) :
  exists game,
    read_game game_pgn = Some game /\
    board w' = push_all (mainline_moves game) {| state := start game; stack := [] |} /\
    len (stack (board w')) = len (mainline_moves game).
Proof.
  unfold analyze_game in Hrun.
  destruct (read_game game_pgn) as [game |]; [| discriminate].
  exists game. split; [reflexivity |].
  apply bind_Ok in Hrun as (u1 & w1 & Hset & Hrun). injection Hset as _ <-.
  apply analyze_moves_board in Hrun. cbn [board] in Hrun.
  split; [exact Hrun |]. rewrite Hrun, stack_push_all. reflexivity.
Qed.

(** The walk with the two player headers present: how many moves are
    analyzed from a given board. *)
Lemma analyze_moves_count (game : Game) (white black : string) :
  dict_get "White" (headers game) = Some white ->
  dict_get "Black" (headers game) = Some black ->
  forall (moves : list Move) (mc : Z) (d d' : AnalysisData) (w w' : World),
    analyze_moves USERNAME game moves mc d w = (Ok d', w') ->
    moves_analyzed d'
    = moves_analyzed d
      + tracked_plies (String.eqb white USERNAME) (String.eqb black USERNAME)
          (turn (state (board w))) (len moves).
Proof.
  intros Hw Hb.
  induction moves as [| move moves IH]; intros mc d d' w w' Hrun.
  - injection Hrun as <- _. unfold tracked_plies, len. cbn [List.length Z.of_nat].
    destruct (turn (state (board w))), (String.eqb white USERNAME),
      (String.eqb black USERNAME); cbn; lia.
  - cbn [analyze_moves] in Hrun.
    apply bind_Ok in Hrun as (ut & w1 & Hut & Hrun).
    rewrite (user_turn_returns USERNAME game w white black Hw Hb) in Hut.
    injection Hut as <- <-.
    apply bind_Ok in Hrun as (d1 & w2 & Hstep & Hrun).
    apply bind_Ok in Hrun as (u3 & w3 & Hpush & Hrun).
    rewrite push_run in Hpush. injection Hpush as _ <-.
    rewrite (IH _ _ _ _ _ Hrun). cbn [board board_push state turn].
    assert (Hw2 : board w2 = board w /\
                  moves_analyzed d1
                  = moves_analyzed d
                    + if match turn (state (board w)) with
                         | WHITE => String.eqb white USERNAME
                         | BLACK => String.eqb black USERNAME
                         end then 1 else 0).
    { destruct (match turn (state (board w)) with
                | WHITE => String.eqb white USERNAME
                | BLACK => String.eqb black USERNAME
                end).
      - apply bind_Ok in Hstep as (c & w4 & Hcpl & Hret). injection Hret as <- <-.
        apply get_centipawn_loss_inv in Hcpl
          as (s1 & e1 & s2 & e2 & _ & _ & _ & ->).
        split; [reflexivity | cbn; lia].
      - injection Hstep as <- <-. split; [reflexivity | lia]. }
    destruct Hw2 as [-> ->].
    replace (len (move :: moves)) with (len moves + 1)
      by (unfold len; cbn [List.length]; lia).
    assert (Hn : 0 <= len moves) by (unfold len; lia).
    unfold tracked_plies.
    destruct (turn (state (board w))), (String.eqb white USERNAME),
      (String.eqb black USERNAME); cbn [opposite];
      Z.div_mod_to_equations; lia.
Qed.

(** X7: The number of moves the analyzer evaluates is the number of plies of
    the main line at which the side to move carries the tracked username:
    every other ply for one colour, every ply when the user plays both
    sides, none when the user plays neither. *)
Theorem analyze_game_moves_analyzed (game_pgn : string) (game : Game)
    (white black : string) (w w' : World) (data : AnalysisData)
    (Hgame : read_game game_pgn = Some game)
    (Hwhite : dict_get "White" (headers game) = Some white)
    (Hblack : dict_get "Black" (headers game) = Some black)
    (Hrun : analyze_game USERNAME game_pgn w = (Ok data, w')) :
  moves_analyzed data
  = tracked_plies (String.eqb white USERNAME) (String.eqb black USERNAME)
      (turn (start game)) (len (mainline_moves game)).
Proof.
  unfold analyze_game in Hrun. rewrite Hgame in Hrun.
  apply bind_Ok in Hrun as (u1 & w1 & Hset & Hrun). injection Hset as _ <-.
  apply (analyze_moves_count game white black Hwhite Hblack) in Hrun.
  exact Hrun.
Qed.

Lemma analyze_moves_untracked (game : Game) (white black : string) :
  dict_get "White" (headers game) = Some white ->
  dict_get "Black" (headers game) = Some black ->
  String.eqb white USERNAME = false ->
  String.eqb black USERNAME = false ->
  forall (moves : list Move) (mc : Z) (d : AnalysisData) (w : World),
    analyze_moves USERNAME game moves mc d w
    = (Ok d, {| engine := engine w; board := push_all moves (board w) |}).
Proof.
  intros Hw Hb Hnw Hnb.
  induction moves as [| move moves IH]; intros mc d w.
  - destruct w. reflexivity.
  - cbn [analyze_moves]. unfold bind at 1.
    rewrite (user_turn_returns USERNAME game w white black Hw Hb), Hnw, Hnb.
    replace (match turn (state (board w)) with WHITE => false | BLACK => false end)
      with false by (destruct (turn (state (board w))); reflexivity).
    unfold bind at 1. unfold ret at 1. unfold bind at 1. rewrite push_run.
    rewrite IH. reflexivity.
Qed.

(** X8: A game in which neither player carries the tracked username is walked
    to its end without a single engine query: the result is empty and the
    engine is as it was, whatever the engine would have answered. *)
Theorem analyze_game_untracked (game_pgn : string) (game : Game)
    (white black : string) (w : World)
    (Hgame : read_game game_pgn = Some game)
    (Hwhite : dict_get "White" (headers game) = Some white)
    (Hblack : dict_get "Black" (headers game) = Some black)
    (Hnot_white : white <> USERNAME)
    (Hnot_black : black <> USERNAME) :
  analyze_game USERNAME game_pgn w
  = (Ok new_analysis_data,
     {| engine := engine w;
        board := push_all (mainline_moves game)
                   {| state := start game; stack := [] |} |}).
Proof.
  unfold analyze_game. rewrite Hgame. unfold bind at 1. unfold modify.
  apply String.eqb_neq in Hnot_white, Hnot_black.
  rewrite (analyze_moves_untracked game white black Hwhite Hblack
             Hnot_white Hnot_black).
  reflexivity.
Qed.

End AnalyzerWalk.

Lemma analyze_game_accounts_witness :
  Forall (fun c => 0 <= c) (user_cpl_values DemoRun.white_result) /\
  dict_sum cpl (phase_cpl_sum DemoRun.white_result)
  = sum (user_cpl_values DemoRun.white_result) /\
  dict_sum id (mistakes_by_phase DemoRun.white_result)
  = count_above 50 (user_cpl_values DemoRun.white_result).
Proof.
  apply (@analyze_game_accounts Demo.rules Demo.engine Demo.reader
           "hunterisbad1" "1. e4 e5" Demo.world DemoRun.final_world).
  reflexivity.
Defined.

Lemma analyze_game_labels_witness :
  (forall k, In k (keys (mistakes_by_phase DemoRun.white_result)) ->
             In k mistake_labels) /\
  (forall k, In k (keys (phase_cpl_sum DemoRun.white_result)) ->
             In k phase_names).
Proof.
  apply (@analyze_game_labels Demo.rules Demo.engine Demo.reader
           "hunterisbad1" "1. e4 e5" Demo.world DemoRun.final_world).
  reflexivity.
Defined.

Lemma analyze_game_final_board_witness :
  exists game,
    @read_game Demo.rules Demo.reader "1. e4 e5" = Some game /\
    board DemoRun.final_world
    = push_all (mainline_moves game) (@Build_Board Demo.rules (start game) []) /\
    len (stack (board DemoRun.final_world)) = len (mainline_moves game).
Proof.
  apply (@analyze_game_final_board Demo.rules Demo.engine Demo.reader
           "hunterisbad1" "1. e4 e5" Demo.world DemoRun.final_world
           DemoRun.white_result).
  reflexivity.
Defined.

Lemma analyze_game_moves_analyzed_witness :
  moves_analyzed DemoRun.white_result
  = tracked_plies true false WHITE 5.
Proof.
  apply (@analyze_game_moves_analyzed Demo.rules Demo.engine Demo.reader
           "hunterisbad1" "1. e4 e5" Demo.game "hunterisbad1" "opponent"
           Demo.world DemoRun.final_world DemoRun.white_result);
    reflexivity.
Defined.

Lemma analyze_game_untracked_witness :
  @analyze_game Demo.rules Demo.dead_engine Demo.reader "kirat0070" "1. e4 e5"
    (@Build_World Demo.rules Demo.dead_engine 0%nat Demo.fresh_board)
  = (Ok new_analysis_data,
     @Build_World Demo.rules Demo.dead_engine 0%nat
       (push_all (mainline_moves Demo.game)
          (@Build_Board Demo.rules (start Demo.game) []))).
Proof.
  apply (@analyze_game_untracked Demo.rules Demo.dead_engine Demo.reader
           "kirat0070" "1. e4 e5" Demo.game "hunterisbad1" "opponent");
    try reflexivity; discriminate.
Defined.

Lemma tag_move_phase_count (mc c : Z) (d : AnalysisData) (k : string) :
  count (phase_stats k (phase_cpl_sum (tag_move mc c d)))
  = count (phase_stats k (phase_cpl_sum d))
    + if String.eqb (get_game_phase mc) k then 1 else 0.
Proof.
  unfold tag_move, phase_stats. cbn [phase_cpl_sum].
  pose proof (add_phase_count_get (get_game_phase mc) k 1
                (add_phase_cpl (get_game_phase mc) c (phase_cpl_sum d))) as Hn.
  pose proof (add_phase_cpl_get (get_game_phase mc) k c (phase_cpl_sum d)) as Hc.
  cbv zeta in Hn, Hc. rewrite Hn, Hc.
  destruct (String.eqb (get_game_phase mc) k); cbn; lia.
Qed.

Section PhaseBounds.
Context `{ChessRules} `{!Engine} `{!PgnReader}.
Variable USERNAME : string.

(** X9: Phases go by half-move number, whoever moves: of a game of n plies at
    most 10 analyzed moves are booked under Opening, at most 20 under
    Middlegame, and at most n - 30 under Endgame. *)
Theorem analyze_game_phase_counts (game_pgn : string) (w w' : World)
    (data : AnalysisData)
    (Hrun : analyze_game USERNAME game_pgn w = (Ok data, w')) :
  exists game,
    read_game game_pgn = Some game /\
    0 <= count (phase_stats "Opening" (phase_cpl_sum data)) <= 10 /\
    0 <= count (phase_stats "Middlegame" (phase_cpl_sum data)) <= 20 /\
    0 <= count (phase_stats "Endgame" (phase_cpl_sum data))
      <= Z.max 0 (len (mainline_moves game) - 30).
Proof.
  destruct (analyze_game_preserves USERNAME
              (fun mc d =>
                 0 <= mc /\
                 0 <= count (phase_stats "Opening" (phase_cpl_sum d))
                   <= Z.min mc 10 /\
                 0 <= count (phase_stats "Middlegame" (phase_cpl_sum d))
                   <= Z.max 0 (Z.min mc 30 - 10) /\
                 0 <= count (phase_stats "Endgame" (phase_cpl_sum d))
                   <= Z.max 0 (mc - 30)))
    with (game_pgn := game_pgn) (w := w) (w' := w') (data := data)
    as (game & Hgame & Hdata).
  - intros mc d. lia.
  - intros mc c d _ (Hmc & Ho & Hm & He).
    rewrite !tag_move_phase_count.
    destruct (get_game_phase_cases (mc + 1)) as [[Hr E] | [[Hr E] | [Hr E]]];
      rewrite E; cbn [String.eqb Ascii.eqb Bool.eqb andb]; lia.
  - cbn. lia.
  - exact Hrun.
  - exists game. split; [exact Hgame |]. lia.
Qed.

End PhaseBounds.

Lemma analyze_game_phase_counts_witness :
  exists game,
    @read_game Demo.rules Demo.reader "1. e4 e5" = Some game /\
    0 <= count (phase_stats "Opening" (phase_cpl_sum DemoRun.white_result)) <= 10 /\
    0 <= count (phase_stats "Middlegame" (phase_cpl_sum DemoRun.white_result)) <= 20 /\
    0 <= count (phase_stats "Endgame" (phase_cpl_sum DemoRun.white_result))
      <= Z.max 0 (len (mainline_moves game) - 30).
Proof.
  apply (@analyze_game_phase_counts Demo.rules Demo.engine Demo.reader
           "hunterisbad1" "1. e4 e5" Demo.world DemoRun.final_world).
  reflexivity.
Defined.

(** * Further properties: aggregator *)

Lemma dict_set_fresh {V} (k : string) (v : V) (d : dict V) :
  mem k (keys d) = false -> dict_set k v d = (d ++ [(k, v)])%list.
Proof.
  induction d as [| [k' v'] d IH]; cbn; [reflexivity |].
  destruct (String.eqb k k'); cbn; [discriminate |].
  intros Hk. rewrite (IH Hk). reflexivity.
Qed.

Lemma dict_set_last {V} (k : string) (v v' : V) (d : dict V) :
  mem k (keys d) = false ->
  dict_set k v' (d ++ [(k, v)])%list = (d ++ [(k, v')])%list.
Proof.
  induction d as [| [k0 v0] d IH]; cbn.
  - rewrite String.eqb_refl. reflexivity.
  - destruct (String.eqb k k0); cbn; [discriminate |].
    intros Hk. rewrite (IH Hk). reflexivity.
Qed.

Lemma add_count_fresh (k : string) (n : Z) (counts : dict Z) :
  mem k (keys counts) = false -> add_count k n counts = (counts ++ [(k, n)])%list.
Proof.
  intros Hk. unfold add_count, defaultdict_getitem.
  rewrite (dict_get_not_mem _ _ Hk), (dict_set_fresh _ _ _ Hk).
  apply dict_set_last, Hk.
Qed.

Lemma add_phase_fresh (k : string) (st : PhaseStats) (stats : dict PhaseStats) :
  mem k (keys stats) = false ->
  add_phase_count k (count st) (add_phase_cpl k (cpl st) stats)
  = (stats ++ [(k, st)])%list.
Proof.
  intros Hk. unfold add_phase_cpl at 1, defaultdict_getitem.
  rewrite (dict_get_not_mem _ _ Hk), (dict_set_fresh _ _ _ Hk),
    (dict_set_last _ _ _ _ Hk).
  unfold add_phase_count, defaultdict_getitem.
  assert (Hget : dict_get k (stats ++ [(k, {| cpl := cpl new_phase_stats + cpl st;
                                              count := count new_phase_stats |})])%list
                 = Some {| cpl := cpl new_phase_stats + cpl st;
                           count := count new_phase_stats |}).
  { rewrite <- (dict_set_fresh _ _ _ Hk). apply dict_get_set_same. }
  rewrite Hget, (dict_set_last _ _ _ _ Hk). destruct st. reflexivity.
Qed.

Lemma mem_keys_snoc {V} (k k0 : string) (v0 : V) (d : dict V) :
  mem k (keys (d ++ [(k0, v0)])%list) = mem k (keys d) || String.eqb k k0.
Proof.
  unfold keys. rewrite map_app, mem_app. cbn. rewrite orb_false_r. reflexivity.
Qed.

(** Merging a dict into one that shares no key with it appends its items
    in order. *)
Lemma merge_mistakes_disjoint (items acc : dict Z) :
  wf_dict items = true ->
  (forall k, In k (keys items) -> mem k (keys acc) = false) ->
  merge_mistakes items acc = (acc ++ items)%list.
Proof.
  unfold merge_mistakes. revert acc.
  induction items as [| [k0 n0] items IH]; intros acc Hwf Hdisj; cbn [fold_left].
  - rewrite app_nil_r. reflexivity.
  - apply wf_dict_cons in Hwf as [Hfresh Hwf].
    rewrite add_count_fresh by (apply Hdisj; left; reflexivity).
    rewrite IH; [rewrite <- app_assoc; reflexivity | exact Hwf |].
    intros k Hin. rewrite mem_keys_snoc, (Hdisj k (or_intror Hin)). cbn.
    destruct (String.eqb_spec k k0) as [-> | _]; [| reflexivity].
    apply mem_In in Hin. congruence.
Qed.

Lemma merge_phases_disjoint (items acc : dict PhaseStats) :
  wf_dict items = true ->
  (forall k, In k (keys items) -> mem k (keys acc) = false) ->
  merge_phases items acc = (acc ++ items)%list.
Proof.
  unfold merge_phases. revert acc.
  induction items as [| [k0 st0] items IH]; intros acc Hwf Hdisj; cbn [fold_left].
  - rewrite app_nil_r. reflexivity.
  - apply wf_dict_cons in Hwf as [Hfresh Hwf].
    rewrite add_phase_fresh by (apply Hdisj; left; reflexivity).
    rewrite IH; [rewrite <- app_assoc; reflexivity | exact Hwf |].
    intros k Hin. rewrite mem_keys_snoc, (Hdisj k (or_intror Hin)). cbn.
    destruct (String.eqb_spec k k0) as [-> | _]; [| reflexivity].
    apply mem_In in Hin. congruence.
Qed.

(** X10: Aggregating a single game reproduces it: same list, same count, same
    two dicts with their items in the same order. *)
Theorem aggregate_single_game (data : AnalysisData) (Hwf : wf_analysis data) :
  aggregate_all_games [data]
  = Some {| total_user_cpl_values := user_cpl_values data;
            total_moves_analyzed := moves_analyzed data;
            total_mistakes_by_phase := mistakes_by_phase data;
            total_phase_cpl_sum := phase_cpl_sum data |}.
Proof.
  destruct Hwf as [Hm Hp]. unfold aggregate_all_games. cbn [fold_left].
  unfold aggregate_step. cbn [new_summary total_user_cpl_values
    total_moves_analyzed total_mistakes_by_phase total_phase_cpl_sum app].
  rewrite (merge_mistakes_disjoint _ [] Hm), (merge_phases_disjoint _ [] Hp)
    by reflexivity.
  reflexivity.
Qed.

Lemma aggregate_single_game_witness :
  aggregate_all_games [Sample.game_b]
  = Some {| total_user_cpl_values := user_cpl_values Sample.game_b;
            total_moves_analyzed := moves_analyzed Sample.game_b;
            total_mistakes_by_phase := mistakes_by_phase Sample.game_b;
            total_phase_cpl_sum := phase_cpl_sum Sample.game_b |}.
Proof. apply aggregate_single_game. split; reflexivity. Defined.

Lemma aggregate_step_empty (s : Summary) : aggregate_step s new_analysis_data = s.
Proof.
  destruct s as [values moves mistakes phases]. unfold aggregate_step. cbn.
  rewrite app_nil_r, Z.add_0_r. reflexivity.
Qed.

(** X11: A game without a tracked move leaves no trace in the summary, wherever
    it stands among the games, as long as it is not the only one. *)
Theorem aggregate_skips_empty_game (before after : list AnalysisData)
    (Hothers : (before ++ after)%list <> []) :
  aggregate_all_games (before ++ new_analysis_data :: after)%list
  = aggregate_all_games (before ++ after)%list.
Proof.
  assert (Hfold : fold_left aggregate_step (before ++ new_analysis_data :: after)%list
                    new_summary
                  = fold_left aggregate_step (before ++ after)%list new_summary).
  { rewrite !fold_left_app. cbn [fold_left]. rewrite aggregate_step_empty.
    reflexivity. }
  unfold aggregate_all_games. rewrite Hfold.
  destruct before as [| b before]; cbn [app].
  - destruct after; [contradiction | reflexivity].
  - reflexivity.
Qed.

Lemma aggregate_skips_empty_game_witness :
  aggregate_all_games ([Sample.game_a] ++ new_analysis_data :: [Sample.game_b])%list
  = aggregate_all_games ([Sample.game_a] ++ [Sample.game_b])%list.
Proof. apply aggregate_skips_empty_game. discriminate. Defined.

(** Alone, though, it still yields a summary, an empty one, not the
    no-data result. *)
Example aggregate_only_empty_game :
  aggregate_all_games [new_analysis_data] = Some new_summary.
Proof. reflexivity. Qed.






(** X13: If in every game the per-phase centipawn-loss totals add up to the
    sum of the game's values and the labels count the values above 50, the
    same holds of the summary. *)
Theorem aggregate_accounts (all_results : list AnalysisData) (s : Summary)
    (Hall : Forall (fun data =>
                      dict_sum cpl (phase_cpl_sum data)
                      = sum (user_cpl_values data) /\
                      dict_sum id (mistakes_by_phase data)
                      = count_above 50 (user_cpl_values data)) all_results)
    (Hs : aggregate_all_games all_results = Some s) :
  dict_sum cpl (total_phase_cpl_sum s) = sum (total_user_cpl_values s) /\
  dict_sum id (total_mistakes_by_phase s)
  = count_above 50 (total_user_cpl_values s).
Proof.
  assert (Hfold : s = fold_left aggregate_step all_results new_summary).
  { destruct all_results; [discriminate | injection Hs as <-; reflexivity]. }
  rewrite Hfold. clear Hs Hfold.
  assert (Hinit : dict_sum cpl (total_phase_cpl_sum new_summary)
                  = sum (total_user_cpl_values new_summary) /\
                  dict_sum id (total_mistakes_by_phase new_summary)
                  = count_above 50 (total_user_cpl_values new_summary))
    by (split; reflexivity).
  revert Hinit. generalize new_summary as s0.
  induction Hall as [| data rest [Hc Hm] _ IH]; intros s0 [Hc0 Hm0]; cbn [fold_left].
  - split; assumption.
  - apply IH. unfold aggregate_step.
    cbn [total_phase_cpl_sum total_user_cpl_values total_mistakes_by_phase].
    destruct (merge_phases_sum (phase_cpl_sum data) (total_phase_cpl_sum s0))
      as [-> _].
    rewrite merge_mistakes_sum, sum_app, count_above_app. lia.
Qed.

Lemma aggregate_accounts_witness :
  dict_sum cpl [("Opening", {| cpl := 760; count := 4 |});
                ("Middlegame", {| cpl := 500; count := 1 |})]
  = sum [410; 0; 350; 0; 500] /\
  dict_sum id [("Opening - Blunder", 2); ("Middlegame - Blunder", 1)]
  = count_above 50 [410; 0; 350; 0; 500].
Proof.
  apply (aggregate_accounts [Sample.game_a; Sample.game_b]
           {| total_user_cpl_values := [410; 0; 350; 0; 500];
              total_moves_analyzed := 5;
              total_mistakes_by_phase :=
                [("Opening - Blunder", 2); ("Middlegame - Blunder", 1)];
              total_phase_cpl_sum :=
                [("Opening", {| cpl := 760; count := 4 |});
                 ("Middlegame", {| cpl := 500; count := 1 |})] |}).
  - repeat constructor.
  - reflexivity.
Defined.

(** * Further properties: reporter *)

Lemma max_by_count_first (items : dict Z) :
  forall best : string * Z,
    let r := max_by_count best items in
    (r = best /\ Forall (fun item => snd item <= snd best) items) \/
    (exists before after,
       items = (before ++ r :: after)%list /\
       snd best < snd r /\
       Forall (fun item => snd item < snd r) before /\
       Forall (fun item => snd item <= snd r) after).
Proof.
  induction items as [| item items IH]; intros best; cbv zeta; cbn [max_by_count].
  - left. split; [reflexivity | constructor].
  - destruct (Z.gtb_spec (snd item) (snd best)) as [Hgt | Hle].
    + right. destruct (IH item) as [[Hr Hall] | (b & a & Hitems & Hlt & Hb & Ha)].
      * exists [], items. rewrite Hr. repeat split; auto.
      * exists (item :: b), a. rewrite Hitems at 1. repeat split; auto; try lia.
    + destruct (IH best) as [[Hr Hall] | (b & a & Hitems & Hlt & Hb & Ha)].
      * left. rewrite Hr. split; [reflexivity |]. constructor; [lia | exact Hall].
      * right. exists (item :: b), a. rewrite Hitems at 1.
        repeat split; auto. constructor; [lia | exact Hb].
Qed.

(** X15: The "most frequent error" is an item of the dict with the greatest
    count, and of several such the first in the dict's order: the items
    before it have strictly smaller counts. *)
Theorem most_common_first_maximum (mistake_counts : dict Z)
    (Hnonempty : mistake_counts <> []) :
  exists before after,
    mistake_counts = (before ++ most_common mistake_counts :: after)%list /\
    Forall (fun item => snd item < snd (most_common mistake_counts)) before /\
    Forall (fun item => snd item <= snd (most_common mistake_counts)) after.
Proof.
  destruct mistake_counts as [| first rest]; [contradiction |].
  cbn [most_common].
  destruct (max_by_count_first rest first)
    as [[Hr Hall] | (b & a & Hitems & Hlt & Hb & Ha)].
  - exists [], rest. rewrite Hr. repeat split; auto.
  - exists (first :: b), a. rewrite Hitems at 1. repeat split; auto.
Qed.

Lemma most_common_first_maximum_witness :
  exists before after,
    [("Opening - Mistake", 2); ("Endgame - Blunder", 4); ("Opening - Blunder", 4)]
    = (before
       ++ most_common [("Opening - Mistake", 2); ("Endgame - Blunder", 4);
                       ("Opening - Blunder", 4)]
       :: after)%list /\
    Forall (fun item => snd item
                        < snd (most_common [("Opening - Mistake", 2);
                                            ("Endgame - Blunder", 4);
                                            ("Opening - Blunder", 4)])) before /\
    Forall (fun item => snd item
                        <= snd (most_common [("Opening - Mistake", 2);
                                             ("Endgame - Blunder", 4);
                                             ("Opening - Blunder", 4)])) after.
Proof. apply most_common_first_maximum. discriminate. Defined.

Example most_common_tie :
  most_common [("Opening - Mistake", 2); ("Endgame - Blunder", 4);
               ("Opening - Blunder", 4)]
  = ("Endgame - Blunder", 4).
Proof. reflexivity. Qed.

Lemma finishes_returns {S A} (Q : A -> S -> Prop) (m : M S A) :
  finishes Q m -> returns m.
Proof. intros Hm s. destruct (Hm s) as (a & s' & Hrun & _). eauto. Qed.

Lemma finishes_bind {S A B} (Q : B -> S -> Prop) (m : M S A) (k : A -> M S B) :
  returns m -> (forall a, finishes Q (k a)) -> finishes Q (bind m k).
Proof.
  intros Hm Hk s. destruct (Hm s) as (a & s1 & Hrun).
  destruct (Hk a s1) as (b & s2 & Hrun' & HQ). exists b, s2.
  unfold bind. rewrite Hrun. split; assumption.
Qed.

Lemma finishes_bind_value {S A B} (Q : B -> S -> Prop) (v : A) (m : M S A)
    (k : A -> M S B) :
  finishes (fun a _ => a = v) m -> finishes Q (k v) -> finishes Q (bind m k).
Proof.
  intros Hm Hk s. destruct (Hm s) as (a & s1 & Hrun & ->).
  destruct (Hk s1) as (b & s2 & Hrun' & HQ). exists b, s2.
  unfold bind. rewrite Hrun. split; assumption.
Qed.

Section ReporterTotals.
Context `{PyFloat}.

Lemma finishes_py_add (a b : Z) : finishes (fun r _ => r = a + b) (py_add a b).
Proof. intros s. eexists _, _. split; reflexivity. Qed.

Lemma finishes_report_mistakes (items : dict Z) :
  forall total,
    finishes (fun r _ => r = total + dict_sum id items)
      (report_mistakes items total).
Proof.
  induction items as [| [error n] items IH]; intros total; cbn [report_mistakes].
  - intros s. exists total, s. split; [reflexivity |]. unfold dict_sum. cbn. lia.
  - apply (finishes_bind_value _ (total + n)); [apply finishes_py_add |].
    apply finishes_bind; [apply returns_print | intros _].
    intros s. destruct (IH (total + n) s) as (r & s' & Hrun & ->).
    exists (total + n + dict_sum id items), s'. split; [exact Hrun |].
    unfold dict_sum. cbn [values map snd]. rewrite sum_cons. unfold id, values. lia.
Qed.

Lemma finishes_print_last (text : string) :
  finishes (fun _ trace => exists earlier, trace = (earlier ++ [Printed text])%list)
    (print text).
Proof. intros s. exists tt, (s ++ [Printed text])%list. split; [reflexivity | eauto]. Qed.

(** X16: Whenever the breakdown is printed, that is when there are moves and the
    most frequent label has a positive count, the report ends with the
    line of the total, and the total is the sum of all label counts. *)
Theorem generate_report_total_line (aggregated_data : Summary)
    (trace : list Event)
    (Hmoves : total_user_cpl_values aggregated_data <> [])
    (Hcommon : 0 < snd (most_common (total_mistakes_by_phase aggregated_data))) :
  exists earlier,
    generate_report (Some aggregated_data) trace
    = (Ok tt,
       (earlier
        ++ [Printed (nl ++ "**Total Blunders/Mistakes/Inaccuracies:** "
                     ++ str (dict_sum id (total_mistakes_by_phase aggregated_data)))%string])%list).
Proof.
  assert (Hfin : finishes
                   (fun _ tr => exists earlier,
                      tr = (earlier
                            ++ [Printed (nl ++ "**Total Blunders/Mistakes/Inaccuracies:** "
                                         ++ str (dict_sum id
                                                   (total_mistakes_by_phase aggregated_data)))%string])%list)
                   (generate_report (Some aggregated_data))).
  { cbn [generate_report].
    destruct (total_user_cpl_values aggregated_data) as [| c cs]; [contradiction |].
    apply finishes_bind; [apply returns_py_sum | intros total].
    apply finishes_bind.
    { apply returns_py_truediv. unfold len. cbn [List.length]. lia. }
    intros avg_cpl.
    repeat (apply finishes_bind; [apply returns_print | intros _]).
    apply finishes_bind; [apply returns_report_phases | intros carried].
    apply finishes_bind.
    { destruct (fst carried) as [[| ch rest] |];
        apply returns_ret || apply returns_print. }
    intros _. apply finishes_bind; [apply returns_print | intros _].
    destruct (total_mistakes_by_phase aggregated_data) as [| item items] eqn:Hitems.
    { cbn in Hcommon. lia. }
    destruct (Z.gtb_spec (snd (most_common (item :: items))) 0); [| lia].
    repeat (apply finishes_bind; [apply returns_print | intros _]).
    apply (finishes_bind_value _ (0 + dict_sum id (item :: items)));
      [apply finishes_report_mistakes |].
    apply finishes_print_last. }
  destruct (Hfin trace) as ([] & tr & Hrun & earlier & ->).
  exists earlier. exact Hrun.
Qed.

End ReporterTotals.

Lemma generate_report_total_line_witness :
  exists earlier,
    @generate_report DemoFloat.fractions
      (aggregate_all_games [Sample.game_a; Sample.game_b]) []
    = (Ok tt,
       (earlier
        ++ [Printed (nl ++ "**Total Blunders/Mistakes/Inaccuracies:** "
                     ++ str (dict_sum id [("Opening - Blunder", 2);
                                          ("Middlegame - Blunder", 1)]))%string])%list).
Proof.
  apply (@generate_report_total_line DemoFloat.fractions
           {| total_user_cpl_values := [410; 0; 350; 0; 500];
              total_moves_analyzed := 5;
              total_mistakes_by_phase :=
                [("Opening - Blunder", 2); ("Middlegame - Blunder", 1)];
              total_phase_cpl_sum :=
                [("Opening", {| cpl := 760; count := 4 |});
                 ("Middlegame", {| cpl := 500; count := 1 |})] |} []).
  - discriminate.
  - reflexivity.
Defined.

(** * Further properties: game fetcher *)

Lemma try_except_Ok {S A} (body : M S A) (P : exn -> bool)
    (handler : exn -> M S A) (s s' : S) (a : A) :
  try_except body P handler s = (Ok a, s') ->
  body s = (Ok a, s') \/
  exists e s1, body s = (Raise e, s1) /\ P e = true /\ handler e s1 = (Ok a, s').
Proof.
  unfold try_except. destruct (body s) as [[a1 | e] s1]; intros Hrun.
  - left. exact Hrun.
  - right. exists e, s1. destruct (P e); [auto | discriminate].
Qed.

Section FetchBounds.
Import ChessDotCom.
Context `{Http}.

(** What the fetcher promises of its list: no more than [max_games]
    entries, none of them empty. *)
Definition within_quota (max_games : Z) (all_pgn_data : list string) : Prop :=
  len all_pgn_data <= Z.max 0 max_games /\
  Forall (fun text => text <> EmptyString) all_pgn_data.

Lemma collect_games_within_quota (max_games : Z) (games : list GameData) :
  forall all_pgn_data,
    within_quota max_games all_pgn_data ->
    within_quota max_games (fst (collect_games games all_pgn_data max_games)).
Proof.
  induction games as [| game_data games IH]; intros all [Hlen Hne];
    cbn [collect_games].
  - split; assumption.
  - assert (Hnext : within_quota max_games
                      match pgn_text game_data with
                      | Some text =>
                          if truthy (Some text) && (len all <? max_games)
                          then (all ++ [text])%list else all
                      | None => all
                      end).
    { destruct (pgn_text game_data) as [[| c rest] |]; cbn [truthy andb];
        try (split; assumption).
      destruct (Z.ltb_spec (len all) max_games); [| split; assumption].
      split.
      - rewrite len_app. unfold len at 2. cbn. lia.
      - apply Forall_app. split; [exact Hne |]. repeat constructor. discriminate. }
    destruct (len _ >=? max_games); [exact Hnext | apply IH, Hnext].
Qed.

Lemma fetch_archives_within_quota (max_games : Z) (urls : list string) :
  forall all_pgn_data st games st',
    within_quota max_games all_pgn_data ->
    fetch_archives urls all_pgn_data max_games st = (Ok games, st') ->
    within_quota max_games games.
Proof.
  induction urls as [| url urls IH]; intros all st games st' Hall Hrun.
  - injection Hrun as <- _. exact Hall.
  - cbn [fetch_archives] in Hrun.
    apply bind_Ok in Hrun as (u & s1 & _ & Hrun).
    apply bind_Ok in Hrun as (round & s2 & Hround & Hrun).
    assert (Hq : within_quota max_games (fst round)).
    { apply try_except_Ok in Hround
        as [Hbody | (e & s3 & _ & _ & Hhandler)].
      - apply bind_Ok in Hbody as (r & s3 & _ & Hbody).
        apply bind_Ok in Hbody as (u' & s4 & _ & Hbody).
        injection Hbody as <- _. apply collect_games_within_quota, Hall.
      - apply bind_Ok in Hhandler as (u' & s4 & _ & Hret).
        injection Hret as <- _. exact Hall. }
    destruct (snd round).
    + injection Hrun as <- _. exact Hq.
    + exact (IH _ _ _ _ Hq Hrun).
Qed.

(** X17: Whatever the network does, a list the fetcher returns has at most
    [max_games] entries (none for [max_games <= 0]) and holds no empty
    text. *)
Theorem fetch_within_quota (username : string) (max_games : Z)
    (st st' : FetchState) (games : list string)
    (Hrun : fetch_chessdotcom_games username max_games st = (Ok games, st')) :
  len games <= Z.max 0 max_games /\
  Forall (fun text => text <> EmptyString) games.
Proof.
  unfold fetch_chessdotcom_games in Hrun.
  apply bind_Ok in Hrun as (u & s1 & _ & Hrun).
  apply bind_Ok in Hrun as (listing & s2 & _ & Hrun).
  assert (Hnil : within_quota max_games []).
  { split; [unfold len; cbn; lia | constructor]. }
  destruct listing as [archives |].
  - exact (fetch_archives_within_quota _ _ _ _ _ _ Hnil Hrun).
  - injection Hrun as <- _. exact Hnil.
Qed.

(** X18: A 4xx or 5xx answer to the listing request ends the fetch at once:
    the result is empty, no further request is made, and 404 and 403 get
    their own messages. *)
Theorem fetch_listing_http_error (username : string) (max_games : Z)
    (n n' : Network) (out : list string) (r : Response)
    (Hget : requests_get ("https://api.chess.com/pub/player/" ++ username
                          ++ "/games/archives") n = (GetReturns r, n'))
    (Hstatus : 400 <= status_code r < 600) :
  exists line,
    fetch_chessdotcom_games username max_games (on_entry n out)
    = (Ok [],
       {| network := n';
          console := (out ++ [("Checking Chess.com archives for " ++ username
                               ++ "...")%string; line])%list;
          response := Some r |}) /\
    (status_code r = 404 ->
     line = "Error: Username not found (404). Please check spelling.") /\
    (status_code r = 403 ->
     line = "Error: Access Forbidden (403). Try adding a User-Agent header.").
Proof.
  cbv [fetch_chessdotcom_games bind fetch_print modify try_except http_get
       on_entry network console response store_response load_response get ret
       raise raise_for_status].
  rewrite Hget.
  replace ((400 <=? status_code r) && (status_code r <? 600)) with true
    by (symmetry; apply andb_true_intro; split;
        [apply Z.leb_le | apply Z.ltb_lt]; lia).
  cbv [is_RequestException].
  destruct (Z.eqb_spec (status_code r) 404) as [E404 | N404].
  - eexists. split; [rewrite <- app_assoc; reflexivity |].
    split; [reflexivity | lia].
  - destruct (Z.eqb_spec (status_code r) 403) as [E403 | N403].
    + eexists. split; [rewrite <- app_assoc; reflexivity |].
      split; [lia | reflexivity].
    + eexists. split; [rewrite <- app_assoc; reflexivity |]. split; lia.
Qed.

End FetchBounds.

Lemma firstn_succ_cons {A} (k : Z) (x : A) (xs : list A) :
  0 < k -> firstn (Z.to_nat k) (x :: xs) = x :: firstn (Z.to_nat (k - 1)) xs.
Proof.
  intros Hk. replace (Z.to_nat k) with (S (Z.to_nat (k - 1))) by lia. reflexivity.
Qed.

Lemma firstn_app_Z {A} (k : Z) (xs ys : list A) :
  firstn (Z.to_nat k) (xs ++ ys)
  = (firstn (Z.to_nat k) xs ++ firstn (Z.to_nat (k - len xs)) ys)%list.
Proof.
  rewrite firstn_app. f_equal. f_equal. unfold len. lia.
Qed.

Lemma firstn_short_Z {A} (k : Z) (xs : list A) :
  len xs <= k -> firstn (Z.to_nat k) xs = xs.
Proof. intros Hk. apply firstn_all2. unfold len in Hk. lia. Qed.

Lemma firstn_nothing_Z {A} (k : Z) (xs : list A) :
  k <= 0 -> firstn (Z.to_nat k) xs = [].
Proof. intros Hk. replace (Z.to_nat k) with 0%nat by lia. reflexivity. Qed.

Section FetchOrder.
Import ChessDotCom.
Context `{Http}.

(** The inner loop below its quota: it takes the non-empty texts in order
    until the quota is full, and leaves through [return] exactly when it
    fills it. *)
Lemma collect_games_take (max_games : Z) (games : list GameData) :
  forall all_pgn_data,
    len all_pgn_data < max_games ->
    collect_games games all_pgn_data max_games
    = ((all_pgn_data
        ++ firstn (Z.to_nat (max_games - len all_pgn_data)) (pgn_texts games))%list,
       max_games - len all_pgn_data <=? len (pgn_texts games)).
Proof.
  induction games as [| game_data games IH]; intros all Hall; cbn [collect_games].
  - cbn [pgn_texts flat_map]. rewrite firstn_nil, app_nil_r. f_equal.
    symmetry. apply Z.leb_gt. unfold len in *. cbn [List.length]. lia.
  - unfold pgn_texts. cbn [flat_map]. fold (pgn_texts games).
    destruct (pgn_text game_data) as [[| c rest] |]; cbn [truthy andb app].
    + rewrite Z.geb_leb. destruct (Z.leb_spec max_games (len all)); [lia |].
      apply IH, Hall.
    + replace (len all <? max_games) with true by (symmetry; apply Z.ltb_lt; lia).
      assert (Hlen : len (all ++ [String c rest]) = len all + 1).
      { rewrite len_app. reflexivity. }
      assert (Hcons : len (String c rest :: pgn_texts games)
                      = len (pgn_texts games) + 1).
      { unfold len. cbn [List.length]. lia. }
      rewrite Z.geb_leb, Hlen, Hcons.
      rewrite (firstn_succ_cons (max_games - len all)) by lia.
      destruct (Z.leb_spec max_games (len all + 1)) as [Hfull | Hroom].
      * rewrite firstn_nothing_Z by lia. f_equal.
        symmetry. apply Z.leb_le. unfold len in *. lia.
      * rewrite (IH (all ++ [String c rest])%list) by (rewrite Hlen; lia).
        rewrite Hlen, <- app_assoc. cbn [app]. f_equal.
        -- do 3 f_equal. lia.
        -- destruct (Z.leb_spec (max_games - (len all + 1)) (len (pgn_texts games))),
             (Z.leb_spec (max_games - len all) (len (pgn_texts games) + 1));
             reflexivity || lia.
    + rewrite Z.geb_leb. destruct (Z.leb_spec max_games (len all)); [lia |].
      apply IH, Hall.
Qed.

Variable site : string -> Response.
Hypothesis site_served :
  forall url n, exists n', requests_get url n = (GetReturns (site url), n').
Hypothesis site_ok :
  forall url, status_code (site url) < 400 \/ 600 <= status_code (site url).

Lemma raise_for_status_ok (url : string) :
  (400 <=? status_code (site url)) && (status_code (site url) <? 600) = false.
Proof.
  destruct (site_ok url); [apply andb_false_intro1, Z.leb_gt
                          | apply andb_false_intro2, Z.ltb_ge]; lia.
Qed.

Lemma fetch_archives_take (max_games : Z) (urls : list string) :
  forall all_pgn_data st,
    len all_pgn_data < max_games ->
    exists st',
      fetch_archives urls all_pgn_data max_games st
      = (Ok (all_pgn_data
             ++ firstn (Z.to_nat (max_games - len all_pgn_data))
                  (flat_map (fun url => pgn_texts (rev (games_of (site url)))) urls))%list,
         st').
Proof.
  induction urls as [| url urls IH]; intros all st Hall.
  - exists st. cbn. rewrite firstn_nil, app_nil_r. reflexivity.
  - destruct st as [n0 out0 resp0]. cbn [fetch_archives flat_map].
    cbv [bind fetch_print modify try_except http_get network console response
         raise_for_status ret raise].
    destruct (site_served url n0) as [n' Hget]. rewrite Hget.
    rewrite raise_for_status_ok.
    fold (games_of (site url)).
    rewrite (collect_games_take max_games _ all Hall). cbn [fst snd].
    rewrite firstn_app_Z.
    destruct (Z.leb_spec (max_games - len all)
                (len (pgn_texts (rev (games_of (site url)))))) as [Hfull | Hroom].
    + eexists.
      rewrite (firstn_nothing_Z
                 (max_games - len all - len (pgn_texts (rev (games_of (site url))))))
        by lia.
      rewrite app_nil_r. reflexivity.
    + rewrite (firstn_short_Z (max_games - len all)
                 (pgn_texts (rev (games_of (site url))))) by lia.
      match goal with
      | |- context [fetch_archives urls ?a max_games ?s] =>
          destruct (IH a s) as [st' Hrest]
      end.
      { rewrite len_app. lia. }
      exists st'. rewrite Hrest, len_app, <- app_assoc.
      replace (max_games - (len all + len (pgn_texts (rev (games_of (site url))))))
        with (max_games - len all - len (pgn_texts (rev (games_of (site url)))))
        by lia.
      reflexivity.
Qed.

(** X19: On a network that serves every request without an error status, the
    fetcher returns the first [max_games] non-empty PGN texts in the order
    latest archive first and, inside an archive, latest game first. *)
Theorem fetch_latest_first (username : string) (max_games : Z)
    (n : Network) (out : list string) (Hmax : 1 <= max_games) :
  exists st',
    fetch_chessdotcom_games username max_games (on_entry n out)
    = (Ok (firstn (Z.to_nat max_games)
             (flat_map (fun url => pgn_texts (rev (games_of (site url))))
                (rev (archives_of
                        (site ("https://api.chess.com/pub/player/" ++ username
                               ++ "/games/archives")))))),
       st').
Proof.
  cbv [fetch_chessdotcom_games bind fetch_print modify try_except http_get
       on_entry network console response store_response load_response get ret
       raise raise_for_status].
  destruct (site_served ("https://api.chess.com/pub/player/" ++ username
                         ++ "/games/archives") n) as [n' Hget].
  rewrite Hget, raise_for_status_ok.
  fold (archives_of (site ("https://api.chess.com/pub/player/" ++ username
                           ++ "/games/archives"))).
  match goal with
  | |- context [fetch_archives ?urls [] max_games ?s] =>
      destruct (fetch_archives_take max_games urls [] s) as [st' Hrun]
  end.
  { unfold len. cbn. lia. }
  exists st'. rewrite Hrun. cbn [app].
  replace (max_games - len (@nil string)) with max_games
    by (unfold len; cbn; lia).
  reflexivity.
Qed.

End FetchOrder.

Lemma fetch_within_quota_witness :
  len ["1. d4 d5"; "1. e4 e5"] <= Z.max 0 5 /\
  Forall (fun text => text <> EmptyString) ["1. d4 d5"; "1. e4 e5"].
Proof.
  apply (@fetch_within_quota DemoNet.serving "hunterisbad1" 5
           (@ChessDotCom.on_entry DemoNet.serving 0%nat []) 
           (@ChessDotCom.Build_FetchState DemoNet.serving 3%nat
              ["Checking Chess.com archives for hunterisbad1...";
               "Fetching games from archive/2024/02...";
               "Error fetching archive archive/2024/02: Connection reset";
               "Fetching games from archive/2024/01..."]
              (Some DemoNet.listing))).
  reflexivity.
Defined.

Lemma fetch_listing_http_error_witness :
  exists line,
    @ChessDotCom.fetch_chessdotcom_games DemoNet.no_such_player "nobody" 3
      (@ChessDotCom.on_entry DemoNet.no_such_player 0%nat [])
    = (Ok [],
       @ChessDotCom.Build_FetchState DemoNet.no_such_player 1%nat
         ["Checking Chess.com archives for nobody..."; line]
         (Some DemoNet.not_found)) /\
    line = "Error: Username not found (404). Please check spelling.".
Proof.
  destruct (@fetch_listing_http_error DemoNet.no_such_player "nobody" 3
              0%nat 1%nat [] DemoNet.not_found eq_refl)
    as (line & Hrun & H404 & _).
  - cbn. lia.
  - exists line. split; [exact Hrun | apply H404; reflexivity].
Defined.

Lemma fetch_latest_first_witness :
  exists st',
    @ChessDotCom.fetch_chessdotcom_games DemoNet.healthy "hunterisbad1" 3
      (@ChessDotCom.on_entry DemoNet.healthy 0%nat [])
    = (Ok ["1. Nf3 Nf6"; "1. c4 c5"; "1. d4 d5"], st').
Proof.
  destruct (@fetch_latest_first DemoNet.healthy DemoNet.site) with
    (username := "hunterisbad1") (max_games := 3) (n := 0%nat)
    (out := @nil string) as [st' Hrun].
  - intros url n. exists (S n). reflexivity.
  - intros url. unfold DemoNet.site.
    destruct (String.eqb url "archive/2024/01");
      [| destruct (String.eqb url "archive/2024/02")]; cbn; lia.
  - lia.
  - exists st'. exact Hrun.
Defined.


Lemma get_centipawn_loss_second_query_raises_witness :
  @get_centipawn_loss Demo.rules Demo.flaky_engine 400
    (@Build_World Demo.rules Demo.flaky_engine 0%nat Demo.fresh_board)
  = (Raise (EngineError "engine process died"),
     @Build_World Demo.rules Demo.flaky_engine 1%nat
       (@board_push Demo.rules 400 Demo.fresh_board)).
Proof.
  apply (@get_centipawn_loss_second_query_raises Demo.rules Demo.flaky_engine
           400 (@Build_World Demo.rules Demo.flaky_engine 0%nat Demo.fresh_board)
           (Cp 30) 1%nat 1%nat);
    reflexivity.
Defined.

(** * Further properties: persistence *)


Section UpsertFacts.
Import ChessDotCom.


End UpsertFacts.

Section StoreFacts.
Import ChessDotCom ChessDotComMain.
Context `{ChessRules} `{!PgnReader} `{Codecs}.

(** What a call of [save_game_analysis] does, parsed game or not. *)
Lemma save_game_analysis_effect (game_pgn : string) (data : AnalysisData)
    (st : Store) :
  save_game_analysis game_pgn data st
  = match read_game game_pgn with
    | None =>
        (Raise (AttributeError "'NoneType' object has no attribute 'headers'"), st)
    | Some game =>
        (Ok tt,
         {| committed := committed st;
            pending := committed st;
            open_cursors := open_cursors st + 1 - 1;
            stdout := (stdout st
                       ++ [("Error inserting game "
                            ++ game_identifier game game_pgn
                            ++ ": name 'overall_acpl' is not defined")%string])%list |})
    end.
Proof.
  unfold save_game_analysis. destruct (read_game game_pgn); reflexivity.
Qed.

Lemma is_game_analyzed_effect (game_pgn : string) (st : Store) :
  is_game_analyzed game_pgn st
  = match read_game game_pgn with
    | None =>
        (Raise (AttributeError "'NoneType' object has no attribute 'headers'"), st)
    | Some game =>
        (Ok match dict_get (game_identifier game game_pgn) (pending st) with
            | Some _ => true
            | None => false
            end,
         {| committed := committed st;
            pending := pending st;
            open_cursors := open_cursors st + 1 + 1 - 1;
            stdout := stdout st |})
    end.
Proof.
  unfold is_game_analyzed. destruct (read_game game_pgn); reflexivity.
Qed.


(** X23: Saving never makes a game count as analyzed: with no transaction
    pending, the existence check answers after [save_game_analysis] what
    it answered before. *)
Theorem save_then_check (game_pgn : string) (data : AnalysisData) (st : Store)
    (Hidle : pending st = committed st) :
  fst (is_game_analyzed game_pgn (snd (save_game_analysis game_pgn data st)))
  = fst (is_game_analyzed game_pgn st).
Proof.
  rewrite save_game_analysis_effect, !is_game_analyzed_effect.
  destruct (read_game game_pgn) as [game |]; cbn; rewrite ?Hidle; reflexivity.
Qed.

End StoreFacts.

(** * Further properties: the entry point *)

Lemma fixes_ret {S A X} (f : S -> X) (a : A) : fixes f (@ret S A a).
Proof. intros s r s' Hrun. injection Hrun as _ <-. reflexivity. Qed.

Lemma fixes_raise {S A X} (f : S -> X) (e : exn) : fixes f (@raise S A e).
Proof. intros s r s' Hrun. injection Hrun as _ <-. reflexivity. Qed.

Lemma fixes_get {S X} (f : S -> X) : fixes f (@get S).
Proof. intros s r s' Hrun. injection Hrun as _ <-. reflexivity. Qed.

Lemma fixes_modify {S X} (f : S -> X) (g : S -> S) :
  (forall s, f (g s) = f s) -> fixes f (modify g).
Proof. intros Hg s r s' Hrun. injection Hrun as _ <-. apply Hg. Qed.

Lemma fixes_bind {S A B X} (f : S -> X) (m : M S A) (k : A -> M S B) :
  fixes f m -> (forall a, fixes f (k a)) -> fixes f (bind m k).
Proof.
  intros Hm Hk s r s' Hrun. unfold bind in Hrun.
  destruct (m s) as [[a | e] s1] eqn:Hms.
  - rewrite (Hk a s1 r s' Hrun). exact (Hm s _ s1 Hms).
  - injection Hrun as _ <-. exact (Hm s _ s1 Hms).
Qed.

Lemma fixes_try_except {S A X} (f : S -> X) (body : M S A) (P : exn -> bool)
    (handler : exn -> M S A) :
  fixes f body -> (forall e, fixes f (handler e)) ->
  fixes f (try_except body P handler).
Proof.
  intros Hbody Hhandler s r s' Hrun. unfold try_except in Hrun.
  destruct (body s) as [[a | e] s1] eqn:Hbs.
  - injection Hrun as _ <-. exact (Hbody s _ s1 Hbs).
  - destruct (P e).
    + rewrite (Hhandler e s1 r s' Hrun). exact (Hbody s _ s1 Hbs).
    + injection Hrun as _ <-. exact (Hbody s _ s1 Hbs).
Qed.

Lemma fixes_try_finally {S A X} (f : S -> X) (body : M S A) (cleanup : M S unit) :
  fixes f body -> fixes f cleanup -> fixes f (try_finally body cleanup).
Proof.
  intros Hbody Hcleanup s r s' Hrun. unfold try_finally in Hrun.
  destruct (body s) as [rb s1] eqn:Hbs.
  destruct (cleanup s1) as [[u | e] s2] eqn:Hcs; injection Hrun as _ <-;
    rewrite (Hcleanup s1 _ s2 Hcs); exact (Hbody s _ s1 Hbs).
Qed.

Lemma keeps_of_fixes {S A X} (f : S -> X) (P : X -> Prop) (m : M S A) :
  fixes f m -> keeps (fun s => P (f s)) m.
Proof. intros Hm s r s' HP Hrun. rewrite (Hm s r s' Hrun). exact HP. Qed.

Lemma keeps_bind {S A B} (I : S -> Prop) (m : M S A) (k : A -> M S B) :
  keeps I m -> (forall a, keeps I (k a)) -> keeps I (bind m k).
Proof.
  intros Hm Hk s r s' HI Hrun. unfold bind in Hrun.
  destruct (m s) as [[a | e] s1] eqn:Hms.
  - exact (Hk a s1 r s' (Hm s _ s1 HI Hms) Hrun).
  - injection Hrun as _ <-. exact (Hm s _ s1 HI Hms).
Qed.

Create HintDb fixes.
#[local] Hint Resolve fixes_ret fixes_raise fixes_get : fixes.

Section MainFacts.
Import ChessDotCom ChessDotComMain.
Context `{ChessRules} `{!Engine} `{!PgnReader} `{Codecs} `{Http} `{PyFloat} `{!Host}.

(** The part of the process that tells what is open, what runs and which
    of the two locals of [main] are bound. *)
Definition flags (p : Process) : bool * bool * bool * bool :=
  (conn_open p, engine_alive p, conn p,
   match engine_handle p with Some _ => true | None => false end).

(** Whatever is open or running is known to a local of [main]. *)
Definition tracked (fl : bool * bool * bool * bool) : Prop :=
  let '(open, alive, c, h) := fl in
  (alive = true -> h = true) /\ (open = true -> c = true).

Lemma fixes_write {X} (f : Process -> X) (o : Output) :
  (forall p t, f {| table_committed := table_committed p;
                    table_pending := table_pending p; cursors := cursors p;
                    net := net p; terminal := t; conn_open := conn_open p;
                    engine_alive := engine_alive p; conn := conn p;
                    engine_handle := engine_handle p |} = f p) ->
  fixes f (write o).
Proof. intros Hf. apply fixes_modify. intros p. apply Hf. Qed.

Lemma fixes_on_network {A X} (f : Process -> X) (m : M FetchState A) :
  (forall p n t, f {| table_committed := table_committed p;
                      table_pending := table_pending p; cursors := cursors p;
                      net := n; terminal := t; conn_open := conn_open p;
                      engine_alive := engine_alive p; conn := conn p;
                      engine_handle := engine_handle p |} = f p) ->
  fixes f (on_network m).
Proof.
  intros Hf p r p' Hrun. unfold on_network in Hrun.
  destruct (m (on_entry (net p) [])) as [r1 st]. injection Hrun as _ <-. apply Hf.
Qed.

Lemma fixes_on_terminal {A X} (f : Process -> X) (m : M (list Event) A) :
  (forall p t, f {| table_committed := table_committed p;
                    table_pending := table_pending p; cursors := cursors p;
                    net := net p; terminal := t; conn_open := conn_open p;
                    engine_alive := engine_alive p; conn := conn p;
                    engine_handle := engine_handle p |} = f p) ->
  fixes f (on_terminal m).
Proof.
  intros Hf p r p' Hrun. unfold on_terminal in Hrun.
  destruct (m []) as [r1 tr]. injection Hrun as _ <-. apply Hf.
Qed.

Lemma fixes_flags_on_store {A} (m : M Store A) : fixes flags (on_store m).
Proof.
  intros p r p' Hrun. unfold on_store in Hrun.
  destruct (m _) as [r1 st]. injection Hrun as _ <-. reflexivity.
Qed.

Lemma fixes_committed_on_store {A} (m : M Store A) :
  fixes committed m -> fixes table_committed (on_store m).
Proof.
  intros Hm p r p' Hrun. unfold on_store in Hrun.
  destruct (m _) as [r1 st] eqn:Hms. injection Hrun as _ <-.
  exact (Hm _ _ _ Hms).
Qed.

Lemma fixes_committed_save (game_pgn : string) (data : AnalysisData) :
  fixes committed (save_game_analysis game_pgn data).
Proof.
  intros st r st' Hrun. rewrite save_game_analysis_effect in Hrun.
  destruct (read_game game_pgn); injection Hrun as _ <-; reflexivity.
Qed.

Lemma fixes_committed_check (game_pgn : string) :
  fixes committed (is_game_analyzed game_pgn).
Proof.
  intros st r st' Hrun. rewrite is_game_analyzed_effect in Hrun.
  destruct (read_game game_pgn); injection Hrun as _ <-; reflexivity.
Qed.

Lemma fixes_run_analyze_game {X} (f : Process -> X) (game_pgn : string) :
  (forall p e, f {| table_committed := table_committed p;
                    table_pending := table_pending p; cursors := cursors p;
                    net := net p; terminal := terminal p;
                    conn_open := conn_open p; engine_alive := engine_alive p;
                    conn := conn p; engine_handle := Some e |} = f p
               \/ engine_handle p = None) ->
  fixes f (run_analyze_game game_pgn).
Proof.
  intros Hf p r p' Hrun. unfold run_analyze_game in Hrun.
  destruct (engine_handle p) as [e |] eqn:He; [| injection Hrun as _ <-; reflexivity].
  destruct (read_game game_pgn) as [game |]; [| injection Hrun as _ <-; reflexivity].
  destruct (analyze_game _ _ _) as [r1 w]. injection Hrun as _ <-.
  destruct (Hf p (engine w)) as [Heq | Hnone]; [exact Heq | congruence].
Qed.

(** The parts of [main] that neither change what is open or bound nor
    touch the committed table. *)
Definition quiet {A} (m : M Process A) : Prop :=
  fixes flags m /\ fixes table_committed m.

Lemma quiet_bind {A B} (m : M Process A) (k : A -> M Process B) :
  quiet m -> (forall a, quiet (k a)) -> quiet (bind m k).
Proof.
  intros [Hf Ht] Hk. split; apply fixes_bind; auto; intros a; apply Hk.
Qed.

Lemma quiet_ret {A} (a : A) : quiet (@ret Process A a).
Proof. split; apply fixes_ret. Qed.

Lemma quiet_write (o : Output) : quiet (write o).
Proof. split; apply fixes_write; reflexivity. Qed.

Lemma quiet_on_store {A} (m : M Store A) : fixes committed m -> quiet (on_store m).
Proof.
  intros Hm. split; [apply fixes_flags_on_store | apply fixes_committed_on_store, Hm].
Qed.

Lemma quiet_on_network {A} (m : M FetchState A) : quiet (on_network m).
Proof. split; apply fixes_on_network; reflexivity. Qed.

Lemma quiet_on_terminal {A} (m : M (list Event) A) : quiet (on_terminal m).
Proof. split; apply fixes_on_terminal; reflexivity. Qed.

Lemma quiet_run_analyze_game (game_pgn : string) : quiet (run_analyze_game game_pgn).
Proof.
  split; apply fixes_run_analyze_game; intros p e.
  - unfold flags. cbn. destruct (engine_handle p); [left; reflexivity | right; reflexivity].
  - left. reflexivity.
Qed.

Lemma quiet_skip_analyzed (games : list string) :
  forall games_to_analyze, quiet (skip_analyzed games games_to_analyze).
Proof.
  induction games as [| game_pgn games IH]; intros acc; cbn [skip_analyzed].
  - apply quiet_ret.
  - apply quiet_bind; [split; apply fixes_get | intros p].
    apply quiet_bind.
    + destruct (conn p); [apply quiet_on_store, fixes_committed_check | apply quiet_ret].
    + intros [|]; [apply quiet_bind; [apply quiet_write | intros _] |]; apply IH.
Qed.

Lemma quiet_analyze_and_save (games : list string) :
  forall i total all_cpl_results,
    quiet (analyze_and_save games i total all_cpl_results).
Proof.
  induction games as [| game_pgn games IH]; intros i total acc;
    cbn [analyze_and_save].
  - apply quiet_ret.
  - apply quiet_bind; [apply quiet_write | intros _].
    apply quiet_bind; [apply quiet_run_analyze_game | intros result].
    apply quiet_bind; [apply quiet_on_store, fixes_committed_save | intros _].
    apply IH.
Qed.

Lemma start_engine_effect :
  fixes table_committed start_engine /\ keeps (fun p => tracked (flags p)) start_engine.
Proof.
  unfold start_engine. destruct (popen_uci STOCKFISH_PATH) as [e | x]; split.
  - apply fixes_modify. reflexivity.
  - intros p r p' HI Hrun. injection Hrun as _ <-. unfold flags, tracked in *.
    cbn. destruct HI as [_ Hconn]. split; [reflexivity | exact Hconn].
  - apply fixes_raise.
  - intros p r p' HI Hrun. injection Hrun as _ <-. exact HI.
Qed.

Lemma main_with_connection_effect :
  fixes table_committed main_with_connection /\
  keeps (fun p => tracked (flags p)) main_with_connection.
Proof.
  assert (Hrest : quiet
            (write (Line ("Fetching last " ++ str NUM_GAMES ++ " games for "
                          ++ USERNAME ++ " from Chess.com...")) ;;;
             games_pgn_list <- on_network (fetch_chessdotcom_games USERNAME NUM_GAMES) ;;
             match games_pgn_list with
             | [] => write (Line "Could not fetch any games from Chess.com. Aborting analysis.")
             | _ =>
                 write (Partial "Checking database for analyzed games...") ;;;
                 games_to_analyze <- skip_analyzed games_pgn_list [] ;;
                 write (Line (nl ++ "Found " ++ str (len games_to_analyze)
                              ++ " new game(s) needing analysis.")) ;;;
                 all_cpl_results <-
                   analyze_and_save games_to_analyze 0 (len games_to_analyze) [] ;;
                 let final_summary := aggregate_all_games all_cpl_results in
                 match final_summary with
                 | Some _ => on_terminal (generate_report final_summary)
                 | None =>
                     write (Line ("No new analysis was performed, and no data was "
                                  ++ "available for reporting."))
                 end
             end)).
  { apply quiet_bind; [apply quiet_write | intros _].
    apply quiet_bind; [apply quiet_on_network | intros games].
    destruct games as [| g gs]; [apply quiet_write |].
    apply quiet_bind; [apply quiet_write | intros _].
    apply quiet_bind; [apply quiet_skip_analyzed | intros todo].
    apply quiet_bind; [apply quiet_write | intros _].
    apply quiet_bind; [apply quiet_analyze_and_save | intros results].
    cbv zeta. destruct (aggregate_all_games results);
      [apply quiet_on_terminal | apply quiet_write]. }
  destruct Hrest as [Hflags Htable]. destruct start_engine_effect as [Hst Hsk].
  unfold main_with_connection. split.
  - apply fixes_bind; [apply fixes_write; reflexivity | intros _].
    apply fixes_bind; [exact Hst | intros _; exact Htable].
  - apply keeps_bind.
    { apply (keeps_of_fixes flags tracked), fixes_write. reflexivity. }
    intros _. apply keeps_bind; [exact Hsk | intros _].
    apply (keeps_of_fixes flags tracked), Hflags.
Qed.

Lemma get_db_connection_effect (p : Process) :
  get_db_connection p
  = match connect_error with
    | Some msg =>
        (Ok false,
         {| table_committed := table_committed p; table_pending := table_pending p;
            cursors := cursors p; net := net p;
            terminal := (terminal p
                         ++ [Line ("Database connection error: " ++ msg)])%list;
            conn_open := conn_open p; engine_alive := engine_alive p;
            conn := conn p; engine_handle := engine_handle p |})
    | None =>
        (Ok true,
         {| table_committed := table_committed p; table_pending := table_pending p;
            cursors := cursors p; net := net p; terminal := terminal p;
            conn_open := true; engine_alive := engine_alive p;
            conn := conn p; engine_handle := engine_handle p |})
    end.
Proof.
  unfold get_db_connection, try_except, psycopg2_connect.
  destruct connect_error; reflexivity.
Qed.

Lemma main_body_effect (p p' : Process) (r : result unit) :
  main_body p = (r, p') ->
  table_committed p' = table_committed p /\
  (conn_open p = false -> engine_alive p = false -> tracked (flags p')).
Proof.
  destruct main_with_connection_effect as [Htable Hkeeps].
  unfold main_body, bind at 1. rewrite get_db_connection_effect.
  destruct connect_error as [msg |]; cbv [bind assign_conn modify negb write];
    cbn [table_committed table_pending cursors net terminal conn_open
         engine_alive conn engine_handle]; intros Hrun.
  - injection Hrun as _ <-. split; [reflexivity |].
    intros Hopen Halive. unfold tracked, flags. cbn.
    split; [rewrite Halive | rewrite Hopen]; discriminate.
  - split.
    + rewrite (Htable _ _ _ Hrun). reflexivity.
    + intros _ Halive. apply (Hkeeps _ _ _) in Hrun; [exact Hrun |].
      unfold tracked, flags. cbn. split; [rewrite Halive; discriminate | reflexivity].
Qed.

Lemma main_cleanup_effect (p : Process) :
  exists p',
    main_cleanup p = (Ok tt, p') /\
    table_committed p' = table_committed p /\
    (tracked (flags p) -> conn_open p' = false /\ engine_alive p' = false).
Proof.
  destruct p as [tc tp cu n t open alive c h].
  unfold main_cleanup, tracked, flags.
  destruct h as [e |], c; cbn; eexists; (split; [reflexivity |]);
    (split; [reflexivity |]); intros [Ha Ho]; split;
    try reflexivity;
    try (destruct open; [discriminate (Ho eq_refl) | reflexivity]);
    try (destruct alive; [discriminate (Ha eq_refl) | reflexivity]).
Qed.

(** X24: The committed table is never changed by a run of the script, from
    whatever state and however the run goes. *)
Theorem main_never_writes (p p' : Process) (r : result unit)
    (Hrun : main p = (r, p')) :
  table_committed p' = table_committed p.
Proof.
  revert Hrun. unfold main, bind at 1, modify, try_finally, try_except.
  set (p0 := {| table_committed := table_committed p; engine_handle := None |}).
  destruct (main_body p0) as [[[] | e] p1] eqn:Hbody;
    apply main_body_effect in Hbody as [Hbody _].
  - destruct (main_cleanup_effect p1) as (p2 & -> & Ht & _).
    intros Hrun. injection Hrun as _ <-. rewrite Ht, Hbody. reflexivity.
  - unfold is_Exception, write, modify. cbv beta iota.
    match goal with
    | |- context [main_cleanup ?q] =>
        destruct (main_cleanup_effect q) as (p2 & -> & Ht & _)
    end.
    intros Hrun. injection Hrun as _ <-. rewrite Ht. cbn. rewrite Hbody.
    reflexivity.
Qed.


End MainFacts.

Section MainRuns.
Import ChessDotCom ChessDotComMain.
Context `{ChessRules} `{!Engine} `{!PgnReader} `{Codecs} `{Http} `{PyFloat} `{!Host}.

(** X26: When the database server refuses the connection the run ends after
    two lines on the terminal: the engine is not started, the network is
    not used, nothing else changes. *)
Theorem main_without_database (table : dict Row) (n : Network) (msg : string)
    (Hrefused : connect_error = Some msg) :
  main (boot table n)
  = (Ok tt,
     {| table_committed := table; table_pending := table; cursors := 0;
        net := n;
        terminal := [Line ("Database connection error: " ++ msg);
                     Line "Fatal: Could not connect to database. Aborting analysis."];
        conn_open := false; engine_alive := false;
        conn := false; engine_handle := None |}).
Proof.
  cbv [main bind modify try_finally try_except main_body].
  rewrite get_db_connection_effect, Hrefused. reflexivity.
Qed.

(** X27: When the database and the engine are up but the request for the
    archive listing cannot connect, the failure of the fetcher ends the
    run: the top-level handler reports the unbound local, no game is
    analyzed, and the engine and the connection are released. *)
Theorem main_without_network (table : dict Row) (n n' : Network)
    (e : EngineState) (msg : string)
    (Hconnected : connect_error = None)
    (Hstarted : popen_uci STOCKFISH_PATH = Ok e)
    (Hdown : requests_get ("https://api.chess.com/pub/player/" ++ USERNAME
                           ++ "/games/archives") n = (GetRaises msg, n')) :
  main (boot table n)
  = (Ok tt,
     {| table_committed := table; table_pending := table; cursors := 0;
        net := n';
        terminal :=
          [Line ("Initializing Stockfish at depth " ++ str ANALYSIS_DEPTH ++ "...");
           Line ("Fetching last " ++ str NUM_GAMES ++ " games for " ++ USERNAME
                 ++ " from Chess.com...");
           Line ("Checking Chess.com archives for " ++ USERNAME ++ "...");
           Line (nl ++ "AN ERROR OCCURRED: "
                 ++ exn_message (UnboundLocalError "response"));
           Line "Database connection closed."];
        conn_open := false; engine_alive := false;
        conn := true; engine_handle := Some e |}).
Proof.
  cbv [main bind modify try_finally try_except main_body].
  rewrite get_db_connection_effect, Hconnected.
  cbv [assign_conn modify negb write main_with_connection start_engine bind].
  rewrite Hstarted.
  cbv [modify on_network fetch_chessdotcom_games bind fetch_print try_except
       http_get on_entry network console response load_response get ret raise
       boot table_committed table_pending cursors net terminal conn_open
       engine_alive conn engine_handle].
  rewrite Hdown. reflexivity.
Qed.

End MainRuns.

Module DemoMain.

(** The script on the demo collaborators. *)
Definition run (web : ChessDotCom.Http) (host : @ChessDotComMain.Host Demo.rules Demo.engine)
    (n : @ChessDotCom.Network web)
  : result unit * @ChessDotComMain.Process Demo.rules Demo.engine web :=
  @ChessDotComMain.main Demo.rules Demo.engine Demo.reader DemoStore.codecs web
    DemoFloat.fractions host
    (@ChessDotComMain.boot Demo.rules Demo.engine web [] n).

End DemoMain.

Lemma main_never_writes_witness :
  ChessDotComMain.table_committed (snd (DemoMain.run DemoNet.healthy DemoHost.ready 0%nat))
  = [].
Proof.
  refine (@main_never_writes Demo.rules Demo.engine Demo.reader DemoStore.codecs
            DemoNet.healthy DemoFloat.fractions DemoHost.ready
            (@ChessDotComMain.boot Demo.rules Demo.engine DemoNet.healthy [] 0%nat)
            (snd (DemoMain.run DemoNet.healthy DemoHost.ready 0%nat)) (Ok tt) _).
  vm_compute. reflexivity.
Defined.

Lemma main_without_database_witness :
  DemoMain.run DemoNet.healthy DemoHost.no_database 0%nat
  = (Ok tt,
     @ChessDotComMain.Build_Process Demo.rules Demo.engine DemoNet.healthy
       [] [] 0 0%nat
       [ChessDotComMain.Line "Database connection error: connection refused";
        ChessDotComMain.Line "Fatal: Could not connect to database. Aborting analysis."]
       false false false None).
Proof.
  apply (@main_without_database Demo.rules Demo.engine Demo.reader
           DemoStore.codecs DemoNet.healthy DemoFloat.fractions
           DemoHost.no_database [] 0%nat "connection refused").
  reflexivity.
Defined.

Lemma main_without_network_witness :
  DemoMain.run DemoNet.unreachable DemoHost.ready tt
  = (Ok tt,
     @ChessDotComMain.Build_Process Demo.rules Demo.engine DemoNet.unreachable
       [] [] 0 tt
       [ChessDotComMain.Line "Initializing Stockfish at depth 18...";
        ChessDotComMain.Line "Fetching last 1 games for hunterisbad1 from Chess.com...";
        ChessDotComMain.Line "Checking Chess.com archives for hunterisbad1...";
        ChessDotComMain.Line
          (nl ++ "AN ERROR OCCURRED: " ++ exn_message (UnboundLocalError "response"));
        ChessDotComMain.Line "Database connection closed."]
       false false true (Some 0%nat)).
Proof.
  apply (@main_without_network Demo.rules Demo.engine Demo.reader
           DemoStore.codecs DemoNet.unreachable DemoFloat.fractions
           DemoHost.ready [] tt tt 0%nat "Connection refused");
    reflexivity.
Defined.

(** A whole run on the healthy demo network: one game is fetched, found
    new, analyzed, not saved, and reported; one cursor is left open. *)
Example main_demo_run :
  exists p,
    DemoMain.run DemoNet.healthy DemoHost.ready 0%nat = (Ok tt, p) /\
    ChessDotComMain.cursors p = 1 /\
    ChessDotComMain.table_committed p = [] /\
    In (ChessDotComMain.Line
          "Error inserting game SHA256_digest-of-1. Nf3 Nf6: name 'overall_acpl' is not defined")
       (ChessDotComMain.terminal p).
Proof.
  exists (snd (DemoMain.run DemoNet.healthy DemoHost.ready 0%nat)).
  vm_compute. repeat split. auto 20.
Qed.


Lemma save_then_check_witness :
  fst (@ChessDotComMain.is_game_analyzed Demo.rules Demo.reader DemoStore.codecs
         "1. e4 e5"
         (snd (@ChessDotCom.save_game_analysis Demo.rules Demo.reader
                 DemoStore.codecs "1. e4 e5" DemoRun.white_result
                 DemoStore.empty_store)))
  = fst (@ChessDotComMain.is_game_analyzed Demo.rules Demo.reader DemoStore.codecs
           "1. e4 e5" DemoStore.empty_store).
Proof.
  apply (@save_then_check Demo.rules Demo.reader DemoStore.codecs).
  reflexivity.
Defined.

(** * Further properties: score normalizer *)

(** X1: Among lost mates the scale runs the other way round from won ones:
    the farther the mate, the lower the score, so being mated in five
    ranks below being mated in one; a mate already on the board
    ([Mate(0)]) is booked as lost, at exactly -10000. *)
Theorem score_to_cp_lost_mates (n1 n2 : Z) (Hfarther : n1 < n2) (Hlost : n2 <= 0) :
  score_to_cp (Mate n1) MATE_VALUE < score_to_cp (Mate n2) MATE_VALUE /\
  score_to_cp (Mate n2) MATE_VALUE <= score_to_cp (Mate 0) MATE_VALUE /\
  score_to_cp (Mate 0) MATE_VALUE = -10000.
Proof.
  rewrite (score_to_cp_losing n1), (score_to_cp_losing n2), (score_to_cp_losing 0)
    by lia.
  cbn [Z.abs]. lia.
Qed.

Lemma score_to_cp_lost_mates_witness :
  score_to_cp (Mate (-5)) MATE_VALUE < score_to_cp (Mate (-1)) MATE_VALUE /\
  score_to_cp (Mate (-1)) MATE_VALUE <= score_to_cp (Mate 0) MATE_VALUE /\
  score_to_cp (Mate 0) MATE_VALUE = -10000.
Proof. apply score_to_cp_lost_mates; lia. Defined.

(** * Further properties: the lichess entry point *)

Section LichessFacts.
Import LichessMain.
Context `{ChessRules} `{!Engine} `{!PgnReader} `{PyFloat} `{!Machine}.

(** Analyzing a game prints nothing and leaves the engine running and
    bound as it was. *)
Lemma run_analyze_game_quiet (game_pgn : string) (p p' : Process)
    (r : result AnalysisData) :
  run_analyze_game game_pgn p = (r, p') ->
  terminal p' = terminal p /\
  engine_alive p' = engine_alive p /\
  (engine_handle p' = None <-> engine_handle p = None).
Proof.
  unfold run_analyze_game.
  destruct (engine_handle p) as [e |] eqn:He;
    [| intros Hrun; injection Hrun as _ <-; rewrite He; tauto].
  destruct (read_game game_pgn) as [game |];
    [| intros Hrun; injection Hrun as _ <-; rewrite He; tauto].
  destruct (analyze_game _ _ _) as [r1 w]. intros Hrun. injection Hrun as _ <-.
  cbn. repeat split; discriminate.
Qed.

Lemma analyze_all_quiet (yielded : list string) (failure : option exn) :
  forall all_cpl_results p p' r,
    analyze_all yielded failure all_cpl_results p = (r, p') ->
    terminal p' = terminal p /\
    engine_alive p' = engine_alive p /\
    (engine_handle p' = None <-> engine_handle p = None).
Proof.
  induction yielded as [| game_pgn rest IH]; intros acc p p' r; cbn [analyze_all].
  - destruct failure; intros Hrun; injection Hrun as _ <-; tauto.
  - unfold bind. destruct (run_analyze_game game_pgn p) as [[result | e] p1] eqn:Hg;
      apply run_analyze_game_quiet in Hg as (Ht & Ha & Hh).
    + intros Hrun. apply IH in Hrun as (Ht' & Ha' & Hh').
      rewrite Ht', Ha', Hh'. tauto.
    + intros Hrun. injection Hrun as _ <-. tauto.
Qed.

(** A generator that ends in an exception makes the loop raise, whatever
    was analyzed before. *)
Lemma analyze_all_broken (yielded : list string) (x : exn) :
  forall all_cpl_results p,
    exists e p', analyze_all yielded (Some x) all_cpl_results p = (Raise e, p').
Proof.
  induction yielded as [| game_pgn rest IH]; intros acc p; cbn [analyze_all].
  - exists x, p. reflexivity.
  - unfold bind. destruct (run_analyze_game game_pgn p) as [[result | e] p1].
    + apply IH.
    + exists e, p1. reflexivity.
Qed.



(** X29: With the engine started and no game exported, the lichess script
    calls the reporter on the no-data result: the run prints its two
    progress lines and "No aggregated data to report.". *)
Theorem lichess_main_no_games (e : EngineState)
    (Hstarted : popen_uci STOCKFISH_PATH = Ok e)
    (Hnone : export_by_player USERNAME NUM_GAMES = ([], None)) :
  main boot
  = (Ok tt,
     {| terminal :=
          [("Initializing Stockfish at depth " ++ str ANALYSIS_DEPTH ++ "...")%string;
           ("Fetching last " ++ str NUM_GAMES ++ " games for " ++ USERNAME
            ++ "..." ++ nl)%string;
           "No aggregated data to report."];
        engine_alive := false;
        engine_handle := Some e |}).
Proof.
  cbv [main try_finally try_except main_body bind print_line modify start_engine].
  rewrite Hstarted, Hnone. reflexivity.
Qed.

(** X30: When the export of the games ends in an exception, everything
    analyzed up to then is dropped: the run prints its two progress lines
    and one error line, and no report. *)
Theorem lichess_main_broken_export (e : EngineState) (yielded : list string)
    (x : exn)
    (Hstarted : popen_uci STOCKFISH_PATH = Ok e)
    (Hbroken : export_by_player USERNAME NUM_GAMES = (yielded, Some x)) :
  exists err p',
    main boot = (Ok tt, p') /\
    terminal p'
    = [("Initializing Stockfish at depth " ++ str ANALYSIS_DEPTH ++ "...")%string;
       ("Fetching last " ++ str NUM_GAMES ++ " games for " ++ USERNAME
        ++ "..." ++ nl)%string;
       (nl ++ "AN ERROR OCCURRED: " ++ exn_message err)%string] /\
    engine_alive p' = false.
Proof.
  cbv [main try_finally try_except main_body bind print_line modify start_engine].
  rewrite Hstarted, Hbroken. cbn [fst snd boot terminal engine_alive engine_handle app].
  match goal with
  | |- context [analyze_all yielded (Some x) [] ?q] =>
      destruct (analyze_all_broken yielded x [] q) as (err & p1 & Hall);
      pose proof (analyze_all_quiet _ _ _ _ _ _ Hall) as (Ht & Ha & Hh);
      rewrite Hall
  end.
  cbn in Ht, Ha, Hh. exists err.
  cbv [is_Exception main_cleanup get engine_quit ret].
  destruct (engine_handle p1) as [h |] eqn:Hp1.
  - eexists. split; [reflexivity |]. cbn. rewrite Ht. split; reflexivity.
  - exfalso. destruct Hh as [Hh _]. discriminate (Hh eq_refl).
Qed.

End LichessFacts.

Lemma lichess_main_no_games_witness :
  DemoLichess.run DemoLichess.no_games
  = (Ok tt,
     @LichessMain.Build_Process Demo.rules Demo.engine
       ["Initializing Stockfish at depth 18...";
        ("Fetching last 10 games for kirat0070..." ++ nl)%string;
        "No aggregated data to report."]
       false (Some 0%nat)).
Proof.
  apply (@lichess_main_no_games Demo.rules Demo.engine Demo.reader
           DemoFloat.fractions DemoLichess.no_games 0%nat);
    reflexivity.
Defined.

Lemma lichess_main_broken_export_witness :
  exists err p',
    DemoLichess.run DemoLichess.broken_stream = (Ok tt, p') /\
    LichessMain.terminal p'
    = ["Initializing Stockfish at depth 18...";
       ("Fetching last 10 games for kirat0070..." ++ nl)%string;
       (nl ++ "AN ERROR OCCURRED: " ++ exn_message err)%string] /\
    LichessMain.engine_alive p' = false.
Proof.
  apply (@lichess_main_broken_export Demo.rules Demo.engine Demo.reader
           DemoFloat.fractions DemoLichess.broken_stream 0%nat
           ["1. e4 e5"] (ConnectionError "Connection reset"));
    reflexivity.
Defined.

Lemma analyze_game_returns_witness :
  exists data w',
    @analyze_game Demo.rules Demo.engine Demo.reader "hunterisbad1" "1. e4 e5"
      Demo.world
    = (Ok data, w').
Proof.
  apply (@analyze_game_returns Demo.rules Demo.engine Demo.reader
           "hunterisbad1" "1. e4 e5" Demo.game "hunterisbad1" "opponent");
    try reflexivity.
  intros e b. eexists _, _. reflexivity.
Defined.
